(** * msi-ec: a model of the MSI embedded-controller driver (msi-ec.c)

    The driver talks to an 8-bit register file through the kernel's
    [ec_read]/[ec_write], holds one hardware profile ([conf]) chosen at load
    time by firmware identifier, and exposes sysfs attributes whose show and
    store callbacks decode and encode register bytes.

    C integers are modelled by [Z]; a value stored in a [u8] variable is
    reduced modulo 256 at the point where the C code stores it.  C strings
    are [string]s (the bytes before the terminating NUL).  Functions that
    return a negative errno return [Error errno]; the global [conf] is an
    explicit argument of every callback. *)

From Stdlib Require Import ZArith List String Ascii Bool Lia DecimalString.
Import ListNotations.
Local Open Scope string_scope.
Local Open Scope Z_scope.

(** ** Return values *)

Definition EIO : Z := 5.
Definition EINVAL : Z := 22.
Definition ERANGE : Z := 34.
Definition EOPNOTSUPP : Z := 95.

(** [Ok a] is a non-negative return, [Error e] is the return value [-e], and
    [Oops] is an integer division by zero, which the kernel does not survive. *)
Inductive result (A : Type) : Type :=
| Ok (a : A)
| Error (errno : Z)
| Oops.

Arguments Ok {A} a.
Arguments Error {A} errno.
Arguments Oops {A}.

Definition is_ok {A : Type} (r : result A) : bool :=
  match r with Ok _ => true | _ => false end.

(** The common tail of the store callbacks:
    [if (result < 0) return result; return count;]. *)
Definition return_count (r : result unit) (count : Z) : result Z :=
  match r with
  | Ok _ => Ok count
  | Error e => Error e
  | Oops => Oops
  end.

(** ** The register file behind [ec_read] and [ec_write]

    [ec_read] and [ec_write] come from the ACPI EC driver.  The model keeps
    the register contents, the addresses at which the transport currently
    fails (with the errno it reports), and the list of bytes written so
    far, most recent first. *)

Definition u8 (z : Z) : Z := z mod 256.

Record ec : Type := mk_ec {
  regs : Z -> Z;
  read_fault : Z -> option positive;
  write_fault : Z -> option positive;
  written : list (Z * Z)
}.

Definition ec_read (addr : Z) (st : ec) : result Z :=
  match read_fault st (u8 addr) with
  | Some e => Error (Z.pos e)
  | None => Ok (u8 (regs st (u8 addr)))
  end.

Definition ec_write (addr val : Z) (st : ec) : result unit * ec :=
  match write_fault st (u8 addr) with
  | Some e => (Error (Z.pos e), st)
  | None =>
      (Ok tt,
       {| regs := fun a => if a =? u8 addr then u8 val else regs st a;
          read_fault := read_fault st;
          write_fault := write_fault st;
          written := (u8 addr, u8 val) :: written st |})
  end.

(** ** Kernel string helpers *)

Definition newline : string := String "010"%char EmptyString.

(** [strcmp(x, y) == 0]. *)
Definition strcmp_eq (x y : string) : bool := String.eqb x y.

(** [#define streq(x, y) (strcmp(x, y) == 0 || strcmp(x, y "\n") == 0)] *)
Definition streq (x y : string) : bool :=
  strcmp_eq x y || strcmp_eq x (y ++ newline).

(** [sysfs_streq] of lib/string.c: equality up to one trailing newline. *)
Fixpoint sysfs_streq (s1 s2 : string) : bool :=
  match s1, s2 with
  | String c1 r1, String c2 r2 =>
      if Ascii.eqb c1 c2 then sysfs_streq r1 r2
      else false
  | EmptyString, EmptyString => true
  | EmptyString, String c2 r2 =>
      Ascii.eqb c2 "010"%char && String.eqb r2 EmptyString
  | String c1 r1, EmptyString =>
      Ascii.eqb c1 "010"%char && String.eqb r1 EmptyString
  end.

(** [match_string(array, -1, string)] of lib/string_helpers.c over a
    NULL-terminated array: the index of the first equal entry, or
    [-EINVAL]. *)
Fixpoint match_string_from (index : Z) (array : list string) (str : string)
  : Z :=
  match array with
  | [] => - EINVAL
  | item :: rest =>
      if strcmp_eq item str then index
      else match_string_from (index + 1) rest str
  end.

Definition match_string (array : list string) (str : string) : Z :=
  match_string_from 0 array str.

Definition digit_of (c : ascii) : option Z :=
  let n := Z.of_N (N_of_ascii c) in
  if (48 <=? n) && (n <=? 57) then Some (n - 48) else None.

(** [_parse_integer] of lib/kstrtox.c in base 10: the value of the leading
    digits, how many there are, and what follows them. *)
Fixpoint _parse_integer (s : string) (acc : Z) : Z * nat * string :=
  match s with
  | String c r =>
      match digit_of c with
      | Some d =>
          let '(v, n, rest) := _parse_integer r (acc * 10 + d) in
          (v, S n, rest)
      | None => (acc, O, s)
      end
  | EmptyString => (acc, O, s)
  end.

(** [kstrtou8(s, 10, &res)]: an optional plus sign, at least one digit, an
    optional final newline; [-ERANGE] when the number does not fit. *)
Definition kstrtou8 (s : string) : result Z :=
  let s1 := match s with
            | String "+"%char r => r
            | _ => s
            end in
  let '(v, n, rest) := _parse_integer s1 0 in
  if 2 ^ 64 <=? v then Error ERANGE
  else if Nat.eqb n 0 then Error EINVAL
  else
    let rest' := match rest with
                 | String "010"%char r => r
                 | _ => rest
                 end in
    match rest' with
    | EmptyString => if v <=? 255 then Ok v else Error ERANGE
    | String _ _ => Error EINVAL
    end.

(** [%i] *)
Definition fmt_i (z : Z) : string := NilZero.string_of_int (Z.to_int z).

(** [sysfs_emit(buf, "%s\n", s)], [sysfs_emit(buf, "%i\n", z)] and
    [sysfs_emit(buf, "%s (%i)\n", "unknown", z)]: the text left in [buf]. *)
Definition emit_s (s : string) : string := s ++ newline.
Definition emit_i (z : Z) : string := fmt_i z ++ newline.
Definition emit_unknown (z : Z) : string :=
  "unknown (" ++ fmt_i z ++ ")" ++ newline.

(** ** Helper functions *)

(** [#define set_bit(v, b) (v |= (1 << b))] on a [u8] variable. *)
Definition set_bit (v b : Z) : Z := u8 (Z.lor v (Z.shiftl 1 b)).

(** [#define unset_bit(v, b) (v &= ~(1 << b))] on a [u8] variable. *)
Definition unset_bit (v b : Z) : Z := u8 (Z.land v (Z.lnot (Z.shiftl 1 b))).

(** [#define check_bit(v, b) ((bool)((v >> b) & 1))] *)
Definition check_bit (v b : Z) : bool :=
  negb (Z.land (Z.shiftr v b) 1 =? 0).

(** [ec_read_seq(addr, buf, len)]: the bytes stored at [buf], or the first
    failure. *)
Fixpoint ec_read_seq (addr : Z) (len : nat) (st : ec) : result (list Z) :=
  match len with
  | O => Ok []
  | S n =>
      match ec_read addr st with
      | Ok b =>
          match ec_read_seq (addr + 1) n st with
          | Ok bs => Ok (b :: bs)
          | Error e => Error e
          | Oops => Oops
          end
      | Error e => Error e
      | Oops => Oops
      end
  end.

Definition ec_set_by_mask (addr mask : Z) (st : ec) : result unit * ec :=
  match ec_read addr st with
  | Ok stored => ec_write addr (u8 (Z.lor stored (u8 mask))) st
  | Error e => (Error e, st)
  | Oops => (Oops, st)
  end.

Definition ec_unset_by_mask (addr mask : Z) (st : ec) : result unit * ec :=
  match ec_read addr st with
  | Ok stored => ec_write addr (u8 (Z.land stored (Z.lnot (u8 mask)))) st
  | Error e => (Error e, st)
  | Oops => (Oops, st)
  end.

(** [ec_check_by_mask] and [ec_check_bit] store into [*output] on success
    only: [Ok b] is a return of 0 with [b] stored, and after an error
    [*output] is what it was before the call. *)
Definition ec_check_by_mask (addr mask : Z) (st : ec) : result bool :=
  match ec_read addr st with
  | Ok stored => Ok (Z.land stored (u8 mask) =? u8 mask)
  | Error e => Error e
  | Oops => Oops
  end.

Definition ec_set_bit (addr bit : Z) (value : bool) (st : ec)
  : result unit * ec :=
  match ec_read addr st with
  | Ok stored =>
      ec_write addr
        (if value then set_bit stored (u8 bit) else unset_bit stored (u8 bit))
        st
  | Error e => (Error e, st)
  | Oops => (Oops, st)
  end.

Definition ec_check_bit (addr bit : Z) (st : ec) : result bool :=
  match ec_read addr st with
  | Ok stored => Ok (check_bit stored (u8 bit))
  | Error e => Error e
  | Oops => Oops
  end.

(** The contents of a local [bool] passed as [output] once the call has
    returned, when the caller does not look at the return value:
    [uninit] is whatever the local held before. *)
Definition output_or (uninit : bool) (r : result bool) : bool :=
  match r with
  | Ok b => b
  | _ => uninit
  end.

(** ** Hardware profiles

    The struct declarations live in ec_memory_configuration.h; the fields
    below are the ones the initialisers and the callbacks of msi-ec.c name.
    A field [f] that several structs share is the projection [s_f] of the
    member [s] it belongs to.  A member left out of an initialiser is zero. *)

Record msi_ec_charge_control_conf : Type := {
  charge_control_address : Z;
  offset_start : Z;
  offset_end : Z;
  range_min : Z;
  range_max : Z
}.

Record msi_ec_webcam_conf : Type := {
  webcam_address : Z;
  block_address : Z;
  webcam_bit : Z
}.

Record msi_ec_fn_win_swap_conf : Type := {
  fn_win_swap_address : Z;
  fn_win_swap_bit : Z;
  invert : bool
}.

Record msi_ec_cooler_boost_conf : Type := {
  cooler_boost_address : Z;
  cooler_boost_bit : Z
}.

(** One row of a mode table; the row that ends a table has no name. *)
Record msi_ec_mode : Type := {
  name : option string;
  value : Z
}.

Record msi_ec_shift_mode_conf : Type := {
  shift_mode_address : Z;
  shift_mode_modes : list msi_ec_mode
}.

Record msi_ec_super_battery_conf : Type := {
  super_battery_address : Z;
  mask : Z
}.

Record msi_ec_fan_mode_conf : Type := {
  fan_mode_address : Z;
  fan_mode_modes : list msi_ec_mode
}.

Record msi_ec_cpu_conf : Type := {
  cpu_rt_temp_address : Z;
  cpu_rt_fan_speed_address : Z;
  rt_fan_speed_base_min : Z;
  rt_fan_speed_base_max : Z;
  bs_fan_speed_address : Z;
  bs_fan_speed_base_min : Z;
  bs_fan_speed_base_max : Z
}.

Record msi_ec_gpu_conf : Type := {
  gpu_rt_temp_address : Z;
  gpu_rt_fan_speed_address : Z
}.

Record msi_ec_led_conf : Type := {
  micmute_led_address : Z;
  mute_led_address : Z;
  leds_bit : Z
}.

Record msi_ec_kbd_bl_conf : Type := {
  bl_mode_address : Z;
  bl_modes : list Z;
  max_mode : Z;
  bl_state_address : Z;
  state_base_value : Z;
  max_state : Z
}.

(** [allowed_fw] is the NULL-terminated array of firmware names, without
    its terminator; the empty list also stands for the NULL pointer that
    [load_configuration] stores in the loaded copy. *)
Record msi_ec_conf : Type := {
  allowed_fw : list string;
  charge_control : msi_ec_charge_control_conf;
  webcam : msi_ec_webcam_conf;
  fn_win_swap : msi_ec_fn_win_swap_conf;
  cooler_boost : msi_ec_cooler_boost_conf;
  shift_mode : msi_ec_shift_mode_conf;
  super_battery : msi_ec_super_battery_conf;
  fan_mode : msi_ec_fan_mode_conf;
  cpu : msi_ec_cpu_conf;
  gpu : msi_ec_gpu_conf;
  leds : msi_ec_led_conf;
  kbd_bl : msi_ec_kbd_bl_conf
}.

(** [MSI_EC_MODE_NULL]: the code scans a table while [modes[i].name] is
    not NULL. *)
Definition MSI_EC_MODE_NULL : msi_ec_mode := {| name := None; value := 0 |}.

Definition SM_ECO_NAME : string := "eco".
Definition SM_COMFORT_NAME : string := "comfort".
Definition SM_SPORT_NAME : string := "sport".
Definition SM_TURBO_NAME : string := "turbo".

Definition FM_AUTO_NAME : string := "auto".
Definition FM_SILENT_NAME : string := "silent".
Definition FM_BASIC_NAME : string := "basic".
Definition FM_ADVANCED_NAME : string := "advanced".

(** The macros of ec_memory_configuration.h that msi-ec.c uses as plain
    numbers.  The header is not among the sources, so they are parameters
    of everything that mentions them. *)
Class ec_memory_configuration : Type := {
  MSI_EC_ADDR_UNKNOWN : Z;
  MSI_EC_ADDR_UNSUPP : Z;
  MSI_EC_FW_VERSION_ADDRESS : Z;
  MSI_EC_FW_VERSION_LENGTH : Z
}.

(** ** Battery thresholds (power_supply attributes) *)

Definition charge_control_threshold_show (offset : Z) (conf : msi_ec_conf)
    (st : ec) : result string :=
  match ec_read (charge_control_address (charge_control conf)) st with
  | Ok rdata =>
      (* thresholds are unknown *)
      if rdata =? 0x80 then Ok (emit_s "0")
      else Ok (emit_i (rdata - u8 offset))
  | Error e => Error e
  | Oops => Oops
  end.

Definition charge_control_threshold_store (offset : Z) (conf : msi_ec_conf)
    (buf : string) (count : Z) (st : ec) : result Z * ec :=
  match kstrtou8 buf with
  | Ok parsed =>
      let wdata := u8 (parsed + u8 offset) in
      if (wdata <? range_min (charge_control conf))
         || (wdata >? range_max (charge_control conf))
      then (Error EINVAL, st)
      else
        let (r, st') :=
          ec_write (charge_control_address (charge_control conf)) wdata st in
        (return_count r count, st')
  | Error e => (Error e, st)
  | Oops => (Oops, st)
  end.

Definition charge_control_start_threshold_show (conf : msi_ec_conf) :=
  charge_control_threshold_show (offset_start (charge_control conf)) conf.

Definition charge_control_start_threshold_store (conf : msi_ec_conf) :=
  charge_control_threshold_store (offset_start (charge_control conf)) conf.

Definition charge_control_end_threshold_show (conf : msi_ec_conf) :=
  charge_control_threshold_show (offset_end (charge_control conf)) conf.

Definition charge_control_end_threshold_store (conf : msi_ec_conf) :=
  charge_control_threshold_store (offset_end (charge_control conf)) conf.

(** ** Platform device attributes (root group) *)

Definition webcam_common_show (address : Z) (conf : msi_ec_conf)
    (str_on_0 str_on_1 : string) (st : ec) : result string :=
  match ec_check_bit address (webcam_bit (webcam conf)) st with
  | Ok bit_value =>
      if bit_value then Ok (emit_s str_on_1) else Ok (emit_s str_on_0)
  | Error e => Error e
  | Oops => Oops
  end.

Definition webcam_common_store (address : Z) (conf : msi_ec_conf)
    (buf : string) (count : Z) (str_for_0 str_for_1 : string) (st : ec)
  : result Z * ec :=
  let (r1, st1) :=
    if sysfs_streq str_for_1 buf
    then ec_set_bit address (webcam_bit (webcam conf)) true st
    else (Error EINVAL, st) in
  let (r2, st2) :=
    if sysfs_streq str_for_0 buf
    then ec_set_bit address (webcam_bit (webcam conf)) false st1
    else (r1, st1) in
  (return_count r2 count, st2).

Definition webcam_show (conf : msi_ec_conf) (st : ec) : result string :=
  webcam_common_show (webcam_address (webcam conf)) conf "off" "on" st.

Definition webcam_store (conf : msi_ec_conf) (buf : string) (count : Z)
    (st : ec) : result Z * ec :=
  webcam_common_store (webcam_address (webcam conf)) conf buf count
    "off" "on" st.

Definition webcam_block_show (conf : msi_ec_conf) (st : ec) : result string :=
  webcam_common_show (block_address (webcam conf)) conf "on" "off" st.

Definition webcam_block_store (conf : msi_ec_conf) (buf : string) (count : Z)
    (st : ec) : result Z * ec :=
  webcam_common_store (block_address (webcam conf)) conf buf count
    "on" "off" st.

(** [fn_key_show], [win_key_show], [cooler_boost_show] and
    [super_battery_show] assign the return value of the register read to
    [result] and never test it.  [uninit] is what their local [bool] held
    before the call. *)
Definition fn_key_show (uninit : bool) (conf : msi_ec_conf) (st : ec)
  : result string :=
  let bit_value :=
    output_or uninit
      (ec_check_bit (fn_win_swap_address (fn_win_swap conf))
         (fn_win_swap_bit (fn_win_swap conf)) st) in
  if xorb bit_value (invert (fn_win_swap conf))
  then Ok (emit_s "right")
  else Ok (emit_s "left").

(** [fn_key_store] and [win_key_store] leave [result] unassigned when the
    input is neither side; [uninit] is what the local held. *)
Definition fn_key_store (uninit : result unit) (conf : msi_ec_conf)
    (buf : string) (count : Z) (st : ec) : result Z * ec :=
  let (r, st') :=
    if streq buf "right" then
      ec_set_bit (fn_win_swap_address (fn_win_swap conf))
        (fn_win_swap_bit (fn_win_swap conf))
        (xorb true (invert (fn_win_swap conf))) st
    else if streq buf "left" then
      ec_set_bit (fn_win_swap_address (fn_win_swap conf))
        (fn_win_swap_bit (fn_win_swap conf))
        (xorb false (invert (fn_win_swap conf))) st
    else (uninit, st) in
  (return_count r count, st').

Definition win_key_show (uninit : bool) (conf : msi_ec_conf) (st : ec)
  : result string :=
  let bit_value :=
    output_or uninit
      (ec_check_bit (fn_win_swap_address (fn_win_swap conf))
         (fn_win_swap_bit (fn_win_swap conf)) st) in
  if xorb bit_value (invert (fn_win_swap conf))
  then Ok (emit_s "left")
  else Ok (emit_s "right").

Definition win_key_store (uninit : result unit) (conf : msi_ec_conf)
    (buf : string) (count : Z) (st : ec) : result Z * ec :=
  let (r, st') :=
    if streq buf "right" then
      ec_set_bit (fn_win_swap_address (fn_win_swap conf))
        (fn_win_swap_bit (fn_win_swap conf))
        (xorb false (invert (fn_win_swap conf))) st
    else if streq buf "left" then
      ec_set_bit (fn_win_swap_address (fn_win_swap conf))
        (fn_win_swap_bit (fn_win_swap conf))
        (xorb true (invert (fn_win_swap conf))) st
    else (uninit, st) in
  (return_count r count, st').

Definition battery_mode_show (conf : msi_ec_conf) (st : ec) : result string :=
  match ec_read (charge_control_address (charge_control conf)) st with
  | Ok rdata =>
      if rdata =? range_max (charge_control conf) then Ok (emit_s "max")
      else if rdata =? offset_end (charge_control conf) + 80
      then Ok (emit_s "medium")
      else if rdata =? offset_end (charge_control conf) + 60
      then Ok (emit_s "min")
      else Ok (emit_unknown rdata)
  | Error e => Error e
  | Oops => Oops
  end.

Definition battery_mode_store (conf : msi_ec_conf) (buf : string) (count : Z)
    (st : ec) : result Z * ec :=
  let (r, st') :=
    if streq buf "max" then
      ec_write (charge_control_address (charge_control conf))
        (range_max (charge_control conf)) st
    else if streq buf "medium" then
      ec_write (charge_control_address (charge_control conf))
        (offset_end (charge_control conf) + 80) st
    else if streq buf "min" then
      ec_write (charge_control_address (charge_control conf))
        (offset_end (charge_control conf) + 60) st
    else (Error EINVAL, st) in
  (return_count r count, st').

Definition cooler_boost_show (uninit : bool) (conf : msi_ec_conf) (st : ec)
  : result string :=
  let bit_value :=
    output_or uninit
      (ec_check_bit (cooler_boost_address (cooler_boost conf))
         (cooler_boost_bit (cooler_boost conf)) st) in
  if bit_value then Ok (emit_s "on") else Ok (emit_s "off").

Definition cooler_boost_store (conf : msi_ec_conf) (buf : string) (count : Z)
    (st : ec) : result Z * ec :=
  let (r, st') :=
    if streq buf "on" then
      ec_set_bit (cooler_boost_address (cooler_boost conf))
        (cooler_boost_bit (cooler_boost conf)) true st
    else if streq buf "off" then
      ec_set_bit (cooler_boost_address (cooler_boost conf))
        (cooler_boost_bit (cooler_boost conf)) false st
    else (Error EINVAL, st) in
  (return_count r count, st').

(** *** Mode tables

    The three loops [for (i = 0; modes[i].name; i++)] of the mode
    attributes, over the rows of a table. *)

Fixpoint available_modes_loop (modes : list msi_ec_mode) : string :=
  match modes with
  | m :: rest =>
      match name m with
      | Some n => emit_s n ++ available_modes_loop rest
      | None => EmptyString
      end
  | [] => EmptyString
  end.

Fixpoint mode_show_loop (modes : list msi_ec_mode) (rdata : Z) : string :=
  match modes with
  | m :: rest =>
      match name m with
      | Some n =>
          if rdata =? value m then emit_s n
          else mode_show_loop rest rdata
      | None => emit_unknown rdata
      end
  | [] => emit_unknown rdata
  end.

Fixpoint mode_store_loop (address : Z) (modes : list msi_ec_mode)
    (buf : string) (count : Z) (st : ec) : result Z * ec :=
  match modes with
  | m :: rest =>
      match name m with
      | Some n =>
          if sysfs_streq n buf then
            let (r, st') := ec_write address (value m) st in
            (return_count r count, st')
          else mode_store_loop address rest buf count st
      | None => (Error EINVAL, st)
      end
  | [] => (Error EINVAL, st)
  end.

Definition available_shift_modes_show (conf : msi_ec_conf) : result string :=
  Ok (available_modes_loop (shift_mode_modes (shift_mode conf))).

Definition shift_mode_show (conf : msi_ec_conf) (st : ec) : result string :=
  match ec_read (shift_mode_address (shift_mode conf)) st with
  | Ok rdata =>
      if rdata =? 0x80 then Ok (emit_s "unspecified")
      else Ok (mode_show_loop (shift_mode_modes (shift_mode conf)) rdata)
  | Error e => Error e
  | Oops => Oops
  end.

Definition shift_mode_store (conf : msi_ec_conf) (buf : string) (count : Z)
    (st : ec) : result Z * ec :=
  mode_store_loop (shift_mode_address (shift_mode conf))
    (shift_mode_modes (shift_mode conf)) buf count st.

Definition super_battery_show (uninit : bool) (conf : msi_ec_conf) (st : ec)
  : result string :=
  let enabled :=
    output_or uninit
      (ec_check_by_mask (super_battery_address (super_battery conf))
         (mask (super_battery conf)) st) in
  if enabled then Ok (emit_s "on") else Ok (emit_s "off").

Definition super_battery_store (conf : msi_ec_conf) (buf : string)
    (count : Z) (st : ec) : result Z * ec :=
  let (r, st') :=
    if streq buf "on" then
      ec_set_by_mask (super_battery_address (super_battery conf))
        (mask (super_battery conf)) st
    else if streq buf "off" then
      ec_unset_by_mask (super_battery_address (super_battery conf))
        (mask (super_battery conf)) st
    else (Error EINVAL, st) in
  (return_count r count, st').

Definition available_fan_modes_show (conf : msi_ec_conf) : result string :=
  Ok (available_modes_loop (fan_mode_modes (fan_mode conf))).

Definition fan_mode_show (conf : msi_ec_conf) (st : ec) : result string :=
  match ec_read (fan_mode_address (fan_mode conf)) st with
  | Ok rdata => Ok (mode_show_loop (fan_mode_modes (fan_mode conf)) rdata)
  | Error e => Error e
  | Oops => Oops
  end.

Definition fan_mode_store (conf : msi_ec_conf) (buf : string) (count : Z)
    (st : ec) : result Z * ec :=
  mode_store_loop (fan_mode_address (fan_mode conf))
    (fan_mode_modes (fan_mode conf)) buf count st.

(** ** Platform device attributes (cpu and gpu groups) *)

(** C integer division; the divisor zero traps. *)
Definition c_div (a b : Z) : result Z :=
  if b =? 0 then Oops else Ok (Z.quot a b).

Definition cpu_realtime_temperature_show (conf : msi_ec_conf) (st : ec)
  : result string :=
  match ec_read (cpu_rt_temp_address (cpu conf)) st with
  | Ok rdata => Ok (emit_i rdata)
  | Error e => Error e
  | Oops => Oops
  end.

Definition cpu_realtime_fan_speed_show (conf : msi_ec_conf) (st : ec)
  : result string :=
  match ec_read (cpu_rt_fan_speed_address (cpu conf)) st with
  | Ok rdata =>
      if (rdata <? rt_fan_speed_base_min (cpu conf))
         || (rdata >? rt_fan_speed_base_max (cpu conf))
      then Error EINVAL
      else
        match c_div (100 * (rdata - rt_fan_speed_base_min (cpu conf)))
                (rt_fan_speed_base_max (cpu conf)
                 - rt_fan_speed_base_min (cpu conf)) with
        | Ok q => Ok (emit_i q)
        | Error e => Error e
        | Oops => Oops
        end
  | Error e => Error e
  | Oops => Oops
  end.

Definition cpu_basic_fan_speed_show (conf : msi_ec_conf) (st : ec)
  : result string :=
  match ec_read (bs_fan_speed_address (cpu conf)) st with
  | Ok rdata =>
      if (rdata <? bs_fan_speed_base_min (cpu conf))
         || (rdata >? bs_fan_speed_base_max (cpu conf))
      then Error EINVAL
      else
        match c_div (100 * (rdata - bs_fan_speed_base_min (cpu conf)))
                (bs_fan_speed_base_max (cpu conf)
                 - bs_fan_speed_base_min (cpu conf)) with
        | Ok q => Ok (emit_i q)
        | Error e => Error e
        | Oops => Oops
        end
  | Error e => Error e
  | Oops => Oops
  end.

Definition cpu_basic_fan_speed_store (conf : msi_ec_conf) (buf : string)
    (count : Z) (st : ec) : result Z * ec :=
  match kstrtou8 buf with
  | Ok wdata =>
      if wdata >? 100 then (Error EINVAL, st)
      else
        let (r, st') :=
          ec_write (bs_fan_speed_address (cpu conf))
            (Z.quot
               (wdata * (bs_fan_speed_base_max (cpu conf)
                         - bs_fan_speed_base_min (cpu conf))
                + 100 * bs_fan_speed_base_min (cpu conf))
               100)
            st in
        (return_count r count, st')
  | Error e => (Error e, st)
  | Oops => (Oops, st)
  end.

Definition gpu_realtime_temperature_show (conf : msi_ec_conf) (st : ec)
  : result string :=
  match ec_read (gpu_rt_temp_address (gpu conf)) st with
  | Ok rdata => Ok (emit_i rdata)
  | Error e => Error e
  | Oops => Oops
  end.

Definition gpu_realtime_fan_speed_show (conf : msi_ec_conf) (st : ec)
  : result string :=
  match ec_read (gpu_rt_fan_speed_address (gpu conf)) st with
  | Ok rdata => Ok (emit_i rdata)
  | Error e => Error e
  | Oops => Oops
  end.

(** ** Attributes and groups

    The driver tells attributes apart by address; one constructor per
    [dev_attr_*] object. *)

Inductive attribute : Type :=
| dev_attr_charge_control_start_threshold
| dev_attr_charge_control_end_threshold
| dev_attr_webcam
| dev_attr_webcam_block
| dev_attr_fn_key
| dev_attr_win_key
| dev_attr_battery_mode
| dev_attr_cooler_boost
| dev_attr_available_shift_modes
| dev_attr_shift_mode
| dev_attr_super_battery
| dev_attr_available_fan_modes
| dev_attr_fan_mode
| dev_attr_fw_version
| dev_attr_fw_release_date
| dev_attr_cpu_realtime_temperature
| dev_attr_cpu_realtime_fan_speed
| dev_attr_cpu_basic_fan_speed
| dev_attr_gpu_realtime_temperature
| dev_attr_gpu_realtime_fan_speed
| dev_attr_ec_dump
| dev_attr_ec_set
| dev_attr_ec_get.

Definition attribute_eqb (a b : attribute) : bool :=
  match a, b with
  | dev_attr_charge_control_start_threshold,
    dev_attr_charge_control_start_threshold
  | dev_attr_charge_control_end_threshold,
    dev_attr_charge_control_end_threshold
  | dev_attr_webcam, dev_attr_webcam
  | dev_attr_webcam_block, dev_attr_webcam_block
  | dev_attr_fn_key, dev_attr_fn_key
  | dev_attr_win_key, dev_attr_win_key
  | dev_attr_battery_mode, dev_attr_battery_mode
  | dev_attr_cooler_boost, dev_attr_cooler_boost
  | dev_attr_available_shift_modes, dev_attr_available_shift_modes
  | dev_attr_shift_mode, dev_attr_shift_mode
  | dev_attr_super_battery, dev_attr_super_battery
  | dev_attr_available_fan_modes, dev_attr_available_fan_modes
  | dev_attr_fan_mode, dev_attr_fan_mode
  | dev_attr_fw_version, dev_attr_fw_version
  | dev_attr_fw_release_date, dev_attr_fw_release_date
  | dev_attr_cpu_realtime_temperature, dev_attr_cpu_realtime_temperature
  | dev_attr_cpu_realtime_fan_speed, dev_attr_cpu_realtime_fan_speed
  | dev_attr_cpu_basic_fan_speed, dev_attr_cpu_basic_fan_speed
  | dev_attr_gpu_realtime_temperature, dev_attr_gpu_realtime_temperature
  | dev_attr_gpu_realtime_fan_speed, dev_attr_gpu_realtime_fan_speed
  | dev_attr_ec_dump, dev_attr_ec_dump
  | dev_attr_ec_set, dev_attr_ec_set
  | dev_attr_ec_get, dev_attr_ec_get => true
  | _, _ => false
  end.

(** [attr->mode]: 0644 for [DEVICE_ATTR_RW] and the writable initialiser,
    0444 for [DEVICE_ATTR_RO] and the read-only initialisers, 0200 for
    [DEVICE_ATTR_WO]. *)
Definition mode (attr : attribute) : Z :=
  match attr with
  | dev_attr_available_shift_modes
  | dev_attr_available_fan_modes
  | dev_attr_fw_version
  | dev_attr_fw_release_date
  | dev_attr_cpu_realtime_temperature
  | dev_attr_cpu_realtime_fan_speed
  | dev_attr_gpu_realtime_temperature
  | dev_attr_gpu_realtime_fan_speed
  | dev_attr_ec_dump => 292
  | dev_attr_ec_set => 128
  | _ => 420
  end.

Definition msi_battery_attrs : list attribute :=
  [dev_attr_charge_control_start_threshold;
   dev_attr_charge_control_end_threshold].

Definition msi_root_attrs : list attribute :=
  [dev_attr_webcam; dev_attr_webcam_block; dev_attr_fn_key; dev_attr_win_key;
   dev_attr_battery_mode; dev_attr_cooler_boost;
   dev_attr_available_shift_modes; dev_attr_shift_mode;
   dev_attr_super_battery; dev_attr_available_fan_modes; dev_attr_fan_mode;
   dev_attr_fw_version; dev_attr_fw_release_date].

Definition msi_cpu_attrs : list attribute :=
  [dev_attr_cpu_realtime_temperature; dev_attr_cpu_realtime_fan_speed;
   dev_attr_cpu_basic_fan_speed].

Definition msi_gpu_attrs : list attribute :=
  [dev_attr_gpu_realtime_temperature; dev_attr_gpu_realtime_fan_speed].

Definition msi_debug_attrs : list attribute :=
  [dev_attr_fw_version; dev_attr_ec_dump; dev_attr_ec_set; dev_attr_ec_get].

Record attribute_group : Type := {
  group_name : option string;
  is_visible : option (msi_ec_conf -> attribute -> Z);
  attrs : list attribute
}.

(** What sysfs lists for a group it has created: the attributes for which
    the group's [is_visible] callback, when there is one, returns a mode
    other than 0. *)
Definition sysfs_listed (conf : msi_ec_conf) (g : attribute_group)
  : list attribute :=
  match is_visible g with
  | Some visible => filter (fun a => negb (visible conf a =? 0)) (attrs g)
  | None => attrs g
  end.

(** The globals [conf] and [conf_loaded]. *)
Record driver : Type := {
  conf : msi_ec_conf;
  conf_loaded : bool
}.

Definition zero_conf : msi_ec_conf := {|
  allowed_fw := [];
  charge_control :=
    {| charge_control_address := 0; offset_start := 0; offset_end := 0;
       range_min := 0; range_max := 0 |};
  webcam := {| webcam_address := 0; block_address := 0; webcam_bit := 0 |};
  fn_win_swap :=
    {| fn_win_swap_address := 0; fn_win_swap_bit := 0; invert := false |};
  cooler_boost := {| cooler_boost_address := 0; cooler_boost_bit := 0 |};
  shift_mode := {| shift_mode_address := 0; shift_mode_modes := [] |};
  super_battery := {| super_battery_address := 0; mask := 0 |};
  fan_mode := {| fan_mode_address := 0; fan_mode_modes := [] |};
  cpu :=
    {| cpu_rt_temp_address := 0; cpu_rt_fan_speed_address := 0;
       rt_fan_speed_base_min := 0; rt_fan_speed_base_max := 0;
       bs_fan_speed_address := 0; bs_fan_speed_base_min := 0;
       bs_fan_speed_base_max := 0 |};
  gpu := {| gpu_rt_temp_address := 0; gpu_rt_fan_speed_address := 0 |};
  leds :=
    {| micmute_led_address := 0; mute_led_address := 0; leds_bit := 0 |};
  kbd_bl :=
    {| bl_mode_address := 0; bl_modes := []; max_mode := 0;
       bl_state_address := 0; state_base_value := 0; max_state := 0 |}
|}.

(** The driver before [load_configuration] has run. *)
Definition driver_unloaded : driver :=
  {| conf := zero_conf; conf_loaded := false |}.

(** [memcpy(&conf, CONFIGURATIONS[i], sizeof(struct msi_ec_conf));
    conf.allowed_fw = NULL;] *)
Definition copy_conf (c : msi_ec_conf) : msi_ec_conf := {|
  allowed_fw := [];
  charge_control := charge_control c;
  webcam := webcam c;
  fn_win_swap := fn_win_swap c;
  cooler_boost := cooler_boost c;
  shift_mode := shift_mode c;
  super_battery := super_battery c;
  fan_mode := fan_mode c;
  cpu := cpu c;
  gpu := gpu c;
  leds := leds c;
  kbd_bl := kbd_bl c
|}.

(** A buffer read as a C string. *)
Fixpoint cstring (bytes : list Z) : string :=
  match bytes with
  | b :: rest =>
      if b =? 0 then EmptyString
      else String (ascii_of_N (Z.to_N b)) (cstring rest)
  | [] => EmptyString
  end.

Section Header.

Context {hdr : ec_memory_configuration}.

(** ** Visibility

    [address] is assigned along the chain of comparisons; the default
    branch returns [attr->mode] before the final test. *)

Definition msi_ec_is_visible (conf : msi_ec_conf) (attr : attribute) : Z :=
  let address : option Z :=
    (* root group *)
    if attribute_eqb attr dev_attr_webcam
    then Some (webcam_address (webcam conf))
    else if attribute_eqb attr dev_attr_webcam_block
    then Some (block_address (webcam conf))
    else if attribute_eqb attr dev_attr_fn_key
            || attribute_eqb attr dev_attr_win_key
    then Some (fn_win_swap_address (fn_win_swap conf))
    else if attribute_eqb attr dev_attr_battery_mode
    then Some (charge_control_address (charge_control conf))
    else if attribute_eqb attr dev_attr_cooler_boost
    then Some (cooler_boost_address (cooler_boost conf))
    else if attribute_eqb attr dev_attr_available_shift_modes
            || attribute_eqb attr dev_attr_shift_mode
    then Some (shift_mode_address (shift_mode conf))
    else if attribute_eqb attr dev_attr_super_battery
    then Some (super_battery_address (super_battery conf))
    else if attribute_eqb attr dev_attr_available_fan_modes
            || attribute_eqb attr dev_attr_fan_mode
    then Some (fan_mode_address (fan_mode conf))
    (* cpu group *)
    else if attribute_eqb attr dev_attr_cpu_realtime_temperature
    then Some (cpu_rt_temp_address (cpu conf))
    else if attribute_eqb attr dev_attr_cpu_realtime_fan_speed
    then Some (cpu_rt_fan_speed_address (cpu conf))
    else if attribute_eqb attr dev_attr_cpu_basic_fan_speed
    then Some (bs_fan_speed_address (cpu conf))
    (* gpu group *)
    else if attribute_eqb attr dev_attr_gpu_realtime_temperature
    then Some (gpu_rt_temp_address (gpu conf))
    else if attribute_eqb attr dev_attr_gpu_realtime_fan_speed
    then Some (gpu_rt_fan_speed_address (gpu conf))
    (* default *)
    else None in
  match address with
  | None => mode attr
  | Some address => if address =? MSI_EC_ADDR_UNSUPP then 0 else mode attr
  end.

Definition msi_root_group : attribute_group :=
  {| group_name := None;
     is_visible := Some msi_ec_is_visible;
     attrs := msi_root_attrs |}.

Definition msi_cpu_group : attribute_group :=
  {| group_name := Some "cpu";
     is_visible := Some msi_ec_is_visible;
     attrs := msi_cpu_attrs |}.

Definition msi_gpu_group : attribute_group :=
  {| group_name := Some "gpu";
     is_visible := Some msi_ec_is_visible;
     attrs := msi_gpu_attrs |}.

Definition msi_debug_group : attribute_group :=
  {| group_name := Some "debug";
     is_visible := None;
     attrs := msi_debug_attrs |}.

Definition msi_platform_groups : list attribute_group :=
  [msi_root_group; msi_cpu_group; msi_gpu_group].

(** [msi_platform_probe]: the groups it has created when it returns.
    [sysfs_create] is the outcome of [sysfs_create_group] and
    [sysfs_create_groups], which create all the groups they are given or
    none. *)
Definition msi_platform_probe
    (sysfs_create : list attribute_group -> result unit)
    (debug : bool) (drv : driver) : result unit * list attribute_group :=
  let r := if debug then sysfs_create [msi_debug_group] else Ok tt in
  let created := if debug then [msi_debug_group] else [] in
  match r with
  | Ok _ =>
      if negb (conf_loaded drv) then (Ok tt, created)
      else
        match sysfs_create msi_platform_groups with
        | Ok _ => (Ok tt, (created ++ msi_platform_groups)%list)
        | Error e => (Error e, created)
        | Oops => (Oops, created)
        end
  | Error e => (Error e, [])
  | Oops => (Oops, [])
  end.

(** ** The profile catalog *)

Definition ALLOWED_FW_0 : list string :=
  ["14C1EMS1.012"; "14C1EMS1.101"; "14C1EMS1.102"].

Definition CONF0 : msi_ec_conf := {|
  allowed_fw := ALLOWED_FW_0;
  charge_control :=
    {| charge_control_address := 0xef; offset_start := 0x8a;
       offset_end := 0x80; range_min := 0x8a; range_max := 0xe4 |};
  webcam :=
    {| webcam_address := 0x2e; block_address := 0x2f; webcam_bit := 1 |};
  fn_win_swap :=
    {| fn_win_swap_address := 0xbf; fn_win_swap_bit := 4; invert := false |};
  cooler_boost := {| cooler_boost_address := 0x98; cooler_boost_bit := 7 |};
  shift_mode :=
    {| shift_mode_address := 0xf2;
       shift_mode_modes := [{| name := Some SM_ECO_NAME; value := 0xc2 |};
       {| name := Some SM_COMFORT_NAME; value := 0xc1 |};
       {| name := Some SM_SPORT_NAME; value := 0xc0 |}; MSI_EC_MODE_NULL] |};
  super_battery :=
    {| super_battery_address := MSI_EC_ADDR_UNKNOWN; mask := 0 |};
  fan_mode :=
    {| fan_mode_address := 0xf4;
       fan_mode_modes := [{| name := Some FM_AUTO_NAME; value := 0x0d |};
       {| name := Some FM_SILENT_NAME; value := 0x1d |};
       {| name := Some FM_BASIC_NAME; value := 0x4d |};
       {| name := Some FM_ADVANCED_NAME; value := 0x8d |}; MSI_EC_MODE_NULL] |};
  cpu :=
    {| cpu_rt_temp_address := 0x68; cpu_rt_fan_speed_address := 0x71;
       rt_fan_speed_base_min := 0x19; rt_fan_speed_base_max := 0x37;
       bs_fan_speed_address := 0x89; bs_fan_speed_base_min := 0x00;
       bs_fan_speed_base_max := 0x0f |};
  gpu := {| gpu_rt_temp_address := 0x80; gpu_rt_fan_speed_address := 0x89 |};
  leds :=
    {| micmute_led_address := 0x2b; mute_led_address := 0x2c; leds_bit := 2 |};
  kbd_bl :=
    {| bl_mode_address := 0x2c; bl_modes := [0x00; 0x08]; max_mode := 1;
       bl_state_address := 0xf3; state_base_value := 0x80; max_state := 3 |}
|}.

Definition ALLOWED_FW_1 : list string :=
  ["17F2EMS1.103"; "17F2EMS1.104"; "17F2EMS1.106"; "17F2EMS1.107"].

Definition CONF1 : msi_ec_conf := {|
  allowed_fw := ALLOWED_FW_1;
  charge_control :=
    {| charge_control_address := 0xef; offset_start := 0x8a;
       offset_end := 0x80; range_min := 0x8a; range_max := 0xe4 |};
  webcam :=
    {| webcam_address := 0x2e; block_address := 0x2f; webcam_bit := 1 |};
  fn_win_swap :=
    {| fn_win_swap_address := 0xbf; fn_win_swap_bit := 4; invert := false |};
  cooler_boost := {| cooler_boost_address := 0x98; cooler_boost_bit := 7 |};
  shift_mode :=
    {| shift_mode_address := 0xf2;
       shift_mode_modes := [{| name := Some SM_ECO_NAME; value := 0xc2 |};
       {| name := Some SM_COMFORT_NAME; value := 0xc1 |};
       {| name := Some SM_SPORT_NAME; value := 0xc0 |};
       {| name := Some SM_TURBO_NAME; value := 0xc4 |}; MSI_EC_MODE_NULL] |};
  super_battery :=
    {| super_battery_address := MSI_EC_ADDR_UNKNOWN; mask := 0 |};
  fan_mode :=
    {| fan_mode_address := 0xf4;
       fan_mode_modes := [{| name := Some FM_AUTO_NAME; value := 0x0d |};
       {| name := Some FM_BASIC_NAME; value := 0x4d |};
       {| name := Some FM_ADVANCED_NAME; value := 0x8d |}; MSI_EC_MODE_NULL] |};
  cpu :=
    {| cpu_rt_temp_address := 0x68; cpu_rt_fan_speed_address := 0x71;
       rt_fan_speed_base_min := 0x19; rt_fan_speed_base_max := 0x37;
       bs_fan_speed_address := 0x89; bs_fan_speed_base_min := 0x00;
       bs_fan_speed_base_max := 0x0f |};
  gpu := {| gpu_rt_temp_address := 0x80; gpu_rt_fan_speed_address := 0x89 |};
  leds :=
    {| micmute_led_address := 0x2b; mute_led_address := 0x2c; leds_bit := 2 |};
  kbd_bl :=
    {| bl_mode_address := 0x2c; bl_modes := [0x00; 0x08]; max_mode := 1;
       bl_state_address := 0xf3; state_base_value := 0x80; max_state := 3 |}
|}.

Definition ALLOWED_FW_2 : list string :=
  ["1552EMS1.115"; "1552EMS1.118"; "1552EMS1.119"; "1552EMS1.120"].

Definition CONF2 : msi_ec_conf := {|
  allowed_fw := ALLOWED_FW_2;
  charge_control :=
    {| charge_control_address := 0xd7; offset_start := 0x8a;
       offset_end := 0x80; range_min := 0x8a; range_max := 0xe4 |};
  webcam :=
    {| webcam_address := 0x2e; block_address := 0x2f; webcam_bit := 1 |};
  fn_win_swap :=
    {| fn_win_swap_address := 0xe8; fn_win_swap_bit := 4; invert := false |};
  cooler_boost := {| cooler_boost_address := 0x98; cooler_boost_bit := 7 |};
  shift_mode :=
    {| shift_mode_address := 0xd2;
       shift_mode_modes := [{| name := Some SM_ECO_NAME; value := 0xc2 |};
       {| name := Some SM_COMFORT_NAME; value := 0xc1 |};
       {| name := Some SM_SPORT_NAME; value := 0xc0 |}; MSI_EC_MODE_NULL] |};
  super_battery := {| super_battery_address := 0xeb; mask := 0x0f |};
  fan_mode :=
    {| fan_mode_address := 0xd4;
       fan_mode_modes := [{| name := Some FM_AUTO_NAME; value := 0x0d |};
       {| name := Some FM_SILENT_NAME; value := 0x1d |};
       {| name := Some FM_BASIC_NAME; value := 0x4d |};
       {| name := Some FM_ADVANCED_NAME; value := 0x8d |}; MSI_EC_MODE_NULL] |};
  cpu :=
    {| cpu_rt_temp_address := 0x68; cpu_rt_fan_speed_address := 0x71;
       rt_fan_speed_base_min := 0x19; rt_fan_speed_base_max := 0x37;
       bs_fan_speed_address := 0x89; bs_fan_speed_base_min := 0x00;
       bs_fan_speed_base_max := 0x0f |};
  gpu := {| gpu_rt_temp_address := 0x80; gpu_rt_fan_speed_address := 0x89 |};
  leds :=
    {| micmute_led_address := 0x2c; mute_led_address := 0x2d; leds_bit := 1 |};
  kbd_bl :=
    {| bl_mode_address := 0x2c; bl_modes := [0x00; 0x08]; max_mode := 1;
       bl_state_address := 0xd3; state_base_value := 0x80; max_state := 3 |}
|}.

Definition ALLOWED_FW_3 : list string :=
  ["1592EMS1.111"].

Definition CONF3 : msi_ec_conf := {|
  allowed_fw := ALLOWED_FW_3;
  charge_control :=
    {| charge_control_address := 0xd7; offset_start := 0x8a;
       offset_end := 0x80; range_min := 0x8a; range_max := 0xe4 |};
  webcam :=
    {| webcam_address := 0x2e; block_address := 0x2f; webcam_bit := 1 |};
  fn_win_swap :=
    {| fn_win_swap_address := 0xe8; fn_win_swap_bit := 4; invert := false |};
  cooler_boost := {| cooler_boost_address := 0x98; cooler_boost_bit := 7 |};
  shift_mode :=
    {| shift_mode_address := 0xd2;
       shift_mode_modes := [{| name := Some SM_ECO_NAME; value := 0xc2 |};
       {| name := Some SM_COMFORT_NAME; value := 0xc1 |};
       {| name := Some SM_SPORT_NAME; value := 0xc0 |}; MSI_EC_MODE_NULL] |};
  super_battery := {| super_battery_address := 0xeb; mask := 0x0f |};
  fan_mode :=
    {| fan_mode_address := 0xd4;
       fan_mode_modes := [{| name := Some FM_AUTO_NAME; value := 0x0d |};
       {| name := Some FM_SILENT_NAME; value := 0x1d |};
       {| name := Some FM_BASIC_NAME; value := 0x4d |};
       {| name := Some FM_ADVANCED_NAME; value := 0x8d |}; MSI_EC_MODE_NULL] |};
  cpu :=
    {| cpu_rt_temp_address := 0x68; cpu_rt_fan_speed_address := 0xc9;
       rt_fan_speed_base_min := 0x19; rt_fan_speed_base_max := 0x37;
       bs_fan_speed_address := 0x89; bs_fan_speed_base_min := 0x00;
       bs_fan_speed_base_max := 0x0f |};
  gpu := {| gpu_rt_temp_address := 0x80; gpu_rt_fan_speed_address := 0x89 |};
  leds :=
    {| micmute_led_address := 0x2b; mute_led_address := 0x2c; leds_bit := 1 |};
  kbd_bl :=
    {| bl_mode_address := 0x2c; bl_modes := [0x00; 0x08]; max_mode := 1;
       bl_state_address := 0xd3; state_base_value := 0x80; max_state := 3 |}
|}.

Definition ALLOWED_FW_4 : list string :=
  ["16V4EMS1.114"].

Definition CONF4 : msi_ec_conf := {|
  allowed_fw := ALLOWED_FW_4;
  charge_control :=
    {| charge_control_address := 0xd7; offset_start := 0x8a;
       offset_end := 0x80; range_min := 0x8a; range_max := 0xe4 |};
  webcam :=
    {| webcam_address := 0x2e; block_address := 0x2f; webcam_bit := 1 |};
  fn_win_swap :=
    {| fn_win_swap_address := MSI_EC_ADDR_UNKNOWN; fn_win_swap_bit := 4;
       invert := false |};
  cooler_boost := {| cooler_boost_address := 0x98; cooler_boost_bit := 7 |};
  shift_mode :=
    {| shift_mode_address := 0xd2;
       shift_mode_modes := [{| name := Some SM_ECO_NAME; value := 0xc2 |};
       {| name := Some SM_COMFORT_NAME; value := 0xc1 |};
       {| name := Some SM_SPORT_NAME; value := 0xc0 |}; MSI_EC_MODE_NULL] |};
  super_battery :=
    {| super_battery_address := MSI_EC_ADDR_UNKNOWN; mask := 0x0f |};
  fan_mode :=
    {| fan_mode_address := 0xd4;
       fan_mode_modes := [{| name := Some FM_AUTO_NAME; value := 0x0d |};
       {| name := Some FM_SILENT_NAME; value := 0x1d |};
       {| name := Some FM_ADVANCED_NAME; value := 0x8d |}; MSI_EC_MODE_NULL] |};
  cpu :=
    {| cpu_rt_temp_address := 0x68; cpu_rt_fan_speed_address := 0x71;
       rt_fan_speed_base_min := 0x19; rt_fan_speed_base_max := 0x37;
       bs_fan_speed_address := MSI_EC_ADDR_UNKNOWN;
       bs_fan_speed_base_min := 0x00; bs_fan_speed_base_max := 0x0f |};
  gpu :=
    {| gpu_rt_temp_address := 0x80;
       gpu_rt_fan_speed_address := MSI_EC_ADDR_UNKNOWN |};
  leds :=
    {| micmute_led_address := MSI_EC_ADDR_UNKNOWN;
       mute_led_address := MSI_EC_ADDR_UNKNOWN; leds_bit := 1 |};
  kbd_bl :=
    {| bl_mode_address := MSI_EC_ADDR_UNKNOWN; bl_modes := [0x00; 0x08];
       max_mode := 1; bl_state_address := MSI_EC_ADDR_UNSUPP;
       state_base_value := 0x80; max_state := 3 |}
|}.

Definition ALLOWED_FW_5 : list string :=
  ["158LEMS1.103"; "158LEMS1.105"; "158LEMS1.106"].

Definition CONF5 : msi_ec_conf := {|
  allowed_fw := ALLOWED_FW_5;
  charge_control :=
    {| charge_control_address := 0xef; offset_start := 0x8a;
       offset_end := 0x80; range_min := 0x8a; range_max := 0xe4 |};
  webcam :=
    {| webcam_address := 0x2e; block_address := 0x2f; webcam_bit := 1 |};
  fn_win_swap :=
    {| fn_win_swap_address := 0xbf; fn_win_swap_bit := 4; invert := true |};
  cooler_boost := {| cooler_boost_address := 0x98; cooler_boost_bit := 7 |};
  shift_mode :=
    {| shift_mode_address := 0xf2;
       shift_mode_modes := [{| name := Some SM_ECO_NAME; value := 0xc2 |};
       {| name := Some SM_COMFORT_NAME; value := 0xc1 |};
       {| name := Some SM_TURBO_NAME; value := 0xc4 |}; MSI_EC_MODE_NULL] |};
  super_battery :=
    {| super_battery_address := MSI_EC_ADDR_UNKNOWN; mask := 0x0f |};
  fan_mode :=
    {| fan_mode_address := 0xf4;
       fan_mode_modes := [{| name := Some FM_AUTO_NAME; value := 0x0d |};
       {| name := Some FM_SILENT_NAME; value := 0x1d |};
       {| name := Some FM_ADVANCED_NAME; value := 0x8d |}; MSI_EC_MODE_NULL] |};
  cpu :=
    {| cpu_rt_temp_address := 0x68; cpu_rt_fan_speed_address := 0x71;
       rt_fan_speed_base_min := 0x19; rt_fan_speed_base_max := 0x37;
       bs_fan_speed_address := MSI_EC_ADDR_UNSUPP;
       bs_fan_speed_base_min := 0x00; bs_fan_speed_base_max := 0x0f |};
  gpu :=
    {| gpu_rt_temp_address := MSI_EC_ADDR_UNKNOWN;
       gpu_rt_fan_speed_address := MSI_EC_ADDR_UNKNOWN |};
  leds :=
    {| micmute_led_address := 0x2b; mute_led_address := 0x2c; leds_bit := 2 |};
  kbd_bl :=
    {| bl_mode_address := MSI_EC_ADDR_UNKNOWN; bl_modes := [0x00; 0x08];
       max_mode := 1; bl_state_address := MSI_EC_ADDR_UNSUPP;
       state_base_value := 0x80; max_state := 3 |}
|}.

Definition ALLOWED_FW_6 : list string :=
  ["1542EMS1.102"; "1542EMS1.104"].

Definition CONF6 : msi_ec_conf := {|
  allowed_fw := ALLOWED_FW_6;
  charge_control :=
    {| charge_control_address := 0xef; offset_start := 0x8a;
       offset_end := 0x80; range_min := 0x8a; range_max := 0xe4 |};
  webcam :=
    {| webcam_address := 0x2e; block_address := MSI_EC_ADDR_UNSUPP;
       webcam_bit := 1 |};
  fn_win_swap :=
    {| fn_win_swap_address := 0xbf; fn_win_swap_bit := 4; invert := true |};
  cooler_boost := {| cooler_boost_address := 0x98; cooler_boost_bit := 7 |};
  shift_mode :=
    {| shift_mode_address := 0xf2;
       shift_mode_modes := [{| name := Some SM_ECO_NAME; value := 0xc2 |};
       {| name := Some SM_COMFORT_NAME; value := 0xc1 |};
       {| name := Some SM_SPORT_NAME; value := 0xc0 |};
       {| name := Some SM_TURBO_NAME; value := 0xc4 |}; MSI_EC_MODE_NULL] |};
  super_battery := {| super_battery_address := 0xd5; mask := 0x0f |};
  fan_mode :=
    {| fan_mode_address := 0xf4;
       fan_mode_modes := [{| name := Some FM_AUTO_NAME; value := 0x0d |};
       {| name := Some FM_SILENT_NAME; value := 0x1d |};
       {| name := Some FM_ADVANCED_NAME; value := 0x8d |}; MSI_EC_MODE_NULL] |};
  cpu :=
    {| cpu_rt_temp_address := 0x68; cpu_rt_fan_speed_address := 0xc9;
       rt_fan_speed_base_min := 0x19; rt_fan_speed_base_max := 0x37;
       bs_fan_speed_address := MSI_EC_ADDR_UNSUPP;
       bs_fan_speed_base_min := 0x00; bs_fan_speed_base_max := 0x0f |};
  gpu :=
    {| gpu_rt_temp_address := 0x80;
       gpu_rt_fan_speed_address := MSI_EC_ADDR_UNKNOWN |};
  leds :=
    {| micmute_led_address := MSI_EC_ADDR_UNSUPP;
       mute_led_address := MSI_EC_ADDR_UNSUPP; leds_bit := 2 |};
  kbd_bl :=
    {| bl_mode_address := MSI_EC_ADDR_UNKNOWN; bl_modes := [0x00; 0x08];
       max_mode := 1; bl_state_address := MSI_EC_ADDR_UNSUPP;
       state_base_value := 0x80; max_state := 3 |}
|}.

Definition ALLOWED_FW_7 : list string :=
  ["17FKEMS1.108"; "17FKEMS1.109"; "17FKEMS1.10A"].

Definition CONF7 : msi_ec_conf := {|
  allowed_fw := ALLOWED_FW_7;
  charge_control :=
    {| charge_control_address := 0xef; offset_start := 0x8a;
       offset_end := 0x80; range_min := 0x8a; range_max := 0xe4 |};
  webcam :=
    {| webcam_address := 0x2e; block_address := MSI_EC_ADDR_UNSUPP;
       webcam_bit := 1 |};
  fn_win_swap :=
    {| fn_win_swap_address := 0xbf; fn_win_swap_bit := 4; invert := false |};
  cooler_boost := {| cooler_boost_address := 0x98; cooler_boost_bit := 7 |};
  shift_mode :=
    {| shift_mode_address := 0xf2;
       shift_mode_modes := [{| name := Some SM_ECO_NAME; value := 0xc2 |};
       {| name := Some SM_COMFORT_NAME; value := 0xc1 |};
       {| name := Some SM_SPORT_NAME; value := 0xc0 |};
       {| name := Some SM_TURBO_NAME; value := 0xc4 |}; MSI_EC_MODE_NULL] |};
  super_battery :=
    {| super_battery_address := MSI_EC_ADDR_UNKNOWN; mask := 0x0f |};
  fan_mode :=
    {| fan_mode_address := 0xf4;
       fan_mode_modes := [{| name := Some FM_AUTO_NAME; value := 0x0d |};
       {| name := Some FM_SILENT_NAME; value := 0x1d |};
       {| name := Some FM_ADVANCED_NAME; value := 0x8d |}; MSI_EC_MODE_NULL] |};
  cpu :=
    {| cpu_rt_temp_address := 0x68; cpu_rt_fan_speed_address := 0xc9;
       rt_fan_speed_base_min := 0x19; rt_fan_speed_base_max := 0x37;
       bs_fan_speed_address := MSI_EC_ADDR_UNSUPP;
       bs_fan_speed_base_min := 0x00; bs_fan_speed_base_max := 0x0f |};
  gpu :=
    {| gpu_rt_temp_address := MSI_EC_ADDR_UNKNOWN;
       gpu_rt_fan_speed_address := MSI_EC_ADDR_UNKNOWN |};
  leds :=
    {| micmute_led_address := MSI_EC_ADDR_UNSUPP; mute_led_address := 0x2c;
       leds_bit := 2 |};
  kbd_bl :=
    {| bl_mode_address := MSI_EC_ADDR_UNKNOWN; bl_modes := [0x00; 0x08];
       max_mode := 1; bl_state_address := 0xf3; state_base_value := 0x80;
       max_state := 3 |}
|}.

Definition ALLOWED_FW_8 : list string :=
  ["14F1EMS1.114"; "14F1EMS1.115"; "14F1EMS1.116"; "14F1EMS1.117";
   "14F1EMS1.118"; "14F1EMS1.119"; "14F1EMS1.120"].

Definition CONF8 : msi_ec_conf := {|
  allowed_fw := ALLOWED_FW_8;
  charge_control :=
    {| charge_control_address := 0xd7; offset_start := 0x8a;
       offset_end := 0x80; range_min := 0x8a; range_max := 0xe4 |};
  webcam :=
    {| webcam_address := 0x2e; block_address := 0x2f; webcam_bit := 1 |};
  fn_win_swap :=
    {| fn_win_swap_address := 0xe8; fn_win_swap_bit := 4; invert := false |};
  cooler_boost := {| cooler_boost_address := 0x98; cooler_boost_bit := 7 |};
  shift_mode :=
    {| shift_mode_address := 0xd2;
       shift_mode_modes := [{| name := Some SM_ECO_NAME; value := 0xc2 |};
       {| name := Some SM_COMFORT_NAME; value := 0xc1 |};
       {| name := Some SM_SPORT_NAME; value := 0xc0 |}; MSI_EC_MODE_NULL] |};
  super_battery := {| super_battery_address := 0xeb; mask := 0x0f |};
  fan_mode :=
    {| fan_mode_address := 0xd4;
       fan_mode_modes := [{| name := Some FM_AUTO_NAME; value := 0x0d |};
       {| name := Some FM_SILENT_NAME; value := 0x1d |};
       {| name := Some FM_ADVANCED_NAME; value := 0x8d |}; MSI_EC_MODE_NULL] |};
  cpu :=
    {| cpu_rt_temp_address := 0x68; cpu_rt_fan_speed_address := 0x71;
       rt_fan_speed_base_min := 0x19; rt_fan_speed_base_max := 0x37;
       bs_fan_speed_address := MSI_EC_ADDR_UNSUPP;
       bs_fan_speed_base_min := 0x00; bs_fan_speed_base_max := 0x0f |};
  gpu :=
    {| gpu_rt_temp_address := MSI_EC_ADDR_UNKNOWN;
       gpu_rt_fan_speed_address := 0x89 |};
  leds :=
    {| micmute_led_address := MSI_EC_ADDR_UNSUPP; mute_led_address := 0x2d;
       leds_bit := 1 |};
  kbd_bl :=
    {| bl_mode_address := 0x2c; bl_modes := [0x00; 0x80]; max_mode := 1;
       bl_state_address := 0xd3; state_base_value := 0x80; max_state := 3 |}
|}.

Definition ALLOWED_FW_9 : list string :=
  ["14JKEMS1.104"].

Definition CONF9 : msi_ec_conf := {|
  allowed_fw := ALLOWED_FW_9;
  charge_control :=
    {| charge_control_address := 0xef; offset_start := 0x8a;
       offset_end := 0x80; range_min := 0x8a; range_max := 0xe4 |};
  webcam :=
    {| webcam_address := 0x2e; block_address := 0x2f; webcam_bit := 1 |};
  fn_win_swap :=
    {| fn_win_swap_address := 0xbf; fn_win_swap_bit := 4; invert := false |};
  cooler_boost := {| cooler_boost_address := 0x98; cooler_boost_bit := 7 |};
  shift_mode :=
    {| shift_mode_address := 0xf2;
       shift_mode_modes := [{| name := Some SM_ECO_NAME; value := 0xc2 |};
       {| name := Some SM_COMFORT_NAME; value := 0xc1 |};
       {| name := Some SM_SPORT_NAME; value := 0xc0 |}; MSI_EC_MODE_NULL] |};
  super_battery :=
    {| super_battery_address := MSI_EC_ADDR_UNSUPP; mask := 0x0f |};
  fan_mode :=
    {| fan_mode_address := 0xf4;
       fan_mode_modes := [{| name := Some FM_AUTO_NAME; value := 0x0d |};
       {| name := Some FM_SILENT_NAME; value := 0x1d |};
       {| name := Some FM_ADVANCED_NAME; value := 0x8d |}; MSI_EC_MODE_NULL] |};
  cpu :=
    {| cpu_rt_temp_address := 0x68; cpu_rt_fan_speed_address := 0x71;
       rt_fan_speed_base_min := 0x00; rt_fan_speed_base_max := 0x96;
       bs_fan_speed_address := MSI_EC_ADDR_UNSUPP;
       bs_fan_speed_base_min := 0x00; bs_fan_speed_base_max := 0x0f |};
  gpu :=
    {| gpu_rt_temp_address := MSI_EC_ADDR_UNSUPP;
       gpu_rt_fan_speed_address := MSI_EC_ADDR_UNSUPP |};
  leds :=
    {| micmute_led_address := 0x2b; mute_led_address := 0x2c; leds_bit := 2 |};
  kbd_bl :=
    {| bl_mode_address := MSI_EC_ADDR_UNSUPP; bl_modes := [0x00; 0x08];
       max_mode := 1; bl_state_address := 0xf3; state_base_value := 0x80;
       max_state := 3 |}
|}.

Definition ALLOWED_FW_10 : list string :=
  ["1582EMS1.107"].

Definition CONF10 : msi_ec_conf := {|
  allowed_fw := ALLOWED_FW_10;
  charge_control :=
    {| charge_control_address := 0xd7; offset_start := 0x8a;
       offset_end := 0x80; range_min := 0x8a; range_max := 0xe4 |};
  webcam :=
    {| webcam_address := 0x2e; block_address := 0x2f; webcam_bit := 1 |};
  fn_win_swap :=
    {| fn_win_swap_address := MSI_EC_ADDR_UNSUPP; fn_win_swap_bit := 4;
       invert := false |};
  cooler_boost := {| cooler_boost_address := 0x98; cooler_boost_bit := 7 |};
  shift_mode :=
    {| shift_mode_address := 0xd2;
       shift_mode_modes := [{| name := Some SM_ECO_NAME; value := 0xc2 |};
       {| name := Some SM_COMFORT_NAME; value := 0xc1 |};
       {| name := Some SM_SPORT_NAME; value := 0xc0 |};
       {| name := Some SM_TURBO_NAME; value := 0xc4 |}; MSI_EC_MODE_NULL] |};
  super_battery := {| super_battery_address := 0xe5; mask := 0x0f |};
  fan_mode :=
    {| fan_mode_address := 0xd4;
       fan_mode_modes := [{| name := Some FM_AUTO_NAME; value := 0x0d |};
       {| name := Some FM_SILENT_NAME; value := 0x1d |};
       {| name := Some FM_ADVANCED_NAME; value := 0x8d |}; MSI_EC_MODE_NULL] |};
  cpu :=
    {| cpu_rt_temp_address := 0x68; cpu_rt_fan_speed_address := 0x71;
       rt_fan_speed_base_min := 0x19; rt_fan_speed_base_max := 0x37;
       bs_fan_speed_address := MSI_EC_ADDR_UNKNOWN;
       bs_fan_speed_base_min := 0x00; bs_fan_speed_base_max := 0x0f |};
  gpu := {| gpu_rt_temp_address := 0x80; gpu_rt_fan_speed_address := 0x89 |};
  leds :=
    {| micmute_led_address := 0x2c; mute_led_address := 0x2d; leds_bit := 1 |};
  kbd_bl :=
    {| bl_mode_address := 0x2c; bl_modes := [0x00; 0x08]; max_mode := 1;
       bl_state_address := 0xd3; state_base_value := 0x80; max_state := 3 |}
|}.

Definition ALLOWED_FW_11 : list string :=
  ["16S6EMS1.111"].

Definition CONF11 : msi_ec_conf := {|
  allowed_fw := ALLOWED_FW_11;
  charge_control :=
    {| charge_control_address := 0xd7; offset_start := 0x8a;
       offset_end := 0x80; range_min := 0x8a; range_max := 0xe4 |};
  webcam :=
    {| webcam_address := 0x2e; block_address := MSI_EC_ADDR_UNKNOWN;
       webcam_bit := 1 |};
  fn_win_swap :=
    {| fn_win_swap_address := 0xe8; fn_win_swap_bit := 4; invert := false |};
  cooler_boost := {| cooler_boost_address := 0x98; cooler_boost_bit := 7 |};
  shift_mode :=
    {| shift_mode_address := 0xd2;
       shift_mode_modes := [{| name := Some SM_ECO_NAME; value := 0xc2 |};
       {| name := Some SM_COMFORT_NAME; value := 0xc1 |};
       {| name := Some SM_SPORT_NAME; value := 0xc0 |}; MSI_EC_MODE_NULL] |};
  super_battery := {| super_battery_address := 0xeb; mask := 0x0f |};
  fan_mode :=
    {| fan_mode_address := 0xd4;
       fan_mode_modes := [{| name := Some FM_AUTO_NAME; value := 0x0d |};
       {| name := Some FM_SILENT_NAME; value := 0x1d |};
       {| name := Some FM_ADVANCED_NAME; value := 0x4d |}; MSI_EC_MODE_NULL] |};
  cpu :=
    {| cpu_rt_temp_address := 0x68;
       cpu_rt_fan_speed_address := MSI_EC_ADDR_UNSUPP;
       rt_fan_speed_base_min := 0; rt_fan_speed_base_max := 0;
       bs_fan_speed_address := MSI_EC_ADDR_UNSUPP;
       bs_fan_speed_base_min := 0; bs_fan_speed_base_max := 0 |};
  gpu :=
    {| gpu_rt_temp_address := MSI_EC_ADDR_UNSUPP;
       gpu_rt_fan_speed_address := MSI_EC_ADDR_UNSUPP |};
  leds :=
    {| micmute_led_address := 0x2c; mute_led_address := 0x2d; leds_bit := 1 |};
  kbd_bl :=
    {| bl_mode_address := MSI_EC_ADDR_UNKNOWN; bl_modes := [];
       max_mode := 1; bl_state_address := 0xd3; state_base_value := 0x80;
       max_state := 3 |}
|}.

Definition ALLOWED_FW_12 : list string :=
  ["16R6EMS1.104"; "16R6EMS1.106"; "16R6EMS1.107"].

Definition CONF12 : msi_ec_conf := {|
  allowed_fw := ALLOWED_FW_12;
  charge_control :=
    {| charge_control_address := 0xd7; offset_start := 0x8a;
       offset_end := 0x80; range_min := 0x8a; range_max := 0xe4 |};
  webcam :=
    {| webcam_address := 0x2e; block_address := 0x2f; webcam_bit := 1 |};
  fn_win_swap :=
    {| fn_win_swap_address := 0xe8; fn_win_swap_bit := 4; invert := false |};
  cooler_boost := {| cooler_boost_address := 0x98; cooler_boost_bit := 7 |};
  shift_mode :=
    {| shift_mode_address := 0xd2;
       shift_mode_modes := [{| name := Some SM_ECO_NAME; value := 0xc2 |};
       {| name := Some SM_COMFORT_NAME; value := 0xc1 |};
       {| name := Some SM_SPORT_NAME; value := 0xc0 |};
       {| name := Some SM_TURBO_NAME; value := 0xc4 |}; MSI_EC_MODE_NULL] |};
  super_battery :=
    {| super_battery_address := MSI_EC_ADDR_UNSUPP; mask := 0x0f |};
  fan_mode :=
    {| fan_mode_address := 0xd4;
       fan_mode_modes := [{| name := Some FM_AUTO_NAME; value := 0x0d |};
       {| name := Some FM_SILENT_NAME; value := 0x1d |};
       {| name := Some FM_ADVANCED_NAME; value := 0x8d |}; MSI_EC_MODE_NULL] |};
  cpu :=
    {| cpu_rt_temp_address := 0x68; cpu_rt_fan_speed_address := 0x71;
       rt_fan_speed_base_min := 0x19; rt_fan_speed_base_max := 0x37;
       bs_fan_speed_address := MSI_EC_ADDR_UNSUPP;
       bs_fan_speed_base_min := 0x00; bs_fan_speed_base_max := 0x0f |};
  gpu :=
    {| gpu_rt_temp_address := MSI_EC_ADDR_UNSUPP;
       gpu_rt_fan_speed_address := 0x89 |};
  leds :=
    {| micmute_led_address := MSI_EC_ADDR_UNSUPP; mute_led_address := 0x2d;
       leds_bit := 1 |};
  kbd_bl :=
    {| bl_mode_address := MSI_EC_ADDR_UNKNOWN; bl_modes := [0x00; 0x08];
       max_mode := 1; bl_state_address := 0xd3; state_base_value := 0x80;
       max_state := 3 |}
|}.

Definition ALLOWED_FW_13 : list string :=
  ["1594EMS1.109"].

Definition CONF13 : msi_ec_conf := {|
  allowed_fw := ALLOWED_FW_13;
  charge_control :=
    {| charge_control_address := 0xd7; offset_start := 0x8a;
       offset_end := 0x80; range_min := 0x8a; range_max := 0xe4 |};
  webcam :=
    {| webcam_address := 0x2e; block_address := 0x2f; webcam_bit := 1 |};
  fn_win_swap :=
    {| fn_win_swap_address := 0xe8; fn_win_swap_bit := 4; invert := false |};
  cooler_boost := {| cooler_boost_address := 0x98; cooler_boost_bit := 7 |};
  shift_mode :=
    {| shift_mode_address := 0xd2;
       shift_mode_modes := [{| name := Some SM_ECO_NAME; value := 0xc2 |};
       {| name := Some SM_COMFORT_NAME; value := 0xc1 |};
       {| name := Some SM_TURBO_NAME; value := 0xc4 |}; MSI_EC_MODE_NULL] |};
  super_battery :=
    {| super_battery_address := MSI_EC_ADDR_UNSUPP; mask := 0x0f |};
  fan_mode :=
    {| fan_mode_address := 0xd4;
       fan_mode_modes := [{| name := Some FM_AUTO_NAME; value := 0x0d |};
       {| name := Some FM_SILENT_NAME; value := 0x1d |};
       {| name := Some FM_ADVANCED_NAME; value := 0x8d |}; MSI_EC_MODE_NULL] |};
  cpu :=
    {| cpu_rt_temp_address := 0x68; cpu_rt_fan_speed_address := 0x71;
       rt_fan_speed_base_min := 0x00; rt_fan_speed_base_max := 0x96;
       bs_fan_speed_address := MSI_EC_ADDR_UNSUPP;
       bs_fan_speed_base_min := 0x00; bs_fan_speed_base_max := 0x0f |};
  gpu := {| gpu_rt_temp_address := 0x80; gpu_rt_fan_speed_address := 0x89 |};
  leds :=
    {| micmute_led_address := 0x2c; mute_led_address := 0x2d; leds_bit := 1 |};
  kbd_bl :=
    {| bl_mode_address := 0x2c; bl_modes := [0x00; 0x08]; max_mode := 1;
       bl_state_address := 0xd3; state_base_value := 0x80; max_state := 3 |}
|}.

Definition ALLOWED_FW_14 : list string :=
  ["17L2EMS1.108"].

Definition CONF14 : msi_ec_conf := {|
  allowed_fw := ALLOWED_FW_14;
  charge_control :=
    {| charge_control_address := 0xd7; offset_start := 0x8a;
       offset_end := 0x80; range_min := 0x8a; range_max := 0xe4 |};
  webcam :=
    {| webcam_address := 0x2e; block_address := 0x2f; webcam_bit := 1 |};
  fn_win_swap :=
    {| fn_win_swap_address := 0xe8; fn_win_swap_bit := 4; invert := true |};
  cooler_boost := {| cooler_boost_address := 0x98; cooler_boost_bit := 7 |};
  shift_mode :=
    {| shift_mode_address := 0xd2;
       shift_mode_modes := [{| name := Some SM_ECO_NAME; value := 0xc2 |};
       {| name := Some SM_COMFORT_NAME; value := 0xc1 |};
       {| name := Some SM_SPORT_NAME; value := 0xc0 |};
       {| name := Some SM_TURBO_NAME; value := 0xc4 |}; MSI_EC_MODE_NULL] |};
  super_battery :=
    {| super_battery_address := MSI_EC_ADDR_UNSUPP; mask := 0x0f |};
  fan_mode :=
    {| fan_mode_address := 0xd4;
       fan_mode_modes := [{| name := Some FM_AUTO_NAME; value := 0x0d |};
       {| name := Some FM_SILENT_NAME; value := 0x1d |};
       {| name := Some FM_ADVANCED_NAME; value := 0x8d |}; MSI_EC_MODE_NULL] |};
  cpu :=
    {| cpu_rt_temp_address := 0x68; cpu_rt_fan_speed_address := 0xc9;
       rt_fan_speed_base_min := 0x00; rt_fan_speed_base_max := 0x96;
       bs_fan_speed_address := MSI_EC_ADDR_UNSUPP;
       bs_fan_speed_base_min := 0x00; bs_fan_speed_base_max := 0x0f |};
  gpu := {| gpu_rt_temp_address := 0x80; gpu_rt_fan_speed_address := 0xcb |};
  leds :=
    {| micmute_led_address := 0x2c; mute_led_address := 0x2d; leds_bit := 1 |};
  kbd_bl :=
    {| bl_mode_address := MSI_EC_ADDR_UNSUPP; bl_modes := [0x00; 0x08];
       max_mode := 1; bl_state_address := 0xd3; state_base_value := 0x80;
       max_state := 3 |}
|}.

Definition ALLOWED_FW_15 : list string :=
  ["15CKEMS1.108"].

Definition CONF15 : msi_ec_conf := {|
  allowed_fw := ALLOWED_FW_15;
  charge_control :=
    {| charge_control_address := 0xef; offset_start := 0x8a;
       offset_end := 0x80; range_min := 0x8a; range_max := 0xe4 |};
  webcam :=
    {| webcam_address := 0x2e; block_address := 0x2f; webcam_bit := 1 |};
  fn_win_swap :=
    {| fn_win_swap_address := 0xbf; fn_win_swap_bit := 4; invert := false |};
  cooler_boost := {| cooler_boost_address := 0x98; cooler_boost_bit := 7 |};
  shift_mode :=
    {| shift_mode_address := 0xf2;
       shift_mode_modes := [{| name := Some SM_ECO_NAME; value := 0xa5 |};
       {| name := Some SM_COMFORT_NAME; value := 0xa1 |};
       {| name := Some SM_TURBO_NAME; value := 0xa0 |}; MSI_EC_MODE_NULL] |};
  super_battery :=
    {| super_battery_address := MSI_EC_ADDR_UNKNOWN; mask := 0x0f |};
  fan_mode :=
    {| fan_mode_address := 0xf4;
       fan_mode_modes := [{| name := Some FM_AUTO_NAME; value := 0x0d |};
       {| name := Some FM_SILENT_NAME; value := 0x1d |};
       {| name := Some FM_ADVANCED_NAME; value := 0x8d |}; MSI_EC_MODE_NULL] |};
  cpu :=
    {| cpu_rt_temp_address := 0x68; cpu_rt_fan_speed_address := 0xc9;
       rt_fan_speed_base_min := 0x00; rt_fan_speed_base_max := 0x96;
       bs_fan_speed_address := 0xcd; bs_fan_speed_base_min := 0x00;
       bs_fan_speed_base_max := 0x0f |};
  gpu := {| gpu_rt_temp_address := 0x80; gpu_rt_fan_speed_address := 0xcb |};
  leds :=
    {| micmute_led_address := 0x2b; mute_led_address := 0x2d; leds_bit := 2 |};
  kbd_bl :=
    {| bl_mode_address := MSI_EC_ADDR_UNSUPP; bl_modes := [0x00; 0x01];
       max_mode := 1; bl_state_address := MSI_EC_ADDR_UNSUPP;
       state_base_value := 0x80; max_state := 3 |}
|}.

Definition ALLOWED_FW_16 : list string :=
  ["155LEMS1.105"; "155LEMS1.106"].

Definition CONF16 : msi_ec_conf := {|
  allowed_fw := ALLOWED_FW_16;
  charge_control :=
    {| charge_control_address := 0xef; offset_start := 0x8a;
       offset_end := 0x80; range_min := 0x8a; range_max := 0xe4 |};
  webcam :=
    {| webcam_address := 0x2e; block_address := 0x2f; webcam_bit := 1 |};
  fn_win_swap :=
    {| fn_win_swap_address := 0xbf; fn_win_swap_bit := 4; invert := false |};
  cooler_boost := {| cooler_boost_address := 0x98; cooler_boost_bit := 7 |};
  shift_mode :=
    {| shift_mode_address := 0xf2;
       shift_mode_modes := [{| name := Some SM_ECO_NAME; value := 0xc2 |};
       {| name := Some SM_COMFORT_NAME; value := 0xc1 |};
       {| name := Some SM_SPORT_NAME; value := 0xc0 |}; MSI_EC_MODE_NULL] |};
  super_battery :=
    {| super_battery_address := MSI_EC_ADDR_UNKNOWN; mask := 0x0f |};
  fan_mode :=
    {| fan_mode_address := 0xf4;
       fan_mode_modes := [{| name := Some FM_AUTO_NAME; value := 0x0d |};
       {| name := Some FM_SILENT_NAME; value := 0x1d |};
       {| name := Some FM_ADVANCED_NAME; value := 0x8d |}; MSI_EC_MODE_NULL] |};
  cpu :=
    {| cpu_rt_temp_address := 0x68; cpu_rt_fan_speed_address := 0x71;
       rt_fan_speed_base_min := 0x19; rt_fan_speed_base_max := 0x37;
       bs_fan_speed_address := MSI_EC_ADDR_UNSUPP;
       bs_fan_speed_base_min := 0x00; bs_fan_speed_base_max := 0x0f |};
  gpu :=
    {| gpu_rt_temp_address := MSI_EC_ADDR_UNKNOWN;
       gpu_rt_fan_speed_address := MSI_EC_ADDR_UNKNOWN |};
  leds :=
    {| micmute_led_address := 0x2b; mute_led_address := 0x2c; leds_bit := 2 |};
  kbd_bl :=
    {| bl_mode_address := MSI_EC_ADDR_UNKNOWN; bl_modes := [0x00; 0x08];
       max_mode := 1; bl_state_address := 0xf3; state_base_value := 0x80;
       max_state := 3 |}
|}.

Definition ALLOWED_FW_17 : list string :=
  ["15K1IMS1.110"].

Definition CONF17 : msi_ec_conf := {|
  allowed_fw := ALLOWED_FW_17;
  charge_control :=
    {| charge_control_address := 0xd7; offset_start := 0x8a;
       offset_end := 0x80; range_min := 0x8a; range_max := 0xe4 |};
  webcam :=
    {| webcam_address := 0x2e; block_address := 0x2f; webcam_bit := 1 |};
  fn_win_swap :=
    {| fn_win_swap_address := 0xe8; fn_win_swap_bit := 4; invert := true |};
  cooler_boost := {| cooler_boost_address := 0x98; cooler_boost_bit := 7 |};
  shift_mode :=
    {| shift_mode_address := 0xd2;
       shift_mode_modes := [{| name := Some SM_ECO_NAME; value := 0xc2 |};
       {| name := Some SM_COMFORT_NAME; value := 0xc1 |};
       {| name := Some SM_TURBO_NAME; value := 0xc4 |}; MSI_EC_MODE_NULL] |};
  super_battery := {| super_battery_address := 0xeb; mask := 0x0f |};
  fan_mode :=
    {| fan_mode_address := 0xd4;
       fan_mode_modes := [{| name := Some FM_AUTO_NAME; value := 0x0d |};
       {| name := Some FM_SILENT_NAME; value := 0x1d |};
       {| name := Some FM_ADVANCED_NAME; value := 0x8d |}; MSI_EC_MODE_NULL] |};
  cpu :=
    {| cpu_rt_temp_address := 0x68; cpu_rt_fan_speed_address := 0x71;
       rt_fan_speed_base_min := 0x00; rt_fan_speed_base_max := 0x96;
       bs_fan_speed_address := MSI_EC_ADDR_UNSUPP;
       bs_fan_speed_base_min := 0x00; bs_fan_speed_base_max := 0x0f |};
  gpu := {| gpu_rt_temp_address := 0x80; gpu_rt_fan_speed_address := 0x89 |};
  leds :=
    {| micmute_led_address := 0x2c; mute_led_address := 0x2d; leds_bit := 1 |};
  kbd_bl :=
    {| bl_mode_address := 0x2c; bl_modes := [0x00; 0x08]; max_mode := 1;
       bl_state_address := 0xd3; state_base_value := 0x80; max_state := 3 |}
|}.

Definition ALLOWED_FW_18 : list string :=
  ["15HKEMS1.104"].

Definition CONF18 : msi_ec_conf := {|
  allowed_fw := ALLOWED_FW_18;
  charge_control :=
    {| charge_control_address := 0xef; offset_start := 0x8a;
       offset_end := 0x80; range_min := 0x8a; range_max := 0xe4 |};
  webcam :=
    {| webcam_address := 0x2e; block_address := 0x2f; webcam_bit := 1 |};
  fn_win_swap :=
    {| fn_win_swap_address := 0xbf; fn_win_swap_bit := 4; invert := false |};
  cooler_boost := {| cooler_boost_address := 0x98; cooler_boost_bit := 7 |};
  shift_mode :=
    {| shift_mode_address := 0xf2;
       shift_mode_modes := [{| name := Some SM_ECO_NAME; value := 0xc2 |};
       {| name := Some SM_COMFORT_NAME; value := 0xc1 |};
       {| name := Some SM_SPORT_NAME; value := 0xc0 |}; MSI_EC_MODE_NULL] |};
  super_battery :=
    {| super_battery_address := MSI_EC_ADDR_UNSUPP; mask := 0x0f |};
  fan_mode :=
    {| fan_mode_address := 0xf4;
       fan_mode_modes := [{| name := Some FM_AUTO_NAME; value := 0x0d |};
       {| name := Some FM_SILENT_NAME; value := 0x1d |};
       {| name := Some FM_ADVANCED_NAME; value := 0x8d |}; MSI_EC_MODE_NULL] |};
  cpu :=
    {| cpu_rt_temp_address := 0x68; cpu_rt_fan_speed_address := 0x71;
       rt_fan_speed_base_min := 0x00; rt_fan_speed_base_max := 0x96;
       bs_fan_speed_address := MSI_EC_ADDR_UNSUPP;
       bs_fan_speed_base_min := 0x00; bs_fan_speed_base_max := 0x0f |};
  gpu :=
    {| gpu_rt_temp_address := MSI_EC_ADDR_UNSUPP;
       gpu_rt_fan_speed_address := MSI_EC_ADDR_UNSUPP |};
  leds :=
    {| micmute_led_address := 0x2b; mute_led_address := 0x2c; leds_bit := 2 |};
  kbd_bl :=
    {| bl_mode_address := MSI_EC_ADDR_UNSUPP; bl_modes := [0x00; 0x08];
       max_mode := 1; bl_state_address := 0xf3; state_base_value := 0x80;
       max_state := 3 |}
|}.

Definition ALLOWED_FW_19 : list string :=
  ["1543EMS1.113"].

Definition CONF19 : msi_ec_conf := {|
  allowed_fw := ALLOWED_FW_19;
  charge_control :=
    {| charge_control_address := 0xd7; offset_start := 0x8a;
       offset_end := 0x80; range_min := 0x8a; range_max := 0xe4 |};
  webcam :=
    {| webcam_address := 0x2e; block_address := MSI_EC_ADDR_UNSUPP;
       webcam_bit := 1 |};
  fn_win_swap :=
    {| fn_win_swap_address := 0xe8; fn_win_swap_bit := 4; invert := false |};
  cooler_boost := {| cooler_boost_address := 0x98; cooler_boost_bit := 7 |};
  shift_mode :=
    {| shift_mode_address := 0xd2;
       shift_mode_modes := [{| name := Some SM_ECO_NAME; value := 0xc2 |};
       {| name := Some SM_COMFORT_NAME; value := 0xc1 |};
       {| name := Some SM_SPORT_NAME; value := 0xc0 |};
       {| name := Some SM_TURBO_NAME; value := 0xc4 |}; MSI_EC_MODE_NULL] |};
  super_battery := {| super_battery_address := 0xeb; mask := 0x0f |};
  fan_mode :=
    {| fan_mode_address := 0xd4;
       fan_mode_modes := [{| name := Some FM_AUTO_NAME; value := 0x0d |};
       {| name := Some FM_SILENT_NAME; value := 0x1d |};
       {| name := Some FM_ADVANCED_NAME; value := 0x8d |}; MSI_EC_MODE_NULL] |};
  cpu :=
    {| cpu_rt_temp_address := 0x68; cpu_rt_fan_speed_address := 0xc9;
       rt_fan_speed_base_min := 0x19; rt_fan_speed_base_max := 0x96;
       bs_fan_speed_address := MSI_EC_ADDR_UNKNOWN;
       bs_fan_speed_base_min := 0x00; bs_fan_speed_base_max := 0x0f |};
  gpu := {| gpu_rt_temp_address := 0x80; gpu_rt_fan_speed_address := 0x89 |};
  leds :=
    {| micmute_led_address := MSI_EC_ADDR_UNKNOWN;
       mute_led_address := MSI_EC_ADDR_UNKNOWN; leds_bit := 1 |};
  kbd_bl :=
    {| bl_mode_address := MSI_EC_ADDR_UNKNOWN; bl_modes := [];
       max_mode := 1; bl_state_address := 0xd3; state_base_value := 0x80;
       max_state := 3 |}
|}.

Definition ALLOWED_FW_20 : list string :=
  ["1581EMS1.107"].

Definition CONF20 : msi_ec_conf := {|
  allowed_fw := ALLOWED_FW_20;
  charge_control :=
    {| charge_control_address := 0xd7; offset_start := 0x8a;
       offset_end := 0x80; range_min := 0x8a; range_max := 0xe4 |};
  webcam :=
    {| webcam_address := 0x2e; block_address := 0x2f; webcam_bit := 1 |};
  fn_win_swap :=
    {| fn_win_swap_address := 0xe8; fn_win_swap_bit := 4; invert := true |};
  cooler_boost := {| cooler_boost_address := 0x98; cooler_boost_bit := 7 |};
  shift_mode :=
    {| shift_mode_address := 0xd2;
       shift_mode_modes := [{| name := Some SM_ECO_NAME; value := 0xc2 |};
       {| name := Some SM_COMFORT_NAME; value := 0xc1 |};
       {| name := Some SM_SPORT_NAME; value := 0xc0 |};
       {| name := Some SM_TURBO_NAME; value := 0xc4 |}; MSI_EC_MODE_NULL] |};
  super_battery := {| super_battery_address := 0xeb; mask := 0x0f |};
  fan_mode :=
    {| fan_mode_address := 0xd4;
       fan_mode_modes := [{| name := Some FM_AUTO_NAME; value := 0x0d |};
       {| name := Some FM_SILENT_NAME; value := 0x1d |};
       {| name := Some FM_ADVANCED_NAME; value := 0x8d |}; MSI_EC_MODE_NULL] |};
  cpu :=
    {| cpu_rt_temp_address := 0x68; cpu_rt_fan_speed_address := 0xc9;
       rt_fan_speed_base_min := 0x00; rt_fan_speed_base_max := 0x96;
       bs_fan_speed_address := MSI_EC_ADDR_UNSUPP;
       bs_fan_speed_base_min := 0x00; bs_fan_speed_base_max := 0x0f |};
  gpu := {| gpu_rt_temp_address := 0x80; gpu_rt_fan_speed_address := 0xcb |};
  leds :=
    {| micmute_led_address := 0x2c; mute_led_address := 0x2d; leds_bit := 1 |};
  kbd_bl :=
    {| bl_mode_address := MSI_EC_ADDR_UNSUPP; bl_modes := [0x00; 0x08];
       max_mode := 1; bl_state_address := 0xd3; state_base_value := 0x80;
       max_state := 3 |}
|}.

Definition ALLOWED_FW_21 : list string :=
  ["16R3EMS1.100"; "16R3EMS1.102"; "16R3EMS1.104"; "16R4EMS2.102"].

Definition CONF21 : msi_ec_conf := {|
  allowed_fw := ALLOWED_FW_21;
  charge_control :=
    {| charge_control_address := 0xef; offset_start := 0x8a;
       offset_end := 0x80; range_min := 0xbc; range_max := 0xe4 |};
  webcam :=
    {| webcam_address := 0x2e; block_address := 0x2f; webcam_bit := 1 |};
  fn_win_swap :=
    {| fn_win_swap_address := 0xbf; fn_win_swap_bit := 4; invert := true |};
  cooler_boost := {| cooler_boost_address := 0x98; cooler_boost_bit := 7 |};
  shift_mode :=
    {| shift_mode_address := 0xf2;
       shift_mode_modes := [{| name := Some SM_ECO_NAME; value := 0xc2 |};
       {| name := Some SM_COMFORT_NAME; value := 0xc1 |};
       {| name := Some SM_SPORT_NAME; value := 0xc0 |};
       {| name := Some SM_TURBO_NAME; value := 0xc4 |}; MSI_EC_MODE_NULL] |};
  super_battery :=
    {| super_battery_address := MSI_EC_ADDR_UNSUPP; mask := 0x0f |};
  fan_mode :=
    {| fan_mode_address := 0xf4;
       fan_mode_modes := [{| name := Some FM_AUTO_NAME; value := 0x0d |};
       {| name := Some FM_BASIC_NAME; value := 0x4d |};
       {| name := Some FM_ADVANCED_NAME; value := 0x8d |}; MSI_EC_MODE_NULL] |};
  cpu :=
    {| cpu_rt_temp_address := 0x68; cpu_rt_fan_speed_address := 0x71;
       rt_fan_speed_base_min := 0x00; rt_fan_speed_base_max := 0x64;
       bs_fan_speed_address := MSI_EC_ADDR_UNKNOWN;
       bs_fan_speed_base_min := 0x00; bs_fan_speed_base_max := 0x0f |};
  gpu := {| gpu_rt_temp_address := 0x80; gpu_rt_fan_speed_address := 0x89 |};
  leds :=
    {| micmute_led_address := MSI_EC_ADDR_UNSUPP;
       mute_led_address := MSI_EC_ADDR_UNSUPP; leds_bit := 1 |};
  kbd_bl :=
    {| bl_mode_address := MSI_EC_ADDR_UNSUPP; bl_modes := [0x00; 0x08];
       max_mode := 1; bl_state_address := 0xf3; state_base_value := 0x80;
       max_state := 3 |}
|}.

Definition ALLOWED_FW_22 : list string :=
  ["17LLEMS1.106"].

Definition CONF22 : msi_ec_conf := {|
  allowed_fw := ALLOWED_FW_22;
  charge_control :=
    {| charge_control_address := 0xef; offset_start := 0x8a;
       offset_end := 0x80; range_min := 0x8a; range_max := 0xe4 |};
  webcam :=
    {| webcam_address := 0x2e; block_address := 0x2f; webcam_bit := 1 |};
  fn_win_swap :=
    {| fn_win_swap_address := 0xbf; fn_win_swap_bit := 4; invert := true |};
  cooler_boost := {| cooler_boost_address := 0x98; cooler_boost_bit := 7 |};
  shift_mode :=
    {| shift_mode_address := 0xf2;
       shift_mode_modes := [{| name := Some SM_ECO_NAME; value := 0xc2 |};
       {| name := Some SM_COMFORT_NAME; value := 0xc1 |};
       {| name := Some SM_SPORT_NAME; value := 0xc1 |};
       {| name := Some SM_TURBO_NAME; value := 0xc4 |}; MSI_EC_MODE_NULL] |};
  super_battery :=
    {| super_battery_address := MSI_EC_ADDR_UNKNOWN; mask := 0x0f |};
  fan_mode :=
    {| fan_mode_address := 0xf4;
       fan_mode_modes := [{| name := Some FM_AUTO_NAME; value := 0x0d |};
       {| name := Some FM_SILENT_NAME; value := 0x1d |};
       {| name := Some FM_ADVANCED_NAME; value := 0x8d |}; MSI_EC_MODE_NULL] |};
  cpu :=
    {| cpu_rt_temp_address := 0x68; cpu_rt_fan_speed_address := 0x71;
       rt_fan_speed_base_min := 0x19; rt_fan_speed_base_max := 0x37;
       bs_fan_speed_address := MSI_EC_ADDR_UNKNOWN;
       bs_fan_speed_base_min := 0x00; bs_fan_speed_base_max := 0x0f |};
  gpu := {| gpu_rt_temp_address := 0x80; gpu_rt_fan_speed_address := 0x89 |};
  leds :=
    {| micmute_led_address := 0x2b; mute_led_address := 0x2c; leds_bit := 2 |};
  kbd_bl :=
    {| bl_mode_address := MSI_EC_ADDR_UNKNOWN; bl_modes := [0x00; 0x08];
       max_mode := 1; bl_state_address := MSI_EC_ADDR_UNSUPP;
       state_base_value := 0x80; max_state := 3 |}
|}.

Definition ALLOWED_FW_23 : list string :=
  ["16WKEMS1.105"].

Definition CONF23 : msi_ec_conf := {|
  allowed_fw := ALLOWED_FW_23;
  charge_control :=
    {| charge_control_address := 0xef; offset_start := 0x8a;
       offset_end := 0x80; range_min := 0x8a; range_max := 0xe4 |};
  webcam :=
    {| webcam_address := 0x2e; block_address := MSI_EC_ADDR_UNSUPP;
       webcam_bit := 1 |};
  fn_win_swap :=
    {| fn_win_swap_address := 0xbf; fn_win_swap_bit := 4; invert := true |};
  cooler_boost := {| cooler_boost_address := 0x98; cooler_boost_bit := 7 |};
  shift_mode :=
    {| shift_mode_address := 0xf2;
       shift_mode_modes := [{| name := Some SM_COMFORT_NAME;
       value := 0xc1 |}; {| name := Some SM_ECO_NAME; value := 0xc2 |};
       {| name := Some SM_TURBO_NAME; value := 0xc4 |}; MSI_EC_MODE_NULL] |};
  super_battery :=
    {| super_battery_address := MSI_EC_ADDR_UNSUPP; mask := 0 |};
  fan_mode :=
    {| fan_mode_address := 0xf4;
       fan_mode_modes := [{| name := Some FM_AUTO_NAME; value := 0x0d |};
       {| name := Some FM_SILENT_NAME; value := 0x1d |};
       {| name := Some FM_ADVANCED_NAME; value := 0x8d |}; MSI_EC_MODE_NULL] |};
  cpu :=
    {| cpu_rt_temp_address := 0x68; cpu_rt_fan_speed_address := 0x71;
       rt_fan_speed_base_min := 0x00; rt_fan_speed_base_max := 0x96;
       bs_fan_speed_address := MSI_EC_ADDR_UNSUPP;
       bs_fan_speed_base_min := 0x00; bs_fan_speed_base_max := 0x0f |};
  gpu := {| gpu_rt_temp_address := 0x80; gpu_rt_fan_speed_address := 0x89 |};
  leds :=
    {| micmute_led_address := MSI_EC_ADDR_UNSUPP;
       mute_led_address := MSI_EC_ADDR_UNSUPP; leds_bit := 0 |};
  kbd_bl :=
    {| bl_mode_address := MSI_EC_ADDR_UNSUPP; bl_modes := [0x00; 0x08];
       max_mode := 1; bl_state_address := 0xf3; state_base_value := 0x80;
       max_state := 3 |}
|}.

Definition ALLOWED_FW_24 : list string :=
  ["14D1EMS1.103"].

Definition CONF24 : msi_ec_conf := {|
  allowed_fw := ALLOWED_FW_24;
  charge_control :=
    {| charge_control_address := 0xef; offset_start := 0x8a;
       offset_end := 0x80; range_min := 0x8a; range_max := 0xe4 |};
  webcam :=
    {| webcam_address := 0x2e; block_address := 0x2f; webcam_bit := 1 |};
  fn_win_swap :=
    {| fn_win_swap_address := 0xbf; fn_win_swap_bit := 4; invert := true |};
  cooler_boost := {| cooler_boost_address := 0x98; cooler_boost_bit := 7 |};
  shift_mode :=
    {| shift_mode_address := 0xf2;
       shift_mode_modes := [{| name := Some SM_ECO_NAME; value := 0xc2 |};
       {| name := Some SM_COMFORT_NAME; value := 0xc1 |};
       {| name := Some SM_SPORT_NAME; value := 0xc0 |}; MSI_EC_MODE_NULL] |};
  super_battery :=
    {| super_battery_address := MSI_EC_ADDR_UNSUPP; mask := 0x0f |};
  fan_mode :=
    {| fan_mode_address := 0xf4;
       fan_mode_modes := [{| name := Some FM_AUTO_NAME; value := 0x0d |};
       {| name := Some FM_SILENT_NAME; value := 0x1d |};
       {| name := Some FM_ADVANCED_NAME; value := 0x8d |}; MSI_EC_MODE_NULL] |};
  cpu :=
    {| cpu_rt_temp_address := 0x68; cpu_rt_fan_speed_address := 0x71;
       rt_fan_speed_base_min := 0x00; rt_fan_speed_base_max := 0x96;
       bs_fan_speed_address := MSI_EC_ADDR_UNSUPP;
       bs_fan_speed_base_min := 0x00; bs_fan_speed_base_max := 0x0f |};
  gpu :=
    {| gpu_rt_temp_address := MSI_EC_ADDR_UNSUPP;
       gpu_rt_fan_speed_address := MSI_EC_ADDR_UNSUPP |};
  leds :=
    {| micmute_led_address := 0x2b; mute_led_address := 0x2c; leds_bit := 2 |};
  kbd_bl :=
    {| bl_mode_address := MSI_EC_ADDR_UNSUPP; bl_modes := [0x00; 0x08];
       max_mode := 1; bl_state_address := 0xf3; state_base_value := 0x80;
       max_state := 3 |}
|}.

Definition ALLOWED_FW_25 : list string :=
  ["14F1EMS1.209"; "14F1EMS1.211"].

Definition CONF25 : msi_ec_conf := {|
  allowed_fw := ALLOWED_FW_25;
  charge_control :=
    {| charge_control_address := 0xd7; offset_start := 0x8a;
       offset_end := 0x80; range_min := 0x8a; range_max := 0xe4 |};
  webcam :=
    {| webcam_address := 0x2e; block_address := 0x2f; webcam_bit := 1 |};
  fn_win_swap :=
    {| fn_win_swap_address := 0xe8; fn_win_swap_bit := 4; invert := false |};
  cooler_boost := {| cooler_boost_address := 0x98; cooler_boost_bit := 7 |};
  shift_mode :=
    {| shift_mode_address := 0xd2;
       shift_mode_modes := [{| name := Some SM_ECO_NAME; value := 0xc2 |};
       {| name := Some SM_COMFORT_NAME; value := 0xc1 |};
       {| name := Some SM_TURBO_NAME; value := 0xc4 |}; MSI_EC_MODE_NULL] |};
  super_battery := {| super_battery_address := 0xeb; mask := 0x0f |};
  fan_mode :=
    {| fan_mode_address := 0xd4;
       fan_mode_modes := [{| name := Some FM_AUTO_NAME; value := 0x0d |};
       {| name := Some FM_SILENT_NAME; value := 0x1d |};
       {| name := Some FM_ADVANCED_NAME; value := 0x8d |}; MSI_EC_MODE_NULL] |};
  cpu :=
    {| cpu_rt_temp_address := 0x68; cpu_rt_fan_speed_address := 0x71;
       rt_fan_speed_base_min := 0x19; rt_fan_speed_base_max := 0x37;
       bs_fan_speed_address := MSI_EC_ADDR_UNSUPP;
       bs_fan_speed_base_min := 0x00; bs_fan_speed_base_max := 0x0f |};
  gpu :=
    {| gpu_rt_temp_address := MSI_EC_ADDR_UNKNOWN;
       gpu_rt_fan_speed_address := 0x89 |};
  leds :=
    {| micmute_led_address := 0x2c; mute_led_address := 0x2d; leds_bit := 1 |};
  kbd_bl :=
    {| bl_mode_address := 0x2c; bl_modes := [0x00; 0x08]; max_mode := 1;
       bl_state_address := 0xd3; state_base_value := 0x80; max_state := 3 |}
|}.

Definition ALLOWED_FW_26 : list string :=
  ["14DLEMS1.105"].

Definition CONF26 : msi_ec_conf := {|
  allowed_fw := ALLOWED_FW_26;
  charge_control :=
    {| charge_control_address := 0xef; offset_start := 0x8a;
       offset_end := 0x80; range_min := 0xbc; range_max := 0xe4 |};
  webcam :=
    {| webcam_address := 0x2e; block_address := 0x2f; webcam_bit := 1 |};
  fn_win_swap :=
    {| fn_win_swap_address := 0xbf; fn_win_swap_bit := 4; invert := false |};
  cooler_boost := {| cooler_boost_address := 0x98; cooler_boost_bit := 7 |};
  shift_mode :=
    {| shift_mode_address := 0xf2;
       shift_mode_modes := [{| name := Some SM_ECO_NAME; value := 0xc2 |};
       {| name := Some SM_COMFORT_NAME; value := 0xc1 |};
       {| name := Some SM_SPORT_NAME; value := 0xc0 |}; MSI_EC_MODE_NULL] |};
  super_battery :=
    {| super_battery_address := MSI_EC_ADDR_UNSUPP; mask := 0x0f |};
  fan_mode :=
    {| fan_mode_address := 0xd4;
       fan_mode_modes := [{| name := Some FM_AUTO_NAME; value := 0x0d |};
       {| name := Some FM_SILENT_NAME; value := 0x1d |};
       {| name := Some FM_ADVANCED_NAME; value := 0x8d |}; MSI_EC_MODE_NULL] |};
  cpu :=
    {| cpu_rt_temp_address := 0x68; cpu_rt_fan_speed_address := 0xcd;
       rt_fan_speed_base_min := 0x19; rt_fan_speed_base_max := 0x37;
       bs_fan_speed_address := MSI_EC_ADDR_UNSUPP;
       bs_fan_speed_base_min := 0x00; bs_fan_speed_base_max := 0x0f |};
  gpu :=
    {| gpu_rt_temp_address := MSI_EC_ADDR_UNSUPP;
       gpu_rt_fan_speed_address := MSI_EC_ADDR_UNSUPP |};
  leds :=
    {| micmute_led_address := 0x2b; mute_led_address := 0x2c; leds_bit := 2 |};
  kbd_bl :=
    {| bl_mode_address := MSI_EC_ADDR_UNSUPP; bl_modes := [0x00; 0x08];
       max_mode := 1; bl_state_address := 0xf3; state_base_value := 0x80;
       max_state := 3 |}
|}.

Definition ALLOWED_FW_27 : list string :=
  ["17S2IMS1.113"].

Definition CONF27 : msi_ec_conf := {|
  allowed_fw := ALLOWED_FW_27;
  charge_control :=
    {| charge_control_address := 0xd7; offset_start := 0x8a;
       offset_end := 0x80; range_min := 0x8a; range_max := 0xe4 |};
  webcam :=
    {| webcam_address := 0x2e; block_address := 0x2f; webcam_bit := 1 |};
  fn_win_swap :=
    {| fn_win_swap_address := 0xe8; fn_win_swap_bit := 4; invert := true |};
  cooler_boost := {| cooler_boost_address := 0x98; cooler_boost_bit := 7 |};
  shift_mode :=
    {| shift_mode_address := 0xd2;
       shift_mode_modes := [{| name := Some SM_ECO_NAME; value := 0xc2 |};
       {| name := Some SM_COMFORT_NAME; value := 0xc1 |};
       {| name := Some SM_SPORT_NAME; value := 0xc0 |};
       {| name := Some SM_TURBO_NAME; value := 0xc4 |}; MSI_EC_MODE_NULL] |};
  super_battery := {| super_battery_address := 0xeb; mask := 0x0f |};
  fan_mode :=
    {| fan_mode_address := 0xd4;
       fan_mode_modes := [{| name := Some FM_AUTO_NAME; value := 0x0d |};
       {| name := Some FM_SILENT_NAME; value := 0x1d |};
       {| name := Some FM_ADVANCED_NAME; value := 0x8d |}; MSI_EC_MODE_NULL] |};
  cpu :=
    {| cpu_rt_temp_address := 0x68; cpu_rt_fan_speed_address := 0x71;
       rt_fan_speed_base_min := 0x00; rt_fan_speed_base_max := 0x96;
       bs_fan_speed_address := MSI_EC_ADDR_UNKNOWN;
       bs_fan_speed_base_min := 0x00; bs_fan_speed_base_max := 0x0f |};
  gpu := {| gpu_rt_temp_address := 0x80; gpu_rt_fan_speed_address := 0x89 |};
  leds :=
    {| micmute_led_address := 0x2c; mute_led_address := 0x2d; leds_bit := 1 |};
  kbd_bl :=
    {| bl_mode_address := MSI_EC_ADDR_UNSUPP; bl_modes := [0x00; 0x08];
       max_mode := 1; bl_state_address := MSI_EC_ADDR_UNSUPP;
       state_base_value := 0x80; max_state := 3 |}
|}.

Definition ALLOWED_FW_28 : list string :=
  ["1822EMS1.105"; "1822EMS1.109"; "1822EMS1.111"; "1822EMS1.112";
   "1822EMS1.114"].

Definition CONF28 : msi_ec_conf := {|
  allowed_fw := ALLOWED_FW_28;
  charge_control :=
    {| charge_control_address := 0xd7; offset_start := 0x8a;
       offset_end := 0x80; range_min := 0x8a; range_max := 0xe4 |};
  webcam :=
    {| webcam_address := MSI_EC_ADDR_UNSUPP;
       block_address := MSI_EC_ADDR_UNSUPP; webcam_bit := 1 |};
  fn_win_swap :=
    {| fn_win_swap_address := 0xe8; fn_win_swap_bit := 4; invert := false |};
  cooler_boost := {| cooler_boost_address := 0x98; cooler_boost_bit := 7 |};
  shift_mode :=
    {| shift_mode_address := 0xd2;
       shift_mode_modes := [{| name := Some SM_ECO_NAME; value := 0xc2 |};
       {| name := Some SM_COMFORT_NAME; value := 0xc1 |};
       {| name := Some SM_TURBO_NAME; value := 0xc4 |}; MSI_EC_MODE_NULL] |};
  super_battery := {| super_battery_address := 0xeb; mask := 0x0f |};
  fan_mode :=
    {| fan_mode_address := 0xd4;
       fan_mode_modes := [{| name := Some FM_AUTO_NAME; value := 0x0d |};
       {| name := Some FM_SILENT_NAME; value := 0x1d |};
       {| name := Some FM_ADVANCED_NAME; value := 0x8d |}; MSI_EC_MODE_NULL] |};
  cpu :=
    {| cpu_rt_temp_address := 0x68; cpu_rt_fan_speed_address := 0x71;
       rt_fan_speed_base_min := 0x00; rt_fan_speed_base_max := 0x96;
       bs_fan_speed_address := MSI_EC_ADDR_UNSUPP;
       bs_fan_speed_base_min := 0x00; bs_fan_speed_base_max := 0x0f |};
  gpu := {| gpu_rt_temp_address := 0x80; gpu_rt_fan_speed_address := 0x89 |};
  leds :=
    {| micmute_led_address := 0x2c; mute_led_address := 0x2d; leds_bit := 1 |};
  kbd_bl :=
    {| bl_mode_address := MSI_EC_ADDR_UNSUPP; bl_modes := [0x00; 0x08];
       max_mode := 1; bl_state_address := 0xd3; state_base_value := 0x81;
       max_state := 3 |}
|}.

Definition ALLOWED_FW_29 : list string :=
  ["16V5EMS1.107"].

Definition CONF29 : msi_ec_conf := {|
  allowed_fw := ALLOWED_FW_29;
  charge_control :=
    {| charge_control_address := 0xd7; offset_start := 0x8a;
       offset_end := 0x80; range_min := 0x8a; range_max := 0xe4 |};
  webcam :=
    {| webcam_address := 0x2e; block_address := 0x2f; webcam_bit := 1 |};
  fn_win_swap :=
    {| fn_win_swap_address := 0xe8; fn_win_swap_bit := 4; invert := true |};
  cooler_boost := {| cooler_boost_address := 0x98; cooler_boost_bit := 7 |};
  shift_mode :=
    {| shift_mode_address := 0xd2;
       shift_mode_modes := [{| name := Some SM_ECO_NAME; value := 0xc2 |};
       {| name := Some SM_COMFORT_NAME; value := 0xc1 |};
       {| name := Some SM_TURBO_NAME; value := 0xc4 |}; MSI_EC_MODE_NULL] |};
  super_battery := {| super_battery_address := 0xeb; mask := 0x0f |};
  fan_mode :=
    {| fan_mode_address := 0xd4;
       fan_mode_modes := [{| name := Some FM_AUTO_NAME; value := 0x0d |};
       {| name := Some FM_SILENT_NAME; value := 0x1d |};
       {| name := Some FM_ADVANCED_NAME; value := 0x8d |}; MSI_EC_MODE_NULL] |};
  cpu :=
    {| cpu_rt_temp_address := 0x68;
       cpu_rt_fan_speed_address := MSI_EC_ADDR_UNKNOWN;
       rt_fan_speed_base_min := 0x00; rt_fan_speed_base_max := 0x3d;
       bs_fan_speed_address := MSI_EC_ADDR_UNKNOWN;
       bs_fan_speed_base_min := 0x00; bs_fan_speed_base_max := 0x0f |};
  gpu := {| gpu_rt_temp_address := 0x80; gpu_rt_fan_speed_address := 0xcb |};
  leds :=
    {| micmute_led_address := MSI_EC_ADDR_UNSUPP;
       mute_led_address := MSI_EC_ADDR_UNSUPP; leds_bit := 1 |};
  kbd_bl :=
    {| bl_mode_address := MSI_EC_ADDR_UNSUPP; bl_modes := []; max_mode := 1;
       bl_state_address := MSI_EC_ADDR_UNSUPP; state_base_value := 0x80;
       max_state := 3 |}
|}.

Definition ALLOWED_FW_30 : list string :=
  ["17Q2IMS1.10D"].

Definition CONF30 : msi_ec_conf := {|
  allowed_fw := ALLOWED_FW_30;
  charge_control :=
    {| charge_control_address := 0xd7; offset_start := 0x8a;
       offset_end := 0x80; range_min := 0x8a; range_max := 0xe4 |};
  webcam :=
    {| webcam_address := 0x2e; block_address := MSI_EC_ADDR_UNSUPP;
       webcam_bit := 1 |};
  fn_win_swap :=
    {| fn_win_swap_address := 0xe8; fn_win_swap_bit := 4; invert := false |};
  cooler_boost := {| cooler_boost_address := 0x98; cooler_boost_bit := 7 |};
  shift_mode :=
    {| shift_mode_address := 0xd2;
       shift_mode_modes := [{| name := Some SM_ECO_NAME; value := 0xc2 |};
       {| name := Some SM_COMFORT_NAME; value := 0xc1 |};
       {| name := Some SM_SPORT_NAME; value := 0xc0 |};
       {| name := Some SM_TURBO_NAME; value := 0xc4 |}; MSI_EC_MODE_NULL] |};
  super_battery :=
    {| super_battery_address := MSI_EC_ADDR_UNSUPP; mask := 0x0f |};
  fan_mode :=
    {| fan_mode_address := 0xd4;
       fan_mode_modes := [{| name := Some FM_AUTO_NAME; value := 0x0d |};
       {| name := Some FM_SILENT_NAME; value := 0x1d |};
       {| name := Some FM_ADVANCED_NAME; value := 0x8d |}; MSI_EC_MODE_NULL] |};
  cpu :=
    {| cpu_rt_temp_address := MSI_EC_ADDR_UNKNOWN;
       cpu_rt_fan_speed_address := MSI_EC_ADDR_UNKNOWN;
       rt_fan_speed_base_min := 0x00; rt_fan_speed_base_max := 0x96;
       bs_fan_speed_address := MSI_EC_ADDR_UNKNOWN;
       bs_fan_speed_base_min := 0x00; bs_fan_speed_base_max := 0x0f |};
  gpu :=
    {| gpu_rt_temp_address := MSI_EC_ADDR_UNKNOWN;
       gpu_rt_fan_speed_address := MSI_EC_ADDR_UNKNOWN |};
  leds :=
    {| micmute_led_address := MSI_EC_ADDR_UNKNOWN;
       mute_led_address := MSI_EC_ADDR_UNKNOWN; leds_bit := 1 |};
  kbd_bl :=
    {| bl_mode_address := MSI_EC_ADDR_UNKNOWN; bl_modes := [];
       max_mode := 1; bl_state_address := 0xd3; state_base_value := 0x80;
       max_state := 3 |}
|}.

Definition ALLOWED_FW_31 : list string :=
  ["16Q4EMS1.110"].

Definition CONF31 : msi_ec_conf := {|
  allowed_fw := ALLOWED_FW_31;
  charge_control :=
    {| charge_control_address := 0xef; offset_start := 0x8a;
       offset_end := 0x80; range_min := 0x8a; range_max := 0xe4 |};
  webcam :=
    {| webcam_address := 0x2e; block_address := MSI_EC_ADDR_UNSUPP;
       webcam_bit := 1 |};
  fn_win_swap :=
    {| fn_win_swap_address := 0xbf; fn_win_swap_bit := 4; invert := false |};
  cooler_boost := {| cooler_boost_address := 0x98; cooler_boost_bit := 7 |};
  shift_mode :=
    {| shift_mode_address := 0xf2;
       shift_mode_modes := [{| name := Some SM_ECO_NAME; value := 0xc2 |};
       {| name := Some SM_COMFORT_NAME; value := 0xc1 |};
       {| name := Some SM_TURBO_NAME; value := 0xc4 |};
       {| name := Some SM_SPORT_NAME; value := 0xc0 |}; MSI_EC_MODE_NULL] |};
  super_battery :=
    {| super_battery_address := MSI_EC_ADDR_UNSUPP; mask := 0 |};
  fan_mode :=
    {| fan_mode_address := 0xf4;
       fan_mode_modes := [{| name := Some FM_BASIC_NAME; value := 0x4c |};
       {| name := Some FM_AUTO_NAME; value := 0x0c |};
       {| name := Some FM_ADVANCED_NAME; value := 0x8c |}; MSI_EC_MODE_NULL] |};
  cpu :=
    {| cpu_rt_temp_address := 0x68; cpu_rt_fan_speed_address := 0x71;
       rt_fan_speed_base_min := 0x00; rt_fan_speed_base_max := 0x96;
       bs_fan_speed_address := MSI_EC_ADDR_UNSUPP;
       bs_fan_speed_base_min := 0x00; bs_fan_speed_base_max := 0x0f |};
  gpu :=
    {| gpu_rt_temp_address := 0x80;
       gpu_rt_fan_speed_address := MSI_EC_ADDR_UNKNOWN |};
  leds :=
    {| micmute_led_address := MSI_EC_ADDR_UNSUPP;
       mute_led_address := MSI_EC_ADDR_UNSUPP; leds_bit := 1 |};
  kbd_bl :=
    {| bl_mode_address := MSI_EC_ADDR_UNSUPP; bl_modes := [0x00; 0x08];
       max_mode := 1; bl_state_address := MSI_EC_ADDR_UNSUPP;
       state_base_value := 0x81; max_state := 3 |}
|}.

Definition ALLOWED_FW_32 : list string :=
  ["158PIMS1.207"; "158PIMS1.112"].

Definition CONF32 : msi_ec_conf := {|
  allowed_fw := ALLOWED_FW_32;
  charge_control :=
    {| charge_control_address := 0xd7; offset_start := 0x8a;
       offset_end := 0x80; range_min := 0x8a; range_max := 0xe4 |};
  webcam :=
    {| webcam_address := MSI_EC_ADDR_UNSUPP;
       block_address := MSI_EC_ADDR_UNSUPP; webcam_bit := 1 |};
  fn_win_swap :=
    {| fn_win_swap_address := 0xe8; fn_win_swap_bit := 4; invert := false |};
  cooler_boost := {| cooler_boost_address := 0x98; cooler_boost_bit := 7 |};
  shift_mode :=
    {| shift_mode_address := 0xd2;
       shift_mode_modes := [{| name := Some SM_ECO_NAME; value := 0xc2 |};
       {| name := Some SM_COMFORT_NAME; value := 0xc1 |};
       {| name := Some SM_TURBO_NAME; value := 0xc4 |}; MSI_EC_MODE_NULL] |};
  super_battery :=
    {| super_battery_address := MSI_EC_ADDR_UNKNOWN; mask := 0x0f |};
  fan_mode :=
    {| fan_mode_address := 0xd4;
       fan_mode_modes := [{| name := Some FM_AUTO_NAME; value := 0x0d |};
       {| name := Some FM_SILENT_NAME; value := 0x1d |};
       {| name := Some FM_ADVANCED_NAME; value := 0x8d |}; MSI_EC_MODE_NULL] |};
  cpu :=
    {| cpu_rt_temp_address := 0x68;
       cpu_rt_fan_speed_address := MSI_EC_ADDR_UNKNOWN;
       rt_fan_speed_base_min := 0x00; rt_fan_speed_base_max := 0x96;
       bs_fan_speed_address := MSI_EC_ADDR_UNSUPP;
       bs_fan_speed_base_min := 0x00; bs_fan_speed_base_max := 0x0f |};
  gpu :=
    {| gpu_rt_temp_address := MSI_EC_ADDR_UNSUPP;
       gpu_rt_fan_speed_address := MSI_EC_ADDR_UNKNOWN |};
  leds :=
    {| micmute_led_address := 0x2c; mute_led_address := 0x2d; leds_bit := 1 |};
  kbd_bl :=
    {| bl_mode_address := MSI_EC_ADDR_UNSUPP; bl_modes := []; max_mode := 1;
       bl_state_address := 0xd3; state_base_value := 0x80; max_state := 3 |}
|}.

Definition ALLOWED_FW_33 : list string :=
  ["17N1EMS1.109"].

Definition CONF33 : msi_ec_conf := {|
  allowed_fw := ALLOWED_FW_33;
  charge_control :=
    {| charge_control_address := 0xd7; offset_start := 0x8a;
       offset_end := 0x80; range_min := 0x8a; range_max := 0xe4 |};
  webcam :=
    {| webcam_address := 0x2e; block_address := MSI_EC_ADDR_UNSUPP;
       webcam_bit := 1 |};
  fn_win_swap :=
    {| fn_win_swap_address := 0xe8; fn_win_swap_bit := 4; invert := true |};
  cooler_boost := {| cooler_boost_address := 0x98; cooler_boost_bit := 7 |};
  shift_mode :=
    {| shift_mode_address := 0xd2;
       shift_mode_modes := [{| name := Some SM_ECO_NAME; value := 0xc2 |};
       {| name := Some SM_COMFORT_NAME; value := 0xc1 |};
       {| name := Some SM_SPORT_NAME; value := 0xc0 |}; MSI_EC_MODE_NULL] |};
  super_battery := {| super_battery_address := 0xeb; mask := 0x0f |};
  fan_mode :=
    {| fan_mode_address := 0xd4;
       fan_mode_modes := [{| name := Some FM_AUTO_NAME; value := 0x0d |};
       {| name := Some FM_SILENT_NAME; value := 0x1d |};
       {| name := Some FM_ADVANCED_NAME; value := 0x4d |}; MSI_EC_MODE_NULL] |};
  cpu :=
    {| cpu_rt_temp_address := 0x68; cpu_rt_fan_speed_address := 0x71;
       rt_fan_speed_base_min := 0x00; rt_fan_speed_base_max := 0x96;
       bs_fan_speed_address := MSI_EC_ADDR_UNSUPP;
       bs_fan_speed_base_min := 0x00; bs_fan_speed_base_max := 0x96 |};
  gpu := {| gpu_rt_temp_address := 0x80; gpu_rt_fan_speed_address := 0x89 |};
  leds :=
    {| micmute_led_address := 0x2c; mute_led_address := 0x2d; leds_bit := 1 |};
  kbd_bl :=
    {| bl_mode_address := MSI_EC_ADDR_UNSUPP; bl_modes := [0x00; 0x08];
       max_mode := 1; bl_state_address := MSI_EC_ADDR_UNSUPP;
       state_base_value := 0x80; max_state := 3 |}
|}.

Definition ALLOWED_FW_34 : list string :=
  ["14C6EMS1.109"].

Definition CONF34 : msi_ec_conf := {|
  allowed_fw := ALLOWED_FW_34;
  charge_control :=
    {| charge_control_address := 0xd7; offset_start := 0x8a;
       offset_end := 0x80; range_min := 0x8a; range_max := 0xe4 |};
  webcam :=
    {| webcam_address := 0x2e; block_address := 0x2f; webcam_bit := 1 |};
  fn_win_swap :=
    {| fn_win_swap_address := 0xe8; fn_win_swap_bit := 4; invert := false |};
  cooler_boost := {| cooler_boost_address := 0x98; cooler_boost_bit := 7 |};
  shift_mode :=
    {| shift_mode_address := 0xd2;
       shift_mode_modes := [{| name := Some SM_ECO_NAME; value := 0xc2 |};
       {| name := Some SM_COMFORT_NAME; value := 0xc1 |};
       {| name := Some SM_SPORT_NAME; value := 0xc0 |}; MSI_EC_MODE_NULL] |};
  super_battery := {| super_battery_address := 0xeb; mask := 0x0f |};
  fan_mode :=
    {| fan_mode_address := 0xd4;
       fan_mode_modes := [{| name := Some FM_AUTO_NAME; value := 0x0d |};
       {| name := Some FM_SILENT_NAME; value := 0x1d |};
       {| name := Some FM_ADVANCED_NAME; value := 0x4d |}; MSI_EC_MODE_NULL] |};
  cpu :=
    {| cpu_rt_temp_address := 0x68;
       cpu_rt_fan_speed_address := MSI_EC_ADDR_UNKNOWN;
       rt_fan_speed_base_min := 0; rt_fan_speed_base_max := 0;
       bs_fan_speed_address := MSI_EC_ADDR_UNKNOWN;
       bs_fan_speed_base_min := 0; bs_fan_speed_base_max := 0 |};
  gpu :=
    {| gpu_rt_temp_address := MSI_EC_ADDR_UNKNOWN;
       gpu_rt_fan_speed_address := MSI_EC_ADDR_UNKNOWN |};
  leds :=
    {| micmute_led_address := 0x2c; mute_led_address := 0x2d; leds_bit := 1 |};
  kbd_bl :=
    {| bl_mode_address := 0x2c; bl_modes := [0x00; 0x08]; max_mode := 1;
       bl_state_address := 0xd3; state_base_value := 0x80; max_state := 3 |}
|}.

Definition ALLOWED_FW_35 : list string :=
  ["15M2IMS1.113"].

Definition CONF35 : msi_ec_conf := {|
  allowed_fw := ALLOWED_FW_35;
  charge_control :=
    {| charge_control_address := 0xd7; offset_start := 0x8a;
       offset_end := 0x80; range_min := 0x8a; range_max := 0xe4 |};
  webcam :=
    {| webcam_address := 0x2e; block_address := MSI_EC_ADDR_UNSUPP;
       webcam_bit := 1 |};
  fn_win_swap :=
    {| fn_win_swap_address := 0xe8; fn_win_swap_bit := 4; invert := true |};
  cooler_boost := {| cooler_boost_address := 0x98; cooler_boost_bit := 7 |};
  shift_mode :=
    {| shift_mode_address := 0xd2;
       shift_mode_modes := [{| name := Some SM_COMFORT_NAME;
       value := 0xc1 |}; {| name := Some SM_ECO_NAME; value := 0xc2 |};
       {| name := Some SM_TURBO_NAME; value := 0xc4 |}; MSI_EC_MODE_NULL] |};
  super_battery := {| super_battery_address := 0xeb; mask := 0x0f |};
  fan_mode :=
    {| fan_mode_address := 0xd4;
       fan_mode_modes := [{| name := Some FM_AUTO_NAME; value := 0x0d |};
       {| name := Some FM_SILENT_NAME; value := 0x1d |};
       {| name := Some FM_ADVANCED_NAME; value := 0x8d |}; MSI_EC_MODE_NULL] |};
  cpu :=
    {| cpu_rt_temp_address := 0x68; cpu_rt_fan_speed_address := 0x71;
       rt_fan_speed_base_min := 0x00; rt_fan_speed_base_max := 0x96;
       bs_fan_speed_address := MSI_EC_ADDR_UNSUPP;
       bs_fan_speed_base_min := 0x00; bs_fan_speed_base_max := 0x0f |};
  gpu := {| gpu_rt_temp_address := 0x80; gpu_rt_fan_speed_address := 0x89 |};
  leds :=
    {| micmute_led_address := 0x2c; mute_led_address := 0x2d; leds_bit := 1 |};
  kbd_bl :=
    {| bl_mode_address := MSI_EC_ADDR_UNSUPP; bl_modes := [0x00; 0x08];
       max_mode := 1; bl_state_address := MSI_EC_ADDR_UNSUPP;
       state_base_value := 0x80; max_state := 3 |}
|}.

Definition ALLOWED_FW_36 : list string :=
  ["1585EMS1.115"].

Definition CONF36 : msi_ec_conf := {|
  allowed_fw := ALLOWED_FW_36;
  charge_control :=
    {| charge_control_address := 0xd7; offset_start := 0x8a;
       offset_end := 0x80; range_min := 0x8a; range_max := 0xe4 |};
  webcam :=
    {| webcam_address := 0x2e; block_address := MSI_EC_ADDR_UNSUPP;
       webcam_bit := 1 |};
  fn_win_swap :=
    {| fn_win_swap_address := 0xe8; fn_win_swap_bit := 4; invert := true |};
  cooler_boost := {| cooler_boost_address := 0x98; cooler_boost_bit := 7 |};
  shift_mode :=
    {| shift_mode_address := 0xd2;
       shift_mode_modes := [{| name := Some SM_ECO_NAME; value := 0xc2 |};
       {| name := Some SM_COMFORT_NAME; value := 0xc1 |};
       {| name := Some SM_SPORT_NAME; value := 0xc4 |}; MSI_EC_MODE_NULL] |};
  super_battery := {| super_battery_address := 0xeb; mask := 0x0f |};
  fan_mode :=
    {| fan_mode_address := 0xd4;
       fan_mode_modes := [{| name := Some FM_AUTO_NAME; value := 0x0d |};
       {| name := Some FM_SILENT_NAME; value := 0x1d |};
       {| name := Some FM_ADVANCED_NAME; value := 0x8d |}; MSI_EC_MODE_NULL] |};
  cpu :=
    {| cpu_rt_temp_address := 0x68; cpu_rt_fan_speed_address := 0xc9;
       rt_fan_speed_base_min := 0x00; rt_fan_speed_base_max := 0x96;
       bs_fan_speed_address := MSI_EC_ADDR_UNSUPP;
       bs_fan_speed_base_min := 0x00; bs_fan_speed_base_max := 0x96 |};
  gpu := {| gpu_rt_temp_address := 0x80; gpu_rt_fan_speed_address := 0xcb |};
  leds :=
    {| micmute_led_address := 0x2c; mute_led_address := 0x2d; leds_bit := 1 |};
  kbd_bl :=
    {| bl_mode_address := MSI_EC_ADDR_UNSUPP; bl_modes := [0x00; 0x08];
       max_mode := 1; bl_state_address := MSI_EC_ADDR_UNSUPP;
       state_base_value := 0x80; max_state := 3 |}
|}.

Definition ALLOWED_FW_37 : list string :=
  ["15M1IMS1.113"].

Definition CONF37 : msi_ec_conf := {|
  allowed_fw := ALLOWED_FW_37;
  charge_control :=
    {| charge_control_address := 0xd7; offset_start := 0x8a;
       offset_end := 0x80; range_min := 0x8a; range_max := 0xe4 |};
  webcam :=
    {| webcam_address := 0x2e; block_address := 0x2f; webcam_bit := 1 |};
  fn_win_swap :=
    {| fn_win_swap_address := 0xe8; fn_win_swap_bit := 4; invert := true |};
  cooler_boost := {| cooler_boost_address := 0x98; cooler_boost_bit := 7 |};
  shift_mode :=
    {| shift_mode_address := 0xd2;
       shift_mode_modes := [{| name := Some SM_ECO_NAME; value := 0xc2 |};
       {| name := Some SM_COMFORT_NAME; value := 0xc1 |};
       {| name := Some SM_TURBO_NAME; value := 0xc4 |}; MSI_EC_MODE_NULL] |};
  super_battery := {| super_battery_address := 0xeb; mask := 0x0f |};
  fan_mode :=
    {| fan_mode_address := 0xd4;
       fan_mode_modes := [{| name := Some FM_AUTO_NAME; value := 0x0d |};
       {| name := Some FM_SILENT_NAME; value := 0x1d |};
       {| name := Some FM_ADVANCED_NAME; value := 0x8d |}; MSI_EC_MODE_NULL] |};
  cpu :=
    {| cpu_rt_temp_address := 0x68; cpu_rt_fan_speed_address := 0x71;
       rt_fan_speed_base_min := 0x19; rt_fan_speed_base_max := 0x37;
       bs_fan_speed_address := MSI_EC_ADDR_UNSUPP;
       bs_fan_speed_base_min := 0x00; bs_fan_speed_base_max := 0x0f |};
  gpu := {| gpu_rt_temp_address := 0x80; gpu_rt_fan_speed_address := 0x89 |};
  leds :=
    {| micmute_led_address := 0x2c; mute_led_address := 0x2d; leds_bit := 1 |};
  kbd_bl :=
    {| bl_mode_address := MSI_EC_ADDR_UNSUPP; bl_modes := [0x00; 0x08];
       max_mode := 1; bl_state_address := MSI_EC_ADDR_UNSUPP;
       state_base_value := 0x80; max_state := 3 |}
|}.

Definition ALLOWED_FW_38 : list string :=
  ["17E8IMS1.106"; "17E8EMS1.101"].

Definition CONF38 : msi_ec_conf := {|
  allowed_fw := ALLOWED_FW_38;
  charge_control :=
    {| charge_control_address := 0xef; offset_start := 0x8a;
       offset_end := 0x80; range_min := 0x8a; range_max := 0xe4 |};
  webcam :=
    {| webcam_address := 0x2e; block_address := 0x2f; webcam_bit := 1 |};
  fn_win_swap :=
    {| fn_win_swap_address := 0xbf; fn_win_swap_bit := 4; invert := false |};
  cooler_boost := {| cooler_boost_address := 0x98; cooler_boost_bit := 7 |};
  shift_mode :=
    {| shift_mode_address := 0xf2;
       shift_mode_modes := [{| name := Some SM_ECO_NAME; value := 0xc2 |};
       {| name := Some SM_COMFORT_NAME; value := 0xc1 |};
       {| name := Some SM_SPORT_NAME; value := 0xc0 |};
       {| name := Some SM_TURBO_NAME; value := 0xc4 |}; MSI_EC_MODE_NULL] |};
  super_battery :=
    {| super_battery_address := MSI_EC_ADDR_UNKNOWN; mask := 0 |};
  fan_mode :=
    {| fan_mode_address := 0xf4;
       fan_mode_modes := [{| name := Some FM_AUTO_NAME; value := 0x00 |};
       {| name := Some FM_ADVANCED_NAME; value := 0x80 |}; MSI_EC_MODE_NULL] |};
  cpu :=
    {| cpu_rt_temp_address := 0x68; cpu_rt_fan_speed_address := 0x71;
       rt_fan_speed_base_min := 0x19; rt_fan_speed_base_max := 0x37;
       bs_fan_speed_address := 0x89; bs_fan_speed_base_min := 0x00;
       bs_fan_speed_base_max := 0x0f |};
  gpu := {| gpu_rt_temp_address := 0x80; gpu_rt_fan_speed_address := 0x89 |};
  leds :=
    {| micmute_led_address := MSI_EC_ADDR_UNKNOWN;
       mute_led_address := MSI_EC_ADDR_UNKNOWN; leds_bit := 1 |};
  kbd_bl :=
    {| bl_mode_address := 0x2c; bl_modes := [0x00; 0x08]; max_mode := 1;
       bl_state_address := 0xf3; state_base_value := 0x80; max_state := 3 |}
|}.

Definition ALLOWED_FW_39 : list string :=
  ["16R8IMS1.117"].

Definition CONF39 : msi_ec_conf := {|
  allowed_fw := ALLOWED_FW_39;
  charge_control :=
    {| charge_control_address := 0xd7; offset_start := 0x8a;
       offset_end := 0x80; range_min := 0x8a; range_max := 0xe4 |};
  webcam :=
    {| webcam_address := 0x2e; block_address := MSI_EC_ADDR_UNSUPP;
       webcam_bit := 1 |};
  fn_win_swap :=
    {| fn_win_swap_address := 0xe8; fn_win_swap_bit := 4; invert := false |};
  cooler_boost := {| cooler_boost_address := 0x98; cooler_boost_bit := 7 |};
  shift_mode :=
    {| shift_mode_address := 0xd2;
       shift_mode_modes := [{| name := Some SM_ECO_NAME; value := 0xc2 |};
       {| name := Some SM_COMFORT_NAME; value := 0xc1 |};
       {| name := Some SM_TURBO_NAME; value := 0xc4 |}; MSI_EC_MODE_NULL] |};
  super_battery := {| super_battery_address := 0xeb; mask := 0x0f |};
  fan_mode :=
    {| fan_mode_address := 0xd4;
       fan_mode_modes := [{| name := Some FM_AUTO_NAME; value := 0x0d |};
       {| name := Some FM_SILENT_NAME; value := 0x1d |};
       {| name := Some FM_ADVANCED_NAME; value := 0x8d |}; MSI_EC_MODE_NULL] |};
  cpu :=
    {| cpu_rt_temp_address := 0x68; cpu_rt_fan_speed_address := 0x71;
       rt_fan_speed_base_min := 0x00; rt_fan_speed_base_max := 0x96;
       bs_fan_speed_address := MSI_EC_ADDR_UNKNOWN;
       bs_fan_speed_base_min := 0x00; bs_fan_speed_base_max := 0x0f |};
  gpu :=
    {| gpu_rt_temp_address := 0x80;
       gpu_rt_fan_speed_address := MSI_EC_ADDR_UNSUPP |};
  leds :=
    {| micmute_led_address := MSI_EC_ADDR_UNSUPP;
       mute_led_address := MSI_EC_ADDR_UNSUPP; leds_bit := 1 |};
  kbd_bl :=
    {| bl_mode_address := MSI_EC_ADDR_UNSUPP; bl_modes := []; max_mode := 1;
       bl_state_address := 0xd3; state_base_value := 0x80; max_state := 3 |}
|}.

Definition ALLOWED_FW_40 : list string :=
  ["17S1IMS1.105"].

Definition CONF40 : msi_ec_conf := {|
  allowed_fw := ALLOWED_FW_40;
  charge_control :=
    {| charge_control_address := 0xd7; offset_start := 0x8a;
       offset_end := 0x80; range_min := 0x8a; range_max := 0xe4 |};
  webcam :=
    {| webcam_address := 0x2e; block_address := MSI_EC_ADDR_UNSUPP;
       webcam_bit := 1 |};
  fn_win_swap :=
    {| fn_win_swap_address := 0xe8; fn_win_swap_bit := 4; invert := true |};
  cooler_boost := {| cooler_boost_address := 0x98; cooler_boost_bit := 7 |};
  shift_mode :=
    {| shift_mode_address := 0xd2;
       shift_mode_modes := [{| name := Some SM_COMFORT_NAME;
       value := 0xc1 |}; {| name := Some SM_ECO_NAME; value := 0xc2 |};
       {| name := Some SM_TURBO_NAME; value := 0xc4 |}; MSI_EC_MODE_NULL] |};
  super_battery := {| super_battery_address := 0xeb; mask := 0x0f |};
  fan_mode :=
    {| fan_mode_address := 0xd4;
       fan_mode_modes := [{| name := Some FM_AUTO_NAME; value := 0x0d |};
       {| name := Some FM_SILENT_NAME; value := 0x1d |};
       {| name := Some FM_ADVANCED_NAME; value := 0x8d |}; MSI_EC_MODE_NULL] |};
  cpu :=
    {| cpu_rt_temp_address := 0x68; cpu_rt_fan_speed_address := 0x71;
       rt_fan_speed_base_min := 0x00; rt_fan_speed_base_max := 0x96;
       bs_fan_speed_address := 0x89; bs_fan_speed_base_min := 0x00;
       bs_fan_speed_base_max := 0x0f |};
  gpu := {| gpu_rt_temp_address := 0x80; gpu_rt_fan_speed_address := 0x89 |};
  leds :=
    {| micmute_led_address := 0x2c; mute_led_address := 0x2d; leds_bit := 1 |};
  kbd_bl :=
    {| bl_mode_address := MSI_EC_ADDR_UNSUPP; bl_modes := [0x00; 0x08];
       max_mode := 1; bl_state_address := MSI_EC_ADDR_UNSUPP;
       state_base_value := 0x80; max_state := 3 |}
|}.

Definition ALLOWED_FW_41 : list string :=
  ["15M1IMS2.111"].

Definition CONF41 : msi_ec_conf := {|
  allowed_fw := ALLOWED_FW_41;
  charge_control :=
    {| charge_control_address := 0xd7; offset_start := 0x8a;
       offset_end := 0x80; range_min := 0x8a; range_max := 0xe4 |};
  webcam :=
    {| webcam_address := 0x2e; block_address := MSI_EC_ADDR_UNSUPP;
       webcam_bit := 1 |};
  fn_win_swap :=
    {| fn_win_swap_address := 0xe8; fn_win_swap_bit := 4; invert := false |};
  cooler_boost := {| cooler_boost_address := 0x98; cooler_boost_bit := 7 |};
  shift_mode :=
    {| shift_mode_address := 0xd2;
       shift_mode_modes := [{| name := Some SM_COMFORT_NAME;
       value := 0xc1 |}; {| name := Some SM_TURBO_NAME; value := 0xc4 |};
       MSI_EC_MODE_NULL] |};
  super_battery :=
    {| super_battery_address := MSI_EC_ADDR_UNSUPP; mask := 0 |};
  fan_mode :=
    {| fan_mode_address := 0xd4;
       fan_mode_modes := [{| name := Some FM_AUTO_NAME; value := 0x0d |};
       {| name := Some FM_ADVANCED_NAME; value := 0x8d |}; MSI_EC_MODE_NULL] |};
  cpu :=
    {| cpu_rt_temp_address := 0x68; cpu_rt_fan_speed_address := 0x71;
       rt_fan_speed_base_min := 0x00; rt_fan_speed_base_max := 0x96;
       bs_fan_speed_address := 0x89; bs_fan_speed_base_min := 0x00;
       bs_fan_speed_base_max := 0x96 |};
  gpu := {| gpu_rt_temp_address := 0x80; gpu_rt_fan_speed_address := 0x89 |};
  leds :=
    {| micmute_led_address := 0x2c; mute_led_address := 0x2d; leds_bit := 1 |};
  kbd_bl :=
    {| bl_mode_address := MSI_EC_ADDR_UNSUPP; bl_modes := [0x00; 0x08];
       max_mode := 1; bl_state_address := MSI_EC_ADDR_UNSUPP;
       state_base_value := 0x80; max_state := 3 |}
|}.

Definition ALLOWED_FW_42 : list string :=
  ["14L1EMS1.307"; "14L1EMS1.308"].

Definition CONF42 : msi_ec_conf := {|
  allowed_fw := ALLOWED_FW_42;
  charge_control :=
    {| charge_control_address := 0xd7; offset_start := 0x8a;
       offset_end := 0x80; range_min := 0x8a; range_max := 0xe4 |};
  webcam :=
    {| webcam_address := MSI_EC_ADDR_UNSUPP; block_address := 0x2f;
       webcam_bit := 1 |};
  fn_win_swap :=
    {| fn_win_swap_address := 0xe8; fn_win_swap_bit := 4; invert := false |};
  cooler_boost := {| cooler_boost_address := 0x98; cooler_boost_bit := 7 |};
  shift_mode :=
    {| shift_mode_address := 0xd2;
       shift_mode_modes := [{| name := Some SM_ECO_NAME; value := 0xc2 |};
       {| name := Some SM_COMFORT_NAME; value := 0xc1 |};
       {| name := Some SM_TURBO_NAME; value := 0xc4 |}; MSI_EC_MODE_NULL] |};
  super_battery := {| super_battery_address := 0xeb; mask := 0x0f |};
  fan_mode :=
    {| fan_mode_address := 0xd4;
       fan_mode_modes := [{| name := Some FM_AUTO_NAME; value := 0x0d |};
       {| name := Some FM_SILENT_NAME; value := 0x1d |};
       {| name := Some FM_ADVANCED_NAME; value := 0x8d |}; MSI_EC_MODE_NULL] |};
  cpu :=
    {| cpu_rt_temp_address := 0x68; cpu_rt_fan_speed_address := 0xc9;
       rt_fan_speed_base_min := 0x00; rt_fan_speed_base_max := 0x96;
       bs_fan_speed_address := MSI_EC_ADDR_UNSUPP;
       bs_fan_speed_base_min := 0x00; bs_fan_speed_base_max := 0x0f |};
  gpu :=
    {| gpu_rt_temp_address := MSI_EC_ADDR_UNSUPP;
       gpu_rt_fan_speed_address := MSI_EC_ADDR_UNSUPP |};
  leds :=
    {| micmute_led_address := 0x2c; mute_led_address := MSI_EC_ADDR_UNSUPP;
       leds_bit := 1 |};
  kbd_bl :=
    {| bl_mode_address := 0x2c; bl_modes := [0x00; 0x08]; max_mode := 1;
       bl_state_address := 0xd3; state_base_value := 0x80; max_state := 3 |}
|}.

Definition CONFIGURATIONS : list msi_ec_conf :=
  [CONF0; CONF1; CONF2; CONF3; CONF4; CONF5; CONF6; CONF7;
   CONF8; CONF9; CONF10; CONF11; CONF12; CONF13; CONF14; CONF15;
   CONF16; CONF17; CONF18; CONF19; CONF20; CONF21; CONF22; CONF23;
   CONF24; CONF25; CONF26; CONF27; CONF28; CONF29; CONF30; CONF31;
   CONF32; CONF33; CONF34; CONF35; CONF36; CONF37; CONF38; CONF39;
   CONF40; CONF41; CONF42].

(** ** Module load *)

Definition ec_get_firmware_version (st : ec) : result (list Z) :=
  ec_read_seq MSI_EC_FW_VERSION_ADDRESS
    (Z.to_nat (u8 MSI_EC_FW_VERSION_LENGTH)) st.

(** The loop of [load_configuration] over the remaining entries of
    [CONFIGURATIONS], and the code after it. *)
Fixpoint load_configuration_from (configurations : list msi_ec_conf)
    (ver : string) (debug : bool) (drv : driver) : result unit * driver :=
  match configurations with
  | c :: rest =>
      if negb (match_string (allowed_fw c) ver =? - EINVAL)
      then (Ok tt, {| conf := copy_conf c; conf_loaded := true |})
      else load_configuration_from rest ver debug drv
  | [] =>
      (* debug mode works regardless of whether the firmware is supported *)
      if debug then (Ok tt, drv)
      else (Error EOPNOTSUPP, drv)
  end.

(** The string [ver] that [load_configuration] looks up: the module
    parameter [firmware] when it is set, else the version read from the
    EC. *)
Definition firmware_version (firmware : option string) (st : ec)
  : result string :=
  match firmware with
  | Some ver => Ok ver
  | None =>
      match ec_get_firmware_version st with
      | Ok ver_by_ec => Ok (cstring ver_by_ec)
      | Error e => Error e
      | Oops => Oops
      end
  end.

(** [firmware] and [debug] are the module parameters. *)
Definition load_configuration (firmware : option string) (debug : bool)
    (st : ec) (drv : driver) : result unit * driver :=
  match firmware_version firmware st with
  | Ok ver => load_configuration_from CONFIGURATIONS ver debug drv
  | Error e => (Error e, drv)
  | Oops => (Oops, drv)
  end.

End Header.

(** ** Concurrent callers of [ec_set_bit]

    Each caller runs the body of [ec_set_bit] one statement at a time:
    [mutex_lock(&ec_set_bit_mutex)], [ec_read], the modification of the
    local [stored] followed by [ec_write], [mutex_unlock], [return].  A
    caller at [mutex_lock] while somebody holds the mutex waits: when it is
    scheduled nothing changes. *)

Record set_bit_call : Type := {
  call_addr : Z;
  call_bit : Z;
  call_value : bool
}.

Inductive set_bit_pc : Type :=
| at_lock
| at_read
| at_write (stored : Z)
| at_unlock (r : result unit)
| returned (r : result unit).

Record world : Type := {
  ec_set_bit_mutex : bool;
  hw : ec;
  threads : list (set_bit_call * set_bit_pc)
}.

(** One statement of one caller: its next position, the mutex and the
    register file afterwards; [None] when the caller has returned. *)
Definition step_call (c : set_bit_call) (pc : set_bit_pc) (locked : bool)
    (st : ec) : option (set_bit_pc * bool * ec) :=
  match pc with
  | at_lock =>
      if locked then Some (at_lock, true, st)
      else Some (at_read, true, st)
  | at_read =>
      match ec_read (call_addr c) st with
      | Ok stored => Some (at_write stored, locked, st)
      | Error e => Some (at_unlock (Error e), locked, st)
      | Oops => Some (at_unlock Oops, locked, st)
      end
  | at_write stored =>
      let (r, st') :=
        ec_write (call_addr c)
          (if call_value c then set_bit stored (u8 (call_bit c))
           else unset_bit stored (u8 (call_bit c)))
          st in
      Some (at_unlock r, locked, st')
  | at_unlock r => Some (returned r, false, st)
  | returned _ => None
  end.

Fixpoint update_nth {A : Type} (i : nat) (x : A) (l : list A) : list A :=
  match l, i with
  | [], _ => []
  | _ :: rest, O => x :: rest
  | y :: rest, S j => y :: update_nth j x rest
  end.

(** Caller number [i] executes its next statement. *)
Definition step (i : nat) (w : world) : option world :=
  match nth_error (threads w) i with
  | Some (c, pc) =>
      match step_call c pc (ec_set_bit_mutex w) (hw w) with
      | Some (pc', locked', st') =>
          Some {| ec_set_bit_mutex := locked';
                  hw := st';
                  threads := update_nth i (c, pc') (threads w) |}
      | None => None
      end
  | None => None
  end.

(** An interleaving is the order in which the callers take their steps. *)
Fixpoint run (schedule : list nat) (w : world) : option world :=
  match schedule with
  | [] => Some w
  | i :: rest =>
      match step i w with
      | Some w' => run rest w'
      | None => None
      end
  end.

Definition spawn (st : ec) (calls : list set_bit_call) : world :=
  {| ec_set_bit_mutex := false;
     hw := st;
     threads := map (fun c => (c, at_lock)) calls |}.

Definition has_returned (t : set_bit_call * set_bit_pc) : bool :=
  match snd t with
  | returned _ => true
  | _ => false
  end.

Definition all_returned (w : world) : bool := forallb has_returned (threads w).

(** The value the callers were asked to give bit [k], if any of them was. *)
Definition intended (calls : list set_bit_call) (k : Z) : option bool :=
  option_map call_value (find (fun c => u8 (call_bit c) =? k) calls).

(** ** Inputs to run the model on *)

(** Values for the macros of the absent header: two distinct sentinels
    outside the register range and the twelve registers from 0xa0 on that
    hold the firmware name. *)
Definition sample_header : ec_memory_configuration :=
  {| MSI_EC_ADDR_UNKNOWN := 0xff01;
     MSI_EC_ADDR_UNSUPP := 0xff02;
     MSI_EC_FW_VERSION_ADDRESS := 0xa0;
     MSI_EC_FW_VERSION_LENGTH := 12 |}.

Fixpoint lookup_reg (image : list (Z * Z)) (a : Z) : Z :=
  match image with
  | (a', v) :: rest => if a =? a' then v else lookup_reg rest a
  | [] => 0
  end.

(** A register file with the listed contents, zero elsewhere, and a
    transport that works. *)
Definition ec_image (image : list (Z * Z)) : ec :=
  {| regs := lookup_reg image;
     read_fault := fun _ => None;
     write_fault := fun _ => None;
     written := [] |}.

(** The same with reads of [addr] failing with [-EIO]. *)
Definition ec_read_failing (addr : Z) (image : list (Z * Z)) : ec :=
  {| regs := lookup_reg image;
     read_fault := fun a => if a =? addr then Some 5%positive else None;
     write_fault := fun _ => None;
     written := [] |}.

(** The registers 0xa0.. of a machine whose firmware is [fw]. *)
Fixpoint fw_image (addr : Z) (fw : string) : list (Z * Z) :=
  match fw with
  | String ch rest => (addr, Z.of_N (N_of_ascii ch)) :: fw_image (addr + 1) rest
  | EmptyString => []
  end.

(** ** Notions used to state the properties *)

(** The integers [0 .. n-1], to check a boolean function on all of them by
    running it. *)
Definition below (n : nat) : list Z := map Z.of_nat (seq 0 n).

(** Modelled from the spec: [ec_memory_configuration.h], which defines the
    macros [MSI_EC_ADDR_UNKNOWN] and [MSI_EC_ADDR_UNSUPP], is not among
    the sources.  The spec's data model has a register address as "an
    8-bit value, or one of two sentinels", [Unsupported] and [Unknown]:
    the header is taken to give the two macros two different values. *)
Class sentinel_addresses (hdr : ec_memory_configuration) : Prop :=
  unknown_is_not_unsupp : MSI_EC_ADDR_UNKNOWN <> MSI_EC_ADDR_UNSUPP.

(** The address that gates an attribute: the address member of the
    feature the attribute belongs to.  The firmware attributes, the debug
    attributes and the two power_supply attributes, which are not in a
    group that has an [is_visible] callback, have none. *)
Definition gating_address (conf : msi_ec_conf) (attr : attribute)
  : option Z :=
  match attr with
  | dev_attr_webcam => Some (webcam_address (webcam conf))
  | dev_attr_webcam_block => Some (block_address (webcam conf))
  | dev_attr_fn_key
  | dev_attr_win_key => Some (fn_win_swap_address (fn_win_swap conf))
  | dev_attr_battery_mode =>
      Some (charge_control_address (charge_control conf))
  | dev_attr_cooler_boost => Some (cooler_boost_address (cooler_boost conf))
  | dev_attr_available_shift_modes
  | dev_attr_shift_mode => Some (shift_mode_address (shift_mode conf))
  | dev_attr_super_battery =>
      Some (super_battery_address (super_battery conf))
  | dev_attr_available_fan_modes
  | dev_attr_fan_mode => Some (fan_mode_address (fan_mode conf))
  | dev_attr_cpu_realtime_temperature => Some (cpu_rt_temp_address (cpu conf))
  | dev_attr_cpu_realtime_fan_speed =>
      Some (cpu_rt_fan_speed_address (cpu conf))
  | dev_attr_cpu_basic_fan_speed => Some (bs_fan_speed_address (cpu conf))
  | dev_attr_gpu_realtime_temperature => Some (gpu_rt_temp_address (gpu conf))
  | dev_attr_gpu_realtime_fan_speed =>
      Some (gpu_rt_fan_speed_address (gpu conf))
  | _ => None
  end.

(** What the threshold codec needs of a profile: offsets and bounds are
    bytes, neither offset exceeds [range_min], and the range lies above the
    byte 0x80 that [charge_control_threshold_show] reads as 0. *)
Definition threshold_wfb (c : msi_ec_conf) : bool :=
  let cc := charge_control c in
  (0 <=? offset_start cc) && (offset_start cc <=? range_min cc)
  && (0 <=? offset_end cc) && (offset_end cc <=? range_min cc)
  && (0x80 <? range_min cc) && (range_min cc <=? range_max cc)
  && (range_max cc <? 256).

(** The declared rows of a mode table: name and raw byte of the rows before
    the one without a name. *)
Fixpoint table_rows (modes : list msi_ec_mode) : list (string * Z) :=
  match modes with
  | m :: rest =>
      match name m with
      | Some n => (n, value m) :: table_rows rest
      | None => []
      end
  | [] => []
  end.

Fixpoint distinctb (l : list Z) : bool :=
  match l with
  | [] => true
  | x :: rest => negb (existsb (Z.eqb x) rest) && distinctb rest
  end.

(** Reads and writes of [addr] reach the EC. *)
Definition transport_ok (st : ec) (addr : Z) : Prop :=
  read_fault st (u8 addr) = None /\ write_fault st (u8 addr) = None.

(** Storing [input] succeeds and the show then prints [output]. *)
Definition store_then_show (store : string -> Z -> ec -> result Z * ec)
    (show : ec -> result string) (st : ec) (input output : string) : Prop :=
  forall count,
    fst (store input count st) = Ok count
    /\ show (snd (store input count st)) = Ok (emit_s output).

(** Positions of a caller of [ec_set_bit]: inside the critical section,
    and past its [ec_write]. *)
Definition in_cs (pc : set_bit_pc) : bool :=
  match pc with
  | at_read | at_write _ | at_unlock _ => true
  | at_lock | returned _ => false
  end.

Definition wrote (pc : set_bit_pc) : bool :=
  match pc with
  | at_unlock _ | returned _ => true
  | at_lock | at_read | at_write _ => false
  end.

Definition cs_count (l : list (set_bit_call * set_bit_pc)) : nat :=
  List.length (filter (fun t => in_cs (snd t)) l).

(** The statements a caller still has to execute. *)
Definition steps_left (pc : set_bit_pc) : nat :=
  match pc with
  | at_lock => 4
  | at_read => 3
  | at_write _ => 2
  | at_unlock _ => 1
  | returned _ => 0
  end.

Definition work_left (l : list (set_bit_call * set_bit_pc)) : nat :=
  list_sum (map (fun t => steps_left (snd t)) l).

(** The byte that a read of [addr] delivers. *)
Definition byte_at (st : ec) (addr : Z) : Z := u8 (regs st (u8 addr)).

(** What holds of every world that callers [calls] of [ec_set_bit] on the
    one address [addr] reach from the register file [st]: the mutex is held
    exactly while one caller is inside the critical section; a caller about
    to write holds the current byte; a caller past its write succeeded and
    its bit has its value; the other bits are as in [st]. *)
Record set_bit_inv (st : ec) (calls : list set_bit_call) (addr : Z)
    (w : world) : Prop := {
  inv_calls : map fst (threads w) = calls;
  inv_read_fault : read_fault (hw w) = read_fault st;
  inv_write_fault : write_fault (hw w) = write_fault st;
  inv_mutex :
    cs_count (threads w) = if ec_set_bit_mutex w then 1%nat else 0%nat;
  inv_stored :
    forall c stored,
      In (c, at_write stored) (threads w) -> stored = byte_at (hw w) addr;
  inv_wrote :
    forall c pc,
      In (c, pc) (threads w) -> wrote pc = true ->
      (pc = at_unlock (Ok tt) \/ pc = returned (Ok tt))
      /\ Z.testbit (byte_at (hw w) addr) (u8 (call_bit c)) = call_value c;
  inv_other :
    forall k,
      0 <= k < 8 ->
      (forall c pc,
          In (c, pc) (threads w) -> u8 (call_bit c) = k -> wrote pc = false) ->
      Z.testbit (byte_at (hw w) addr) k = Z.testbit (byte_at st addr) k
}.

(** ** Further callbacks *)

Section FirmwareAttribute.

Context {hdr : ec_memory_configuration}.

Definition fw_version_show (st : ec) : result string :=
  match ec_get_firmware_version st with
  | Ok rdata => Ok (emit_s (cstring rdata))
  | Error e => Error e
  | Oops => Oops
  end.

End FirmwareAttribute.

(** *** LED class devices

    [brightness] is the [enum led_brightness] argument; [ec_set_bit] takes
    it as a [bool]. *)

Definition micmute_led_sysfs_set (conf : msi_ec_conf) (brightness : Z)
    (st : ec) : result unit * ec :=
  ec_set_bit (micmute_led_address (leds conf)) (leds_bit (leds conf))
    (negb (brightness =? 0)) st.

Definition mute_led_sysfs_set (conf : msi_ec_conf) (brightness : Z)
    (st : ec) : result unit * ec :=
  ec_set_bit (mute_led_address (leds conf)) (leds_bit (leds conf))
    (negb (brightness =? 0)) st.

(** [MSI_EC_KBD_BL_STATE_MASK] comes from the absent header and is an
    argument.  A failed read is reported as brightness 0. *)
Definition kbd_bl_sysfs_get (MSI_EC_KBD_BL_STATE_MASK : Z)
    (conf : msi_ec_conf) (st : ec) : Z :=
  match ec_read (bl_state_address (kbd_bl conf)) st with
  | Ok rdata => Z.land rdata MSI_EC_KBD_BL_STATE_MASK
  | _ => 0
  end.

(** [unregistering] is [led_cdev->flags & LED_UNREGISTERING]; the return
    value -1 is [Error 1]. *)
Definition kbd_bl_sysfs_set (unregistering : bool) (conf : msi_ec_conf)
    (brightness : Z) (st : ec) : result unit * ec :=
  if unregistering then (Ok tt, st)
  else if (brightness <? 0) || (brightness >? 3) then (Error 1, st)
  else
    ec_write (bl_state_address (kbd_bl conf))
      (Z.lor (state_base_value (kbd_bl conf)) brightness) st.

(** *** Removal

    [msi_platform_remove]: the groups it removes. *)

Section Removal.

Context {hdr : ec_memory_configuration}.

Definition msi_platform_remove (debug : bool) (drv : driver)
  : list attribute_group :=
  ((if debug then [msi_debug_group] else [])
   ++ (if conf_loaded drv then msi_platform_groups else []))%list.

End Removal.

(** ** Concurrent callers of the three read-modify-write helpers

    [ec_set_bit], [ec_set_by_mask] and [ec_unset_by_mask] have the same
    body but for the modification, and each locks a mutex of its own:
    [ec_set_bit_mutex], [ec_set_by_mask_mutex], [ec_unset_by_mask_mutex].
    The callers run one statement at a time as those of [ec_set_bit]
    above. *)

Inductive rmw_call : Type :=
| call_set_bit (addr bit : Z) (value : bool)
| call_set_by_mask (addr mask : Z)
| call_unset_by_mask (addr mask : Z).

Inductive rmw_mutex : Type :=
| set_bit_mutex
| set_by_mask_mutex
| unset_by_mask_mutex.

Definition rmw_mutex_eqb (a b : rmw_mutex) : bool :=
  match a, b with
  | set_bit_mutex, set_bit_mutex => true
  | set_by_mask_mutex, set_by_mask_mutex => true
  | unset_by_mask_mutex, unset_by_mask_mutex => true
  | _, _ => false
  end.

Definition mutex_of (c : rmw_call) : rmw_mutex :=
  match c with
  | call_set_bit _ _ _ => set_bit_mutex
  | call_set_by_mask _ _ => set_by_mask_mutex
  | call_unset_by_mask _ _ => unset_by_mask_mutex
  end.

Definition addr_of (c : rmw_call) : Z :=
  match c with
  | call_set_bit addr _ _ => addr
  | call_set_by_mask addr _ => addr
  | call_unset_by_mask addr _ => addr
  end.

(** The byte a caller writes when it has read [stored]. *)
Definition wdata_of (c : rmw_call) (stored : Z) : Z :=
  match c with
  | call_set_bit _ bit value =>
      if value then set_bit stored (u8 bit) else unset_bit stored (u8 bit)
  | call_set_by_mask _ mask => u8 (Z.lor stored (u8 mask))
  | call_unset_by_mask _ mask => u8 (Z.land stored (Z.lnot (u8 mask)))
  end.

(** The helper run from its first statement to its last with nobody in
    between. *)
Definition rmw_alone (c : rmw_call) (st : ec) : result unit * ec :=
  match c with
  | call_set_bit addr bit value => ec_set_bit addr bit value st
  | call_set_by_mask addr mask => ec_set_by_mask addr mask st
  | call_unset_by_mask addr mask => ec_unset_by_mask addr mask st
  end.

Record rmw_world : Type := {
  held : rmw_mutex -> bool;
  rmw_hw : ec;
  rmw_threads : list (rmw_call * set_bit_pc)
}.

Definition set_held (m : rmw_mutex) (b : bool) (h : rmw_mutex -> bool)
  : rmw_mutex -> bool :=
  fun m' => if rmw_mutex_eqb m' m then b else h m'.

Definition rmw_step_call (c : rmw_call) (pc : set_bit_pc)
    (h : rmw_mutex -> bool) (st : ec)
  : option (set_bit_pc * (rmw_mutex -> bool) * ec) :=
  match pc with
  | at_lock =>
      if h (mutex_of c) then Some (at_lock, h, st)
      else Some (at_read, set_held (mutex_of c) true h, st)
  | at_read =>
      match ec_read (addr_of c) st with
      | Ok stored => Some (at_write stored, h, st)
      | Error e => Some (at_unlock (Error e), h, st)
      | Oops => Some (at_unlock Oops, h, st)
      end
  | at_write stored =>
      let (r, st') := ec_write (addr_of c) (wdata_of c stored) st in
      Some (at_unlock r, h, st')
  | at_unlock r => Some (returned r, set_held (mutex_of c) false h, st)
  | returned _ => None
  end.

Definition rmw_step (i : nat) (w : rmw_world) : option rmw_world :=
  match nth_error (rmw_threads w) i with
  | Some (c, pc) =>
      match rmw_step_call c pc (held w) (rmw_hw w) with
      | Some (pc', h', st') =>
          Some {| held := h';
                  rmw_hw := st';
                  rmw_threads := update_nth i (c, pc') (rmw_threads w) |}
      | None => None
      end
  | None => None
  end.

Fixpoint rmw_run (schedule : list nat) (w : rmw_world) : option rmw_world :=
  match schedule with
  | [] => Some w
  | i :: rest =>
      match rmw_step i w with
      | Some w' => rmw_run rest w'
      | None => None
      end
  end.

Definition rmw_spawn (st : ec) (calls : list rmw_call) : rmw_world :=
  {| held := fun _ => false;
     rmw_hw := st;
     rmw_threads := map (fun c => (c, at_lock)) calls |}.

(** ** Further notions used to state the properties *)

(** The bytes that reads of [addr], [addr + 1], ... deliver. *)
Fixpoint bytes_from (st : ec) (addr : Z) (len : nat) : list Z :=
  match len with
  | O => []
  | S n => byte_at st addr :: bytes_from st (addr + 1) n
  end.

(** The bytes of a string. *)
Fixpoint string_bytes (s : string) : list Z :=
  match s with
  | String ch rest => Z.of_N (N_of_ascii ch) :: string_bytes rest
  | EmptyString => []
  end.

(** No name of a profile of the list is allowed by a later profile. *)
Fixpoint allow_lists_disjointb (l : list msi_ec_conf) : bool :=
  match l with
  | [] => true
  | p :: rest =>
      forallb
        (fun ver =>
           forallb (fun q => negb (existsb (String.eqb ver) (allowed_fw q)))
             rest)
        (allowed_fw p)
      && allow_lists_disjointb rest
  end.

(** No name of a row matches, for [sysfs_streq], the name of a later row
    or that name followed by a newline. *)
Fixpoint names_distinctb (rows : list (string * Z)) : bool :=
  match rows with
  | [] => true
  | (n, _) :: rest =>
      forallb
        (fun row => negb (sysfs_streq n (fst row))
                    && negb (sysfs_streq n (fst row ++ newline)))
        rest
      && names_distinctb rest
  end.

(** A mode table the store and the show agree on: distinct names, and raw
    values that fit a register. *)
Definition mode_table_okb (modes : list msi_ec_mode) : bool :=
  names_distinctb (table_rows modes)
  && forallb (fun row => (0 <=? snd row) && (snd row <? 256))
       (table_rows modes).

(** The two offsets of a profile are ten apart, the top of the range is
    the end offset plus 100, and the three bytes that [battery_mode_store]
    writes are register bytes above 0x80. *)
Definition battery_presets_okb (c : msi_ec_conf) : bool :=
  let cc := charge_control c in
  (offset_start cc =? offset_end cc + 10)
  && (range_max cc =? offset_end cc + 100)
  && (0x80 <? offset_end cc + 60)
  && (range_max cc <? 256).

(** [buf] is one of the words, alone or followed by one newline. *)
Definition one_of (words : list string) (buf : string) : Prop :=
  exists w, In w words /\ (buf = w \/ buf = w ++ newline).

(** * Properties *)

(** ** Arithmetic and bytes *)

Lemma u8_range (z : Z) : 0 <= u8 z < 256.
Proof. unfold u8. apply Z.mod_pos_bound. lia. Qed.

Lemma u8_small (z : Z) : 0 <= z < 256 -> u8 z = z.
Proof. intros H. unfold u8. apply Z.mod_small. exact H. Qed.

Lemma u8_idem (z : Z) : u8 (u8 z) = u8 z.
Proof. apply u8_small, u8_range. Qed.

Lemma In_below (n : nat) (z : Z) : 0 <= z < Z.of_nat n -> In z (below n).
Proof.
  intros H. unfold below. apply in_map_iff.
  exists (Z.to_nat z). split; [lia|]. apply in_seq. lia.
Qed.

Lemma forallb_below (f : Z -> bool) (n : nat) :
  forallb f (below n) = true -> forall z, 0 <= z < Z.of_nat n -> f z = true.
Proof.
  intros H z Hz. rewrite forallb_forall in H. apply H, In_below, Hz.
Qed.

(** ** Configuration resolution *)

Lemma match_string_from_found (array : list string) (str : string) :
  forall index, 0 <= index ->
  negb (match_string_from index array str =? - EINVAL)
  = existsb (fun item => strcmp_eq item str) array.
Proof.
  induction array as [|item rest IH]; intros index Hindex;
    cbn [match_string_from existsb].
  - reflexivity.
  - destruct (strcmp_eq item str) eqn:Heq; cbn [orb].
    + assert (Hi : (index =? - EINVAL) = false)
        by (apply Z.eqb_neq; unfold EINVAL; lia).
      rewrite Hi. reflexivity.
    + apply IH. lia.
Qed.

Lemma match_string_In (array : list string) (str : string) :
  negb (match_string array str =? - EINVAL) = true <-> In str array.
Proof.
  unfold match_string. rewrite match_string_from_found by lia.
  rewrite existsb_exists. unfold strcmp_eq. split.
  - intros [item [Hin Heq]]. apply String.eqb_eq in Heq. subst. exact Hin.
  - intros Hin. exists str. split; [exact Hin | apply String.eqb_refl].
Qed.

Lemma match_string_not_In (array : list string) (str : string) :
  ~ In str array -> negb (match_string array str =? - EINVAL) = false.
Proof.
  intros Hnot.
  destruct (negb (match_string array str =? - EINVAL)) eqn:H; [|reflexivity].
  apply match_string_In in H. contradiction.
Qed.

Lemma load_configuration_from_unmatched (configurations : list msi_ec_conf)
    (ver : string) (debug : bool) (drv : driver) :
  (forall q, In q configurations -> ~ In ver (allowed_fw q)) ->
  load_configuration_from configurations ver debug drv
  = (if debug then Ok tt else Error EOPNOTSUPP, drv).
Proof.
  induction configurations as [|c rest IH]; intros Hnone;
    cbn [load_configuration_from].
  - destruct debug; reflexivity.
  - rewrite match_string_not_In by (apply Hnone; left; reflexivity).
    apply IH. intros q Hq. apply Hnone. right. exact Hq.
Qed.

Lemma load_configuration_from_first (pre post : list msi_ec_conf)
    (p : msi_ec_conf) (ver : string) (debug : bool) (drv : driver) :
  (forall q, In q pre -> ~ In ver (allowed_fw q)) ->
  In ver (allowed_fw p) ->
  load_configuration_from (pre ++ p :: post) ver debug drv
  = (Ok tt, {| conf := copy_conf p; conf_loaded := true |}).
Proof.
  induction pre as [|c rest IH]; intros Hpre Hp;
    cbn [load_configuration_from app].
  - apply match_string_In in Hp. rewrite Hp. reflexivity.
  - rewrite match_string_not_In by (apply Hpre; left; reflexivity).
    apply IH; [|exact Hp]. intros q Hq. apply Hpre. right. exact Hq.
Qed.

(** The loaded copy has every member of the profile but the allow-list. *)
Lemma copy_conf_members (p : msi_ec_conf) :
  allowed_fw (copy_conf p) = []
  /\ charge_control (copy_conf p) = charge_control p
  /\ webcam (copy_conf p) = webcam p
  /\ fn_win_swap (copy_conf p) = fn_win_swap p
  /\ cooler_boost (copy_conf p) = cooler_boost p
  /\ shift_mode (copy_conf p) = shift_mode p
  /\ super_battery (copy_conf p) = super_battery p
  /\ fan_mode (copy_conf p) = fan_mode p
  /\ cpu (copy_conf p) = cpu p
  /\ gpu (copy_conf p) = gpu p
  /\ leds (copy_conf p) = leds p
  /\ kbd_bl (copy_conf p) = kbd_bl p.
Proof. repeat split. Qed.

(** The same said of the outcome of a load, member by member. *)
Lemma loaded_copy (r : result unit * driver) (p : msi_ec_conf) :
  r = (Ok tt, {| conf := copy_conf p; conf_loaded := true |}) ->
  fst r = Ok tt
  /\ conf_loaded (snd r) = true
  /\ allowed_fw (conf (snd r)) = []
  /\ charge_control (conf (snd r)) = charge_control p
  /\ webcam (conf (snd r)) = webcam p
  /\ fn_win_swap (conf (snd r)) = fn_win_swap p
  /\ cooler_boost (conf (snd r)) = cooler_boost p
  /\ shift_mode (conf (snd r)) = shift_mode p
  /\ super_battery (conf (snd r)) = super_battery p
  /\ fan_mode (conf (snd r)) = fan_mode p
  /\ cpu (conf (snd r)) = cpu p
  /\ gpu (conf (snd r)) = gpu p
  /\ leds (conf (snd r)) = leds p
  /\ kbd_bl (conf (snd r)) = kbd_bl p.
Proof.
  intros ->. cbn [fst snd conf conf_loaded].
  split; [reflexivity|]. split; [reflexivity|]. apply copy_conf_members.
Qed.

(** Deciding by evaluation that no profile of a list allows [ver]. *)
Lemma none_allows_by_eval (ver : string) (l : list msi_ec_conf) :
  forallb (fun q => negb (existsb (String.eqb ver) (allowed_fw q))) l = true ->
  forall q, In q l -> ~ In ver (allowed_fw q).
Proof.
  intros H q Hq Hin. rewrite forallb_forall in H. specialize (H q Hq).
  apply negb_true_iff in H.
  assert (Hex : existsb (String.eqb ver) (allowed_fw q) = true).
  { apply existsb_exists. exists ver. split; [exact Hin|].
    apply String.eqb_refl. }
  congruence.
Qed.

Section Resolver.

Context {hdr : ec_memory_configuration}.

Lemma probe_without_conf (sysfs_create : list attribute_group -> result unit)
    (debug : bool) (drv : driver) (g : attribute_group) :
  conf_loaded drv = false ->
  In g (snd (msi_platform_probe sysfs_create debug drv)) ->
  g = msi_debug_group.
Proof.
  intros Hloaded. unfold msi_platform_probe. rewrite Hloaded. simpl.
  destruct debug; simpl.
  - destruct (sysfs_create [msi_debug_group]); simpl; intros Hg;
      [destruct Hg as [Hg|[]]; symmetry; exact Hg | destruct Hg ..].
  - intros [].
Qed.

(** C1.  Given the firmware name [ver] in use, [load_configuration] loads
    the first profile of [CONFIGURATIONS], in declaration order, whose
    allow-list contains [ver] (string equality) and returns 0: afterwards
    [conf_loaded] is set and every member of the active configuration is
    that of the profile, the allow-list apart, which is cleared.  When no
    allow-list contains [ver], the call returns [-EOPNOTSUPP], or 0 under
    [debug]; either way [conf_loaded] stays false and the probe creates no
    group other than the debug one. *)
Theorem load_configuration_first_match (firmware : option string)
    (debug : bool) (st : ec) (ver : string) :
  firmware_version firmware st = Ok ver ->
  (forall pre p post,
      CONFIGURATIONS = (pre ++ p :: post)%list ->
      (forall q, In q pre -> ~ In ver (allowed_fw q)) ->
      In ver (allowed_fw p) ->
      let loaded := snd (load_configuration firmware debug st driver_unloaded) in
      fst (load_configuration firmware debug st driver_unloaded) = Ok tt
      /\ conf_loaded loaded = true
      /\ allowed_fw (conf loaded) = []
      /\ charge_control (conf loaded) = charge_control p
      /\ webcam (conf loaded) = webcam p
      /\ fn_win_swap (conf loaded) = fn_win_swap p
      /\ cooler_boost (conf loaded) = cooler_boost p
      /\ shift_mode (conf loaded) = shift_mode p
      /\ super_battery (conf loaded) = super_battery p
      /\ fan_mode (conf loaded) = fan_mode p
      /\ cpu (conf loaded) = cpu p
      /\ gpu (conf loaded) = gpu p
      /\ leds (conf loaded) = leds p
      /\ kbd_bl (conf loaded) = kbd_bl p)
  /\ ((forall q, In q CONFIGURATIONS -> ~ In ver (allowed_fw q)) ->
      load_configuration firmware debug st driver_unloaded
      = (if debug then Ok tt else Error EOPNOTSUPP, driver_unloaded)
      /\ conf_loaded
           (snd (load_configuration firmware debug st driver_unloaded))
         = false
      /\ forall sysfs_create g,
           In g (snd (msi_platform_probe sysfs_create debug
                        (snd (load_configuration firmware debug st
                                driver_unloaded)))) ->
           g = msi_debug_group).
Proof.
  intros Hver. split.
  - intros pre p post Hcat Hpre Hp. cbv zeta. apply loaded_copy.
    unfold load_configuration. rewrite Hver, Hcat.
    apply load_configuration_from_first; assumption.
  - unfold load_configuration. rewrite Hver. intros Hnone.
    rewrite (load_configuration_from_unmatched _ _ _ _ Hnone). simpl.
    repeat split. intros sysfs_create g.
    apply probe_without_conf. reflexivity.
Qed.

End Resolver.

(** On a machine whose EC reports the firmware 16S6EMS1.111, the eleven
    profiles declared before [CONF11] are passed over and [CONF11] is
    loaded: the active configuration has its members, and no allow-list. *)
Lemma load_configuration_first_match_witness :
  let loaded := snd (load_configuration (hdr := sample_header) None false
               (ec_image (fw_image 0xa0 "16S6EMS1.111")) driver_unloaded) in
  fst (load_configuration (hdr := sample_header) None false
               (ec_image (fw_image 0xa0 "16S6EMS1.111")) driver_unloaded) = Ok tt
  /\ conf_loaded loaded = true
  /\ allowed_fw (conf loaded) = []
  /\ charge_control (conf loaded) = charge_control (CONF11 (hdr := sample_header))
  /\ webcam (conf loaded) = webcam (CONF11 (hdr := sample_header))
  /\ fn_win_swap (conf loaded) = fn_win_swap (CONF11 (hdr := sample_header))
  /\ cooler_boost (conf loaded) = cooler_boost (CONF11 (hdr := sample_header))
  /\ shift_mode (conf loaded) = shift_mode (CONF11 (hdr := sample_header))
  /\ super_battery (conf loaded) = super_battery (CONF11 (hdr := sample_header))
  /\ fan_mode (conf loaded) = fan_mode (CONF11 (hdr := sample_header))
  /\ cpu (conf loaded) = cpu (CONF11 (hdr := sample_header))
  /\ gpu (conf loaded) = gpu (CONF11 (hdr := sample_header))
  /\ leds (conf loaded) = leds (CONF11 (hdr := sample_header))
  /\ kbd_bl (conf loaded) = kbd_bl (CONF11 (hdr := sample_header)).
Proof.
  apply (proj1 (load_configuration_first_match (hdr := sample_header)
                  None false (ec_image (fw_image 0xa0 "16S6EMS1.111"))
                  "16S6EMS1.111" eq_refl)
           (firstn 11 (CONFIGURATIONS (hdr := sample_header)))
           (CONF11 (hdr := sample_header))
           (skipn 12 (CONFIGURATIONS (hdr := sample_header)))).
  - reflexivity.
  - apply none_allows_by_eval. vm_compute. reflexivity.
  - vm_compute. tauto.
Defined.

(** ** Visibility *)

Section Visibility.

Context {hdr : ec_memory_configuration}.

Lemma msi_ec_is_visible_gated (conf : msi_ec_conf) (attr : attribute)
    (address : Z) :
  gating_address conf attr = Some address ->
  msi_ec_is_visible conf attr
  = if address =? MSI_EC_ADDR_UNSUPP then 0 else mode attr.
Proof.
  destruct attr; cbn [gating_address]; intros H;
    try discriminate H; injection H as <-; reflexivity.
Qed.

Lemma mode_nonzero (attr : attribute) : mode attr <> 0.
Proof. destruct attr; discriminate. Qed.

(** The test is against [MSI_EC_ADDR_UNSUPP] alone, and [msi_ec_is_visible]
    nowhere looks for [MSI_EC_ADDR_UNKNOWN]: a header that gave the two
    macros one value would hide the attributes with an unknown address
    too. *)
Lemma msi_ec_is_visible_one_sentinel (conf : msi_ec_conf) (attr : attribute) :
  MSI_EC_ADDR_UNKNOWN = MSI_EC_ADDR_UNSUPP ->
  gating_address conf attr = Some MSI_EC_ADDR_UNKNOWN ->
  msi_ec_is_visible conf attr = 0.
Proof.
  intros Hsame Hgate.
  rewrite (msi_ec_is_visible_gated conf attr _ Hgate), Hsame, Z.eqb_refl.
  reflexivity.
Qed.

Context {sentinels : sentinel_addresses hdr}.


(** Every attribute of the three platform groups other than the two
    firmware attributes is gated. *)
Lemma platform_attributes_gated (conf : msi_ec_conf) (attr : attribute) :
  In attr (msi_root_attrs ++ msi_cpu_attrs ++ msi_gpu_attrs)%list ->
  attr <> dev_attr_fw_version -> attr <> dev_attr_fw_release_date ->
  exists address, gating_address conf attr = Some address.
Proof.
  intros Hin Hv Hd. cbn in Hin.
  repeat (destruct Hin as [<-|Hin];
          [first [eexists; reflexivity | contradiction]|]).
  destruct Hin.
Qed.

End Visibility.

(** The sample header gives the two sentinels different values. *)
Lemma sample_header_sentinels : sentinel_addresses sample_header.
Proof. cbv. discriminate. Qed.


(** ** Charge-control thresholds *)

Lemma digit_of_range (c : ascii) (d : Z) : digit_of c = Some d -> 0 <= d <= 9.
Proof.
  unfold digit_of.
  destruct ((48 <=? Z.of_N (N_of_ascii c)) && (Z.of_N (N_of_ascii c) <=? 57))
    eqn:H; [|discriminate].
  intros [= <-]. apply andb_true_iff in H. lia.
Qed.

Lemma _parse_integer_nonneg (s : string) :
  forall acc, 0 <= acc -> 0 <= fst (fst (_parse_integer s acc)).
Proof.
  induction s as [|c r IH]; intros acc Hacc; cbn [_parse_integer].
  - exact Hacc.
  - destruct (digit_of c) as [d|] eqn:Hd; [|exact Hacc].
    apply digit_of_range in Hd. specialize (IH (acc * 10 + d)).
    destruct (_parse_integer r (acc * 10 + d)) as [[v n] rest].
    cbn [fst] in *. apply IH. lia.
Qed.

(** [kstrtou8] only ever delivers a byte. *)
Lemma kstrtou8_byte (buf : string) (p : Z) :
  kstrtou8 buf = Ok p -> 0 <= p <= 255.
Proof.
  unfold kstrtou8.
  set (s1 := match buf with
             | String "+"%char r => r
             | _ => buf
             end).
  pose proof (_parse_integer_nonneg s1 0 ltac:(lia)) as Hnn.
  destruct (_parse_integer s1 0) as [[v n] rest]. cbn [fst] in Hnn.
  destruct (2 ^ 64 <=? v); [discriminate|].
  destruct (Nat.eqb n 0); [discriminate|].
  destruct (match rest with
            | String "010"%char r => r
            | _ => rest
            end); [|discriminate].
  destruct (v <=? 255) eqn:Hle; [|discriminate].
  intros [= <-]. lia.
Qed.

(** What [%i\n] prints of a byte, [kstrtou8] reads back. *)
Lemma kstrtou8_emit_i (n : Z) : 0 <= n < 256 -> kstrtou8 (emit_i n) = Ok n.
Proof.
  intros Hn.
  assert (H : forallb (fun n => match kstrtou8 (emit_i n) with
                                | Ok m => m =? n
                                | _ => false
                                end) (below 256) = true)
    by (vm_compute; reflexivity).
  pose proof (forallb_below _ _ H n ltac:(lia)) as Hk. cbv beta in Hk.
  destruct (kstrtou8 (emit_i n)) as [m| |]; try discriminate.
  apply Z.eqb_eq in Hk. congruence.
Qed.

Lemma charge_control_threshold_show_ok (offset : Z) (c : msi_ec_conf)
    (st : ec) (raw : Z) :
  ec_read (charge_control_address (charge_control c)) st = Ok raw ->
  charge_control_threshold_show offset c st
  = Ok (if raw =? 0x80 then emit_s "0" else emit_i (raw - u8 offset)).
Proof.
  intros Hread. unfold charge_control_threshold_show. rewrite Hread.
  destruct (raw =? 0x80); reflexivity.
Qed.

Lemma charge_control_threshold_store_rejects (offset : Z) (c : msi_ec_conf)
    (buf : string) (p count : Z) (st : ec) :
  kstrtou8 buf = Ok p ->
  u8 (p + u8 offset) < range_min (charge_control c)
  \/ range_max (charge_control c) < u8 (p + u8 offset) ->
  charge_control_threshold_store offset c buf count st = (Error EINVAL, st).
Proof.
  intros Hp Hout. unfold charge_control_threshold_store. rewrite Hp.
  cbv zeta.
  assert (H : (u8 (p + u8 offset) <? range_min (charge_control c))
              || (u8 (p + u8 offset) >? range_max (charge_control c))
              = true).
  { apply orb_true_iff. destruct Hout; [left | right]; lia. }
  rewrite H. reflexivity.
Qed.

Lemma charge_control_threshold_store_writes (offset : Z) (c : msi_ec_conf)
    (buf : string) (p count : Z) (st : ec) :
  kstrtou8 buf = Ok p ->
  range_min (charge_control c) <= u8 (p + u8 offset)
                               <= range_max (charge_control c) ->
  charge_control_threshold_store offset c buf count st
  = (return_count
       (fst (ec_write (charge_control_address (charge_control c))
               (u8 (p + u8 offset)) st)) count,
     snd (ec_write (charge_control_address (charge_control c))
            (u8 (p + u8 offset)) st)).
Proof.
  intros Hp Hin. unfold charge_control_threshold_store. rewrite Hp.
  cbv zeta.
  assert (H : (u8 (p + u8 offset) <? range_min (charge_control c))
              || (u8 (p + u8 offset) >? range_max (charge_control c))
              = false).
  { apply orb_false_iff. split; lia. }
  rewrite H.
  destruct (ec_write (charge_control_address (charge_control c))
              (u8 (p + u8 offset)) st) as [r st'].
  reflexivity.
Qed.

Lemma charge_control_threshold_store_unparsed (offset : Z)
    (c : msi_ec_conf) (buf : string) (e count : Z) (st : ec) :
  kstrtou8 buf = Error e ->
  charge_control_threshold_store offset c buf count st = (Error e, st).
Proof.
  intros Hp. unfold charge_control_threshold_store. rewrite Hp. reflexivity.
Qed.

Lemma threshold_wfb_spec (c : msi_ec_conf) :
  threshold_wfb c = true ->
  let cc := charge_control c in
  0 <= offset_start cc <= range_min cc
  /\ 0 <= offset_end cc <= range_min cc
  /\ 0x80 < range_min cc <= range_max cc
  /\ range_max cc < 256.
Proof.
  unfold threshold_wfb. cbv zeta. intros H.
  repeat (apply andb_true_iff in H; destruct H as [H ?]). lia.
Qed.

Section Thresholds.

Context {hdr : ec_memory_configuration}.

Lemma catalog_threshold_wf (c : msi_ec_conf) :
  In c CONFIGURATIONS -> threshold_wfb c = true.
Proof.
  assert (H : forallb threshold_wfb CONFIGURATIONS = true)
    by (vm_compute; reflexivity).
  rewrite forallb_forall in H. apply H.
Qed.

Lemma catalog_threshold_offset (c : msi_ec_conf) (offset : Z) :
  In c CONFIGURATIONS ->
  offset = offset_start (charge_control c)
  \/ offset = offset_end (charge_control c) ->
  0 <= offset <= range_min (charge_control c)
  /\ 0x80 < range_min (charge_control c) <= range_max (charge_control c)
  /\ range_max (charge_control c) < 256.
Proof.
  intros Hc Hoff.
  pose proof (threshold_wfb_spec c (catalog_threshold_wf c Hc)) as H.
  cbv zeta in H. destruct Hoff; subst; lia.
Qed.

End Thresholds.

Section ThresholdCodec.

Context {hdr : ec_memory_configuration}.

(** Under the bounds that hold in every profile, the byte computed by the
    store is the plain sum when that sum is in the range, and is out of
    the range when the sum is. *)
Lemma threshold_sum (c : msi_ec_conf) (offset p : Z) :
  0 <= offset <= range_min (charge_control c) ->
  range_min (charge_control c) <= range_max (charge_control c) < 256 ->
  0 <= p <= 255 ->
  u8 offset = offset
  /\ (range_min (charge_control c) <= p + offset
                                   <= range_max (charge_control c) ->
      u8 (p + offset) = p + offset)
  /\ (p + offset < range_min (charge_control c)
      \/ range_max (charge_control c) < p + offset ->
      u8 (p + offset) < range_min (charge_control c)
      \/ range_max (charge_control c) < u8 (p + offset)).
Proof.
  intros Hoff Hmax Hp. repeat split.
  - apply u8_small. lia.
  - intros Hin. apply u8_small. lia.
  - intros Hout.
    destruct (Z_lt_le_dec (p + offset) 256) as [Hlt|Hge].
    + rewrite u8_small by lia. exact Hout.
    + left. unfold u8.
      replace (p + offset) with ((p + offset - 256) + 1 * 256) by lia.
      rewrite Z.mod_add by lia. rewrite Z.mod_small by lia. lia.
Qed.

(** C3.  In every profile of the catalog and for both threshold
    attributes: the show decodes a raw byte as raw minus offset, 0x80 as 0;
    the store adds the offset, returns [-EINVAL] without touching the EC
    when the sum is outside [range_min, range_max] and otherwise writes the
    sum; writing back the text shown for a raw byte of the range writes
    that byte again.  With offset 0x8a and range 0x8a..0xe4, storing 10
    writes 0x94, 0x94 is shown as 10 and storing 200 is refused. *)
Theorem charge_control_threshold_codec (c : msi_ec_conf) (offset : Z) :
  In c CONFIGURATIONS ->
  offset = offset_start (charge_control c)
  \/ offset = offset_end (charge_control c) ->
  let cc := charge_control c in
  (forall st raw,
      ec_read (charge_control_address cc) st = Ok raw ->
      charge_control_threshold_show offset c st
      = Ok (if raw =? 0x80 then emit_s "0" else emit_i (raw - offset)))
  /\ (forall buf p count st,
      kstrtou8 buf = Ok p ->
      p + offset < range_min cc \/ range_max cc < p + offset ->
      charge_control_threshold_store offset c buf count st
      = (Error EINVAL, st))
  /\ (forall buf p count st,
      kstrtou8 buf = Ok p ->
      range_min cc <= p + offset <= range_max cc ->
      charge_control_threshold_store offset c buf count st
      = (return_count
           (fst (ec_write (charge_control_address cc) (p + offset) st))
           count,
         snd (ec_write (charge_control_address cc) (p + offset) st)))
  /\ (forall st raw,
      range_min cc <= raw <= range_max cc ->
      ec_read (charge_control_address cc) st = Ok raw ->
      exists text,
        charge_control_threshold_show offset c st = Ok text
        /\ forall count st',
             charge_control_threshold_store offset c text count st'
             = (return_count
                  (fst (ec_write (charge_control_address cc) raw st'))
                  count,
                snd (ec_write (charge_control_address cc) raw st')))
  /\ (offset = 0x8a -> range_min cc = 0x8a -> range_max cc = 0xe4 ->
      forall count st,
        charge_control_threshold_store offset c "10" count st
        = (return_count
             (fst (ec_write (charge_control_address cc) 0x94 st)) count,
           snd (ec_write (charge_control_address cc) 0x94 st))
        /\ (ec_read (charge_control_address cc) st = Ok 0x94 ->
            charge_control_threshold_show offset c st = Ok (emit_s "10"))
        /\ charge_control_threshold_store offset c "200" count st
           = (Error EINVAL, st)).
Proof.
  intros Hc Hoff cc. subst cc.
  destruct (catalog_threshold_offset c offset Hc Hoff) as (Ho & Hr & Hm).
  assert (Hu : u8 offset = offset) by (apply u8_small; lia).
  assert (Hdec : forall st raw,
             ec_read (charge_control_address (charge_control c)) st = Ok raw ->
             charge_control_threshold_show offset c st
             = Ok (if raw =? 0x80 then emit_s "0"
                   else emit_i (raw - offset))).
  { intros st raw Hread.
    rewrite (charge_control_threshold_show_ok offset c st raw Hread).
    rewrite Hu. reflexivity. }
  assert (Hrej : forall buf p count st,
             kstrtou8 buf = Ok p ->
             p + offset < range_min (charge_control c)
             \/ range_max (charge_control c) < p + offset ->
             charge_control_threshold_store offset c buf count st
             = (Error EINVAL, st)).
  { intros buf p count st Hp Hout.
    apply (charge_control_threshold_store_rejects offset c buf p count st Hp).
    rewrite Hu.
    apply (threshold_sum c offset p Ho ltac:(lia) (kstrtou8_byte buf p Hp)).
    exact Hout. }
  assert (Hacc : forall buf p count st,
             kstrtou8 buf = Ok p ->
             range_min (charge_control c) <= p + offset
                                          <= range_max (charge_control c) ->
             charge_control_threshold_store offset c buf count st
             = (return_count
                  (fst (ec_write (charge_control_address (charge_control c))
                          (p + offset) st)) count,
                snd (ec_write (charge_control_address (charge_control c))
                       (p + offset) st))).
  { intros buf p count st Hp Hin.
    destruct (threshold_sum c offset p Ho ltac:(lia) (kstrtou8_byte buf p Hp))
      as (_ & Hsame & _).
    rewrite (charge_control_threshold_store_writes offset c buf p count st Hp);
      rewrite Hu, (Hsame Hin); [reflexivity | exact Hin]. }
  split; [exact Hdec|]. split; [exact Hrej|]. split; [exact Hacc|]. split.
  - intros st raw Hraw Hread.
    exists (emit_i (raw - offset)). split.
    + rewrite (Hdec st raw Hread).
      replace (raw =? 0x80) with false by (symmetry; apply Z.eqb_neq; lia).
      reflexivity.
    + intros count st'.
      rewrite (Hacc (emit_i (raw - offset)) (raw - offset) count st').
      * replace (raw - offset + offset) with raw by lia. reflexivity.
      * apply kstrtou8_emit_i. lia.
      * lia.
  - intros H8a Hmin Hmax count st. repeat split.
    + rewrite (Hacc "10" 10 count st eq_refl) by lia.
      rewrite H8a. reflexivity.
    + intros Hread. rewrite (Hdec st 0x94 Hread). rewrite H8a. reflexivity.
    + apply (Hrej "200" 200 count st eq_refl). lia.
Qed.

(** C10.  The store adds the offset to the parsed byte modulo 256 and then
    either returns [-EINVAL] with the EC untouched or hands [ec_write] a
    byte of [range_min, range_max]; input that does not parse writes
    nothing either.  Where [range_min] is 0x8a and the offset 0x8a or 0x80,
    and in every profile of the catalog, a sum above 255 wraps to a byte
    below [range_min] and is refused. *)
Theorem charge_control_threshold_store_wraps (c : msi_ec_conf)
    (offset : Z) (buf : string) (count : Z) (st : ec) :
  let cc := charge_control c in
  (forall e,
      kstrtou8 buf = Error e ->
      charge_control_threshold_store offset c buf count st = (Error e, st))
  /\ (forall p,
      kstrtou8 buf = Ok p ->
      let wdata := (p + offset mod 256) mod 256 in
      0 <= p <= 255
      /\ (charge_control_threshold_store offset c buf count st
          = (Error EINVAL, st)
          /\ (wdata < range_min cc \/ range_max cc < wdata)
          \/ charge_control_threshold_store offset c buf count st
             = (return_count
                  (fst (ec_write (charge_control_address cc) wdata st))
                  count,
                snd (ec_write (charge_control_address cc) wdata st))
             /\ range_min cc <= wdata <= range_max cc)
      /\ (range_min cc = 0x8a -> offset = 0x8a \/ offset = 0x80 ->
          255 < p + offset ->
          wdata < range_min cc
          /\ charge_control_threshold_store offset c buf count st
             = (Error EINVAL, st))
      /\ (In c CONFIGURATIONS ->
          offset = offset_start cc \/ offset = offset_end cc ->
          255 < p + offset ->
          wdata < range_min cc
          /\ charge_control_threshold_store offset c buf count st
             = (Error EINVAL, st))).
Proof.
  intros cc. subst cc. split.
  - intros e He. apply charge_control_threshold_store_unparsed. exact He.
  - intros p Hp wdata.
    pose proof (kstrtou8_byte buf p Hp) as Hbyte.
    assert (Hw : wdata = u8 (p + u8 offset)) by reflexivity.
    assert (Hwrap : 0 <= offset <= range_min (charge_control c) ->
                    offset < 256 -> 255 < p + offset ->
                    wdata < range_min (charge_control c)
                    /\ charge_control_threshold_store offset c buf count st
                       = (Error EINVAL, st)).
    { intros Ho Ho' Hsum.
      assert (Hlow : wdata < range_min (charge_control c)).
      { rewrite Hw. rewrite (u8_small offset) by lia. unfold u8.
        replace (p + offset) with ((p + offset - 256) + 1 * 256) by lia.
        rewrite Z.mod_add by lia. rewrite Z.mod_small by lia. lia. }
      split; [exact Hlow|].
      apply (charge_control_threshold_store_rejects offset c buf p count st
               Hp).
      left. rewrite <- Hw. exact Hlow. }
    split; [exact Hbyte|]. split; [|split].
    + destruct (Z_lt_le_dec wdata (range_min (charge_control c))) as [Hlo|Hlo].
      { left. split; [|left; exact Hlo].
        apply (charge_control_threshold_store_rejects offset c buf p count st
                 Hp). left. rewrite <- Hw. exact Hlo. }
      destruct (Z_lt_le_dec (range_max (charge_control c)) wdata) as [Hhi|Hhi].
      { left. split; [|right; exact Hhi].
        apply (charge_control_threshold_store_rejects offset c buf p count st
                 Hp). right. rewrite <- Hw. exact Hhi. }
      right. split; [|lia]. rewrite Hw.
      apply charge_control_threshold_store_writes; [exact Hp|].
      rewrite <- Hw. lia.
    + intros Hmin Hoff Hsum. apply Hwrap; [| |exact Hsum];
        destruct Hoff; subst offset; rewrite ?Hmin; lia.
    + intros Hc Hoff Hsum.
      destruct (catalog_threshold_offset c offset Hc Hoff) as (Ho & Hr & Hm).
      apply Hwrap; [exact Ho | lia | exact Hsum].
Qed.

End ThresholdCodec.

(** [CONF0], start threshold: the text shown for the raw byte 0x94 is
    written back as 0x94. *)
Lemma charge_control_threshold_codec_witness :
  exists text,
    charge_control_threshold_show 0x8a (CONF0 (hdr := sample_header))
      (ec_image [(0xef, 0x94)]) = Ok text
    /\ forall count st',
         charge_control_threshold_store 0x8a (CONF0 (hdr := sample_header))
           text count st'
         = (return_count (fst (ec_write 0xef 0x94 st')) count,
            snd (ec_write 0xef 0x94 st')).
Proof.
  apply (proj1 (proj2 (proj2 (proj2
           (charge_control_threshold_codec (hdr := sample_header)
              (CONF0 (hdr := sample_header)) 0x8a
              (or_introl eq_refl) (or_introl eq_refl)))))
           (ec_image [(0xef, 0x94)]) 0x94).
  - cbv. split; discriminate.
  - reflexivity.
Defined.

(** ** The register file *)

Lemma ec_read_ok (addr : Z) (st : ec) :
  read_fault st (u8 addr) = None ->
  ec_read addr st = Ok (u8 (regs st (u8 addr))).
Proof. intros H. unfold ec_read. rewrite H. reflexivity. Qed.

Lemma ec_read_byte (addr : Z) (st : ec) (v : Z) :
  ec_read addr st = Ok v -> 0 <= v < 256.
Proof.
  unfold ec_read. destruct (read_fault st (u8 addr)); [discriminate|].
  intros [= <-]. apply u8_range.
Qed.

Lemma ec_write_ok (addr val : Z) (st : ec) :
  write_fault st (u8 addr) = None ->
  fst (ec_write addr val st) = Ok tt
  /\ regs (snd (ec_write addr val st)) (u8 addr) = u8 val
  /\ read_fault (snd (ec_write addr val st)) = read_fault st
  /\ write_fault (snd (ec_write addr val st)) = write_fault st
  /\ written (snd (ec_write addr val st)) = (u8 addr, u8 val) :: written st.
Proof.
  intros H. unfold ec_write. rewrite H. cbn [fst snd regs read_fault
    write_fault written]. rewrite Z.eqb_refl. repeat split.
Qed.

(** A byte written where the transport works is the byte read back. *)
Lemma ec_read_after_write (addr val : Z) (st : ec) :
  write_fault st (u8 addr) = None ->
  read_fault st (u8 addr) = None ->
  ec_read addr (snd (ec_write addr val st)) = Ok (u8 val).
Proof.
  intros Hw Hr.
  destruct (ec_write_ok addr val st Hw) as (_ & Hregs & Hrf & _).
  rewrite ec_read_ok by (rewrite Hrf; exact Hr).
  rewrite Hregs. rewrite u8_idem. reflexivity.
Qed.

(** ** Basic fan speed *)

Lemma rescale_down (p d : Z) :
  0 <= p -> 0 < d ->
  0 <= p * d / 100 <= p * d
  /\ 100 * (p * d / 100) / d <= p
  /\ (100 * (p * d / 100) / d = p <-> (p * d) mod 100 = 0).
Proof.
  intros Hp Hd.
  pose proof (Z.div_mod (p * d) 100 ltac:(lia)) as Hdm.
  pose proof (Z.mod_pos_bound (p * d) 100 ltac:(lia)) as Hm.
  set (q := p * d / 100) in *. set (r := (p * d) mod 100) in *.
  assert (Hq : 0 <= q) by (subst q; apply Z.div_pos; nia).
  split; [nia|]. split.
  - apply Z.div_le_upper_bound; nia.
  - split.
    + intros Heq.
      pose proof (Z.mul_div_le (100 * q) d Hd) as Hle.
      rewrite Heq in Hle. nia.
    + intros Hr. replace (100 * q) with (p * d) by lia.
      apply Z.div_mul. lia.
Qed.

Lemma cpu_basic_fan_speed_show_fault (c : msi_ec_conf) (st : ec) (raw : Z) :
  ec_read (bs_fan_speed_address (cpu c)) st = Ok raw ->
  raw < bs_fan_speed_base_min (cpu c) \/ bs_fan_speed_base_max (cpu c) < raw ->
  cpu_basic_fan_speed_show c st = Error EINVAL.
Proof.
  intros Hread Hout. unfold cpu_basic_fan_speed_show. rewrite Hread.
  assert (H : (raw <? bs_fan_speed_base_min (cpu c))
              || (raw >? bs_fan_speed_base_max (cpu c)) = true).
  { apply orb_true_iff. destruct Hout; [left | right]; lia. }
  rewrite H. reflexivity.
Qed.

Lemma cpu_basic_fan_speed_show_scaled (c : msi_ec_conf) (st : ec)
    (raw : Z) :
  ec_read (bs_fan_speed_address (cpu c)) st = Ok raw ->
  bs_fan_speed_base_min (cpu c) < bs_fan_speed_base_max (cpu c) ->
  bs_fan_speed_base_min (cpu c) <= raw <= bs_fan_speed_base_max (cpu c) ->
  cpu_basic_fan_speed_show c st
  = Ok (emit_i (100 * (raw - bs_fan_speed_base_min (cpu c))
                / (bs_fan_speed_base_max (cpu c)
                   - bs_fan_speed_base_min (cpu c)))).
Proof.
  intros Hread Hd Hin. unfold cpu_basic_fan_speed_show. rewrite Hread.
  assert (H : (raw <? bs_fan_speed_base_min (cpu c))
              || (raw >? bs_fan_speed_base_max (cpu c)) = false).
  { apply orb_false_iff. split; lia. }
  rewrite H. unfold c_div.
  replace (bs_fan_speed_base_max (cpu c) - bs_fan_speed_base_min (cpu c) =? 0)
    with false by (symmetry; apply Z.eqb_neq; lia).
  rewrite Z.quot_div_nonneg by lia. reflexivity.
Qed.

(** C4, as the code has it.  Where 0 <= base_min < base_max <= 255 and the
    transport works, storing a percentage [p] of 0..100 writes
    [base_min + p * (base_max - base_min) / 100] and the show then prints
    [100 * (p * (base_max - base_min) / 100) / (base_max - base_min)],
    which is at most [p] and is [p] exactly when [p * (base_max -
    base_min)] is a multiple of 100, as for 0 and 100.  A percentage above
    100 is refused with [-EINVAL] and nothing is written; a raw byte
    outside [base_min, base_max] makes the show return [-EINVAL]. *)
Theorem cpu_basic_fan_speed_rescale (c : msi_ec_conf) (buf : string)
    (p count : Z) (st : ec) :
  let lo := bs_fan_speed_base_min (cpu c) in
  let hi := bs_fan_speed_base_max (cpu c) in
  let addr := bs_fan_speed_address (cpu c) in
  0 <= lo < hi -> hi <= 255 ->
  kstrtou8 buf = Ok p ->
  (100 < p -> cpu_basic_fan_speed_store c buf count st = (Error EINVAL, st))
  /\ (p <= 100 ->
      write_fault st (u8 addr) = None -> read_fault st (u8 addr) = None ->
      let st' := snd (cpu_basic_fan_speed_store c buf count st) in
      let back := 100 * (p * (hi - lo) / 100) / (hi - lo) in
      fst (cpu_basic_fan_speed_store c buf count st) = Ok count
      /\ ec_read addr st' = Ok (lo + p * (hi - lo) / 100)
      /\ cpu_basic_fan_speed_show c st' = Ok (emit_i back)
      /\ back <= p
      /\ (back = p <-> (p * (hi - lo)) mod 100 = 0)
      /\ (p = 0 \/ p = 100 -> back = p))
  /\ (forall st0 raw,
      ec_read addr st0 = Ok raw -> raw < lo \/ hi < raw ->
      cpu_basic_fan_speed_show c st0 = Error EINVAL).
Proof.
  intros lo hi addr Hlo Hhi Hp.
  pose proof (kstrtou8_byte buf p Hp) as Hbyte.
  split; [|split].
  - intros Hbig. unfold cpu_basic_fan_speed_store. rewrite Hp.
    replace (p >? 100) with true by (symmetry; lia). reflexivity.
  - intros Hle Hw Hr st' back.
    destruct (rescale_down p (hi - lo) ltac:(lia) ltac:(lia))
      as (Hq & Hback & Hiff).
    assert (Hq' : p * (hi - lo) / 100 <= hi - lo).
    { apply Z.div_le_upper_bound; nia. }
    assert (Henc : Z.quot (p * (hi - lo) + 100 * lo) 100
                   = lo + p * (hi - lo) / 100).
    { rewrite Z.quot_div_nonneg by nia.
      replace (p * (hi - lo) + 100 * lo) with (p * (hi - lo) + lo * 100)
        by lia.
      rewrite Z.div_add by lia. lia. }
    assert (Hstore : cpu_basic_fan_speed_store c buf count st
                     = (return_count
                          (fst (ec_write addr (lo + p * (hi - lo) / 100) st))
                          count,
                        snd (ec_write addr (lo + p * (hi - lo) / 100) st))).
    { unfold cpu_basic_fan_speed_store. rewrite Hp.
      replace (p >? 100) with false by (symmetry; lia).
      fold lo hi addr. rewrite Henc.
      destruct (ec_write addr (lo + p * (hi - lo) / 100) st). reflexivity. }
    assert (Hread : ec_read addr st' = Ok (lo + p * (hi - lo) / 100)).
    { subst st'. rewrite Hstore. cbn [snd].
      rewrite (ec_read_after_write _ _ _ Hw Hr).
      rewrite u8_small by lia. reflexivity. }
    split.
    { rewrite Hstore. cbn [fst].
      destruct (ec_write_ok addr (lo + p * (hi - lo) / 100) st Hw) as (-> & _).
      reflexivity. }
    split; [exact Hread|]. split.
    { rewrite (cpu_basic_fan_speed_show_scaled c st' _ Hread);
        fold lo hi; [|lia|lia].
      replace (lo + p * (hi - lo) / 100 - lo) with (p * (hi - lo) / 100)
        by lia.
      reflexivity. }
    split; [exact Hback|]. split; [exact Hiff|].
    intros [-> | ->]; apply Hiff.
    + reflexivity.
    + rewrite Z.mul_comm. apply Z.mod_mul. lia.
  - intros st0 raw Hread Hout.
    apply (cpu_basic_fan_speed_show_fault c st0 raw Hread Hout).
Qed.

(** [CONF0] maps 0..100 onto the sixteen steps 0x00..0x0f: 50 is stored
    as step 7 and step 7 is shown as 46. *)
Lemma cpu_basic_fan_speed_rescale_witness :
  cpu_basic_fan_speed_show (CONF0 (hdr := sample_header))
    (snd (cpu_basic_fan_speed_store (CONF0 (hdr := sample_header))
            "50" 3 (ec_image [])))
  = Ok (emit_i 46).
Proof.
  apply (proj1 (proj2 (cpu_basic_fan_speed_rescale
                  (CONF0 (hdr := sample_header)) "50" 50 3 (ec_image [])
                  ltac:(cbv; split; [discriminate | reflexivity])
                  ltac:(cbv; discriminate) eq_refl))
           ltac:(cbv; discriminate) eq_refl eq_refl).
Defined.

(** Storing 50 and reading it back in [CONF0] does not give 50. *)
Lemma cpu_basic_fan_speed_roundtrip_fails :
  let c := CONF0 (hdr := sample_header) in
  fst (cpu_basic_fan_speed_store c "50" 3 (ec_image [])) = Ok 3
  /\ cpu_basic_fan_speed_show c
       (snd (cpu_basic_fan_speed_store c "50" 3 (ec_image [])))
     = Ok (emit_i 46)
  /\ cpu_basic_fan_speed_show c
       (snd (cpu_basic_fan_speed_store c "50" 3 (ec_image [])))
     <> Ok (emit_i 50).
Proof.
  vm_compute. repeat split. discriminate.
Qed.

(** ** Mode tables *)

Lemma distinctb_NoDup (l : list Z) : distinctb l = true -> NoDup l.
Proof.
  induction l as [|x rest IH]; cbn [distinctb]; intros H.
  - constructor.
  - apply andb_true_iff in H. destruct H as [Hx Hrest].
    constructor; [|apply IH; exact Hrest].
    intros Hin. apply negb_true_iff in Hx.
    assert (Hex : existsb (Z.eqb x) rest = true).
    { apply existsb_exists. exists x. split; [exact Hin | apply Z.eqb_refl]. }
    congruence.
Qed.

Lemma unspecified_is_not_unknown (raw : Z) :
  emit_s "unspecified" <> emit_unknown raw.
Proof. unfold emit_unknown. cbn. discriminate. Qed.

(** A byte that no declared row carries is shown as unknown. *)
Lemma mode_show_loop_unknown (modes : list msi_ec_mode) (raw : Z) :
  (forall n, ~ In (n, raw) (table_rows modes)) ->
  mode_show_loop modes raw = emit_unknown raw.
Proof.
  induction modes as [|m rest IH]; cbn [mode_show_loop table_rows];
    intros Hnone.
  - reflexivity.
  - destruct (name m) as [n|]; [|reflexivity].
    destruct (raw =? value m) eqn:Heq.
    + apply Z.eqb_eq in Heq. exfalso. apply (Hnone n). left. congruence.
    + apply IH. intros n' Hin. apply (Hnone n'). right. exact Hin.
Qed.

(** The scan stops at the first declared row with the byte. *)
Lemma mode_show_loop_first (modes : list msi_ec_mode)
    (pre post : list (string * Z)) (n : string) (v : Z) :
  table_rows modes = (pre ++ (n, v) :: post)%list ->
  (forall row, In row pre -> snd row <> v) ->
  mode_show_loop modes v = emit_s n.
Proof.
  revert pre. induction modes as [|m rest IH];
    cbn [mode_show_loop table_rows]; intros pre Hrows Hpre.
  - destruct pre; discriminate Hrows.
  - destruct (name m) as [n0|]; [|destruct pre; discriminate Hrows].
    destruct pre as [|row pre']; cbn [app] in Hrows.
    + injection Hrows as Hn Hv _. subst. rewrite Z.eqb_refl. reflexivity.
    + injection Hrows as Hrow Hrest.
      assert (Hne : snd row <> v) by (apply Hpre; left; reflexivity).
      subst row. cbn [snd] in Hne.
      replace (v =? value m) with false
        by (symmetry; apply Z.eqb_neq; congruence).
      apply (IH pre' Hrest). intros row Hin. apply Hpre. right. exact Hin.
Qed.

(** In a table whose bytes are distinct, every declared row is shown under
    its own name. *)
Lemma mode_show_loop_declared (modes : list msi_ec_mode) (n : string)
    (v : Z) :
  NoDup (map snd (table_rows modes)) ->
  In (n, v) (table_rows modes) ->
  mode_show_loop modes v = emit_s n.
Proof.
  intros Hnodup Hin.
  destruct (in_split _ _ Hin) as (pre & post & Hsplit).
  apply (mode_show_loop_first modes pre post n v Hsplit).
  intros row Hrow Heq. rewrite Hsplit in Hnodup.
  rewrite map_app in Hnodup. cbn [map snd] in Hnodup.
  apply NoDup_remove_2 in Hnodup. apply Hnodup.
  apply in_or_app. left. rewrite <- Heq. apply in_map. exact Hrow.
Qed.

(** Input that matches no declared name is refused and nothing is
    written. *)
Lemma mode_store_loop_unmatched (address : Z) (modes : list msi_ec_mode)
    (buf : string) (count : Z) (st : ec) :
  (forall n v, In (n, v) (table_rows modes) -> sysfs_streq n buf = false) ->
  mode_store_loop address modes buf count st = (Error EINVAL, st).
Proof.
  induction modes as [|m rest IH]; cbn [mode_store_loop table_rows];
    intros Hnone.
  - reflexivity.
  - destruct (name m) as [n|]; [|reflexivity].
    rewrite (Hnone n (value m)) by (left; reflexivity).
    apply IH. intros n' v' Hin. apply (Hnone n' v'). right. exact Hin.
Qed.

Lemma shift_mode_show_unspecified (c : msi_ec_conf) (st : ec) :
  ec_read (shift_mode_address (shift_mode c)) st = Ok 0x80 ->
  shift_mode_show c st = Ok (emit_s "unspecified").
Proof. intros H. unfold shift_mode_show. rewrite H. reflexivity. Qed.

Lemma shift_mode_show_scan (c : msi_ec_conf) (st : ec) (raw : Z) :
  ec_read (shift_mode_address (shift_mode c)) st = Ok raw ->
  raw <> 0x80 ->
  shift_mode_show c st
  = Ok (mode_show_loop (shift_mode_modes (shift_mode c)) raw).
Proof.
  intros H Hne. unfold shift_mode_show. rewrite H.
  replace (raw =? 0x80) with false by (symmetry; apply Z.eqb_neq; exact Hne).
  reflexivity.
Qed.

Lemma fan_mode_show_scan (c : msi_ec_conf) (st : ec) (raw : Z) :
  ec_read (fan_mode_address (fan_mode c)) st = Ok raw ->
  fan_mode_show c st = Ok (mode_show_loop (fan_mode_modes (fan_mode c)) raw).
Proof. intros H. unfold fan_mode_show. rewrite H. reflexivity. Qed.

Section ModeTables.

Context {hdr : ec_memory_configuration}.

(** The tables of the catalog: fan bytes are distinct in every profile,
    shift bytes in every profile but [CONF22], where comfort and sport are
    both 0xc1; no shift row carries 0x80, and no fan table shows 0x80 as
    unspecified. *)
Lemma catalog_mode_tables (c : msi_ec_conf) :
  In c CONFIGURATIONS ->
  NoDup (map snd (table_rows (fan_mode_modes (fan_mode c))))
  /\ (NoDup (map snd (table_rows (shift_mode_modes (shift_mode c))))
      \/ c = CONF22)
  /\ ~ In 0x80 (map snd (table_rows (shift_mode_modes (shift_mode c))))
  /\ mode_show_loop (fan_mode_modes (fan_mode c)) 0x80
     <> emit_s "unspecified".
Proof.
  intros Hin. cbn in Hin.
  repeat (destruct Hin as [<-|Hin];
          [split; [apply distinctb_NoDup; vm_compute; reflexivity|];
           split; [first [left; apply distinctb_NoDup; vm_compute; reflexivity
                         | right; reflexivity]|];
           split; [vm_compute; intuition discriminate
                  | vm_compute; discriminate]|]).
  destruct Hin.
Qed.

(** C5, as the code has it.  [shift_mode_show] answers the raw byte 0x80
    with "unspecified" before it looks at the table, and that text is not
    the "unknown (raw)" text of any byte.  [fan_mode_show] has no such
    case: it scans the table for 0x80 as for any byte, prints the name of
    the row that carries it, or "unknown (128)" when no row does, and in no
    profile of the catalog prints "unspecified". *)
Theorem mode_show_sentinel (c : msi_ec_conf) (st : ec) :
  (ec_read (shift_mode_address (shift_mode c)) st = Ok 0x80 ->
   shift_mode_show c st = Ok (emit_s "unspecified")
   /\ forall raw, shift_mode_show c st <> Ok (emit_unknown raw))
  /\ (ec_read (fan_mode_address (fan_mode c)) st = Ok 0x80 ->
      fan_mode_show c st
      = Ok (mode_show_loop (fan_mode_modes (fan_mode c)) 0x80)
      /\ ((forall n, ~ In (n, 0x80) (table_rows (fan_mode_modes (fan_mode c))))
          -> fan_mode_show c st = Ok (emit_unknown 0x80))
      /\ (forall n,
          NoDup (map snd (table_rows (fan_mode_modes (fan_mode c)))) ->
          In (n, 0x80) (table_rows (fan_mode_modes (fan_mode c))) ->
          fan_mode_show c st = Ok (emit_s n))
      /\ (In c CONFIGURATIONS ->
          fan_mode_show c st <> Ok (emit_s "unspecified"))).
Proof.
  split.
  - intros Hread. rewrite (shift_mode_show_unspecified c st Hread).
    split; [reflexivity|]. intros raw H.
    apply (unspecified_is_not_unknown raw). congruence.
  - intros Hread. rewrite (fan_mode_show_scan c st 0x80 Hread).
    split; [reflexivity|]. split; [|split].
    + intros Hnone. rewrite (mode_show_loop_unknown _ _ Hnone). reflexivity.
    + intros n Hnodup Hin.
      rewrite (mode_show_loop_declared _ n 0x80 Hnodup Hin). reflexivity.
    + intros Hc H.
      destruct (catalog_mode_tables c Hc) as (_ & _ & _ & Hne).
      apply Hne. congruence.
Qed.

End ModeTables.

(** On [CONF0] with 0x80 in the shift register. *)
Lemma mode_show_sentinel_witness :
  shift_mode_show (CONF0 (hdr := sample_header)) (ec_image [(0xf2, 0x80)])
  = Ok (emit_s "unspecified").
Proof.
  apply (proj1 (mode_show_sentinel (hdr := sample_header)
                  (CONF0 (hdr := sample_header))
                  (ec_image [(0xf2, 0x80)]))).
  reflexivity.
Defined.

(** With 0x80 in the fan register of [CONF0] the fan mode reads
    "unknown (128)". *)
Lemma fan_mode_show_has_no_sentinel :
  let c := CONF0 (hdr := sample_header) in
  ec_read (fan_mode_address (fan_mode c)) (ec_image [(0xf4, 0x80)]) = Ok 0x80
  /\ fan_mode_show c (ec_image [(0xf4, 0x80)]) = Ok (emit_unknown 0x80)
  /\ fan_mode_show c (ec_image [(0xf4, 0x80)]) <> Ok (emit_s "unspecified").
Proof.
  vm_compute. repeat split. discriminate.
Qed.

Section ModeCodec.

Context {hdr : ec_memory_configuration}.

(** C6, as the code has it.  For a table whose raw bytes are distinct, the
    show prints the name of a declared row when the register holds that
    row's byte; a byte that no declared row carries is printed as
    "unknown (raw)".  In [shift_mode_show] both hold for bytes other than
    0x80, which is printed as "unspecified".  A store whose input matches
    no declared name returns [-EINVAL] and leaves the EC as it was.  In the
    catalog the bytes of a table are distinct everywhere but in the shift
    table of [CONF22], and no shift row carries 0x80. *)
Theorem mode_table_codec (c : msi_ec_conf) :
  let shift_rows := table_rows (shift_mode_modes (shift_mode c)) in
  let fan_rows := table_rows (fan_mode_modes (fan_mode c)) in
  (NoDup (map snd fan_rows) ->
   forall n v st,
     In (n, v) fan_rows ->
     ec_read (fan_mode_address (fan_mode c)) st = Ok v ->
     fan_mode_show c st = Ok (emit_s n))
  /\ (NoDup (map snd shift_rows) ->
      forall n v st,
        In (n, v) shift_rows -> v <> 0x80 ->
        ec_read (shift_mode_address (shift_mode c)) st = Ok v ->
        shift_mode_show c st = Ok (emit_s n))
  /\ (forall raw st,
      ec_read (fan_mode_address (fan_mode c)) st = Ok raw ->
      (forall n, ~ In (n, raw) fan_rows) ->
      fan_mode_show c st = Ok (emit_unknown raw))
  /\ (forall raw st,
      ec_read (shift_mode_address (shift_mode c)) st = Ok raw ->
      (forall n, ~ In (n, raw) shift_rows) ->
      shift_mode_show c st
      = Ok (if raw =? 0x80 then emit_s "unspecified" else emit_unknown raw))
  /\ (forall buf count st,
      (forall n v, In (n, v) fan_rows -> sysfs_streq n buf = false) ->
      fan_mode_store c buf count st = (Error EINVAL, st))
  /\ (forall buf count st,
      (forall n v, In (n, v) shift_rows -> sysfs_streq n buf = false) ->
      shift_mode_store c buf count st = (Error EINVAL, st))
  /\ (In c CONFIGURATIONS ->
      NoDup (map snd fan_rows)
      /\ (NoDup (map snd shift_rows) \/ c = CONF22)
      /\ ~ In 0x80 (map snd shift_rows)).
Proof.
  intros shift_rows fan_rows. subst shift_rows fan_rows.
  split; [|split; [|split; [|split; [|split; [|split]]]]].
  - intros Hnodup n v st Hin Hread.
    rewrite (fan_mode_show_scan c st v Hread).
    rewrite (mode_show_loop_declared _ n v Hnodup Hin). reflexivity.
  - intros Hnodup n v st Hin Hne Hread.
    rewrite (shift_mode_show_scan c st v Hread Hne).
    rewrite (mode_show_loop_declared _ n v Hnodup Hin). reflexivity.
  - intros raw st Hread Hnone.
    rewrite (fan_mode_show_scan c st raw Hread).
    rewrite (mode_show_loop_unknown _ raw Hnone). reflexivity.
  - intros raw st Hread Hnone.
    destruct (raw =? 0x80) eqn:Heq.
    + apply Z.eqb_eq in Heq. subst raw.
      apply shift_mode_show_unspecified. exact Hread.
    + apply Z.eqb_neq in Heq.
      rewrite (shift_mode_show_scan c st raw Hread Heq).
      rewrite (mode_show_loop_unknown _ raw Hnone). reflexivity.
  - intros buf count st Hnone. unfold fan_mode_store.
    apply mode_store_loop_unmatched. exact Hnone.
  - intros buf count st Hnone. unfold shift_mode_store.
    apply mode_store_loop_unmatched. exact Hnone.
  - intros Hc. destruct (catalog_mode_tables c Hc) as (Hf & Hs & H80 & _).
    repeat split; assumption.
Qed.

End ModeCodec.

(** [CONF0]: the byte 0xc0 registered for sport is shown as sport. *)
Lemma mode_table_codec_witness :
  shift_mode_show (CONF0 (hdr := sample_header)) (ec_image [(0xf2, 0xc0)])
  = Ok (emit_s "sport").
Proof.
  apply (proj1 (proj2 (mode_table_codec (hdr := sample_header)
                         (CONF0 (hdr := sample_header))))
           ltac:(apply distinctb_NoDup; vm_compute; reflexivity)
           "sport" 0xc0 (ec_image [(0xf2, 0xc0)])).
  - cbn. tauto.
  - cbv. discriminate.
  - reflexivity.
Defined.

(** In [CONF22] sport is registered with the byte of comfort and is read
    back as comfort; in [CONF0] the byte 0x80, which no shift row carries,
    is not shown as unknown. *)
Lemma mode_table_decode_fails :
  let c22 := CONF22 (hdr := sample_header) in
  let c0 := CONF0 (hdr := sample_header) in
  (In ("sport", 0xc1) (table_rows (shift_mode_modes (shift_mode c22)))
   /\ fst (shift_mode_store c22 "sport" 5 (ec_image [])) = Ok 5
   /\ shift_mode_show c22 (snd (shift_mode_store c22 "sport" 5 (ec_image [])))
      = Ok (emit_s "comfort")
   /\ shift_mode_show c22 (ec_image [(0xf2, 0xc1)]) <> Ok (emit_s "sport"))
  /\ ((forall n,
         ~ In (n, 0x80) (table_rows (shift_mode_modes (shift_mode c0))))
      /\ shift_mode_show c0 (ec_image [(0xf2, 0x80)])
         = Ok (emit_s "unspecified")
      /\ shift_mode_show c0 (ec_image [(0xf2, 0x80)])
         <> Ok (emit_unknown 0x80)).
Proof.
  cbv zeta. split.
  - split; [cbn; tauto|]. vm_compute. repeat split. discriminate.
  - split.
    + intros n. cbn. intros [H|[H|[H|[]]]]; discriminate H.
    + vm_compute. split; [reflexivity | discriminate].
Qed.

(** ** Single-bit features *)

Lemma check_bit_after (v b : Z) :
  0 <= v < 256 -> 0 <= b < 8 ->
  check_bit (u8 (set_bit v b)) b = true
  /\ check_bit (u8 (unset_bit v b)) b = false.
Proof.
  intros Hv Hb.
  assert (H : forallb (fun v =>
                forallb (fun b =>
                  check_bit (u8 (set_bit v b)) b
                  && negb (check_bit (u8 (unset_bit v b)) b))
                  (below 8)) (below 256) = true)
    by (vm_compute; reflexivity).
  pose proof (forallb_below _ _ (forallb_below _ _ H v ltac:(lia)) b
                ltac:(lia)) as Hvb.
  cbv beta in Hvb. apply andb_true_iff in Hvb. destruct Hvb as [Hs Hu].
  apply negb_true_iff in Hu. split; assumption.
Qed.

(** After [ec_set_bit] has run where the transport works, [ec_check_bit]
    reports the value that was set. *)
Lemma ec_check_bit_after_set (addr bit : Z) (value : bool) (st : ec) :
  transport_ok st addr -> u8 bit < 8 ->
  fst (ec_set_bit addr bit value st) = Ok tt
  /\ ec_check_bit addr bit (snd (ec_set_bit addr bit value st)) = Ok value.
Proof.
  intros [Hr Hw] Hbit.
  pose proof (u8_range bit) as Hb.
  pose proof (u8_range (regs st (u8 addr))) as Hv.
  unfold ec_set_bit. rewrite (ec_read_ok addr st Hr).
  set (wdata := if value then set_bit (u8 (regs st (u8 addr))) (u8 bit)
                else unset_bit (u8 (regs st (u8 addr))) (u8 bit)).
  destruct (ec_write_ok addr wdata st Hw) as (Hfst & _).
  split; [exact Hfst|].
  unfold ec_check_bit. rewrite (ec_read_after_write addr wdata st Hw Hr).
  destruct (check_bit_after (u8 (regs st (u8 addr))) (u8 bit) Hv
              ltac:(lia)) as [Hset Hunset].
  subst wdata. destruct value; [rewrite Hset | rewrite Hunset]; reflexivity.
Qed.

Lemma ec_set_bit_keeps_transport (addr bit : Z) (value : bool) (st : ec)
    (a : Z) :
  transport_ok st a -> transport_ok (snd (ec_set_bit addr bit value st)) a.
Proof.
  intros Hok. unfold ec_set_bit. destruct (ec_read addr st); try exact Hok.
  unfold ec_write. destruct (write_fault st (u8 addr)); exact Hok.
Qed.

Lemma webcam_common_reads_back (address : Z) (c : msi_ec_conf) (st : ec)
    (str_0 str_1 : string) :
  transport_ok st address -> u8 (webcam_bit (webcam c)) < 8 ->
  sysfs_streq str_1 str_1 = true -> sysfs_streq str_0 str_0 = true ->
  sysfs_streq str_0 str_1 = false -> sysfs_streq str_1 str_0 = false ->
  store_then_show
    (fun buf count => webcam_common_store address c buf count str_0 str_1)
    (webcam_common_show address c str_0 str_1) st str_1 str_1
  /\ store_then_show
       (fun buf count => webcam_common_store address c buf count str_0 str_1)
       (webcam_common_show address c str_0 str_1) st str_0 str_0.
Proof.
  intros Hok Hbit H11 H00 H01 H10.
  split; intros count; unfold webcam_common_store, webcam_common_show.
  - rewrite H11, H01.
    destruct (ec_check_bit_after_set address (webcam_bit (webcam c)) true st
                Hok Hbit) as [Hfst Hchk].
    destruct (ec_set_bit address (webcam_bit (webcam c)) true st) as [r st'].
    cbn [fst snd] in *. subst r. rewrite Hchk. split; reflexivity.
  - rewrite H10, H00.
    destruct (ec_check_bit_after_set address (webcam_bit (webcam c)) false st
                Hok Hbit) as [Hfst Hchk].
    destruct (ec_set_bit address (webcam_bit (webcam c)) false st) as [r st'].
    cbn [fst snd] in *. subst r. rewrite Hchk. split; reflexivity.
Qed.

Lemma cooler_boost_reads_back (c : msi_ec_conf) (st : ec) (uninit : bool) :
  transport_ok st (cooler_boost_address (cooler_boost c)) ->
  u8 (cooler_boost_bit (cooler_boost c)) < 8 ->
  store_then_show (cooler_boost_store c) (cooler_boost_show uninit c) st
    "on" "on"
  /\ store_then_show (cooler_boost_store c) (cooler_boost_show uninit c) st
       "off" "off".
Proof.
  intros Hok Hbit.
  split; intros count; unfold cooler_boost_store, cooler_boost_show.
  - change (streq "on" "on") with true. cbv iota.
    destruct (ec_check_bit_after_set _ _ true st Hok Hbit) as [Hfst Hchk].
    destruct (ec_set_bit (cooler_boost_address (cooler_boost c))
                (cooler_boost_bit (cooler_boost c)) true st) as [r st'].
    cbn [fst snd] in *. subst r. rewrite Hchk. split; reflexivity.
  - change (streq "off" "on") with false.
    change (streq "off" "off") with true. cbv iota.
    destruct (ec_check_bit_after_set _ _ false st Hok Hbit) as [Hfst Hchk].
    destruct (ec_set_bit (cooler_boost_address (cooler_boost c))
                (cooler_boost_bit (cooler_boost c)) false st) as [r st'].
    cbn [fst snd] in *. subst r. rewrite Hchk. split; reflexivity.
Qed.

(** Both key attributes after a store through either of them: [fn] tells
    whether the bit was set for "fn key on the right". *)
Lemma key_store_views (c : msi_ec_conf) (st : ec) (fn : bool)
    (u1 u2 : bool) (count : Z) :
  transport_ok st (fn_win_swap_address (fn_win_swap c)) ->
  u8 (fn_win_swap_bit (fn_win_swap c)) < 8 ->
  let r := ec_set_bit (fn_win_swap_address (fn_win_swap c))
             (fn_win_swap_bit (fn_win_swap c))
             (xorb fn (invert (fn_win_swap c))) st in
  return_count (fst r) count = Ok count
  /\ fn_key_show u1 c (snd r)
     = Ok (emit_s (if fn then "right" else "left"))
  /\ win_key_show u2 c (snd r)
     = Ok (emit_s (if fn then "left" else "right")).
Proof.
  intros Hok Hbit r.
  destruct (ec_check_bit_after_set _ _ (xorb fn (invert (fn_win_swap c))) st
              Hok Hbit) as [Hfst Hchk].
  fold r in Hfst, Hchk. rewrite Hfst. split; [reflexivity|].
  unfold fn_key_show, win_key_show. rewrite Hchk. cbn [output_or].
  destruct fn, (invert (fn_win_swap c)); split; reflexivity.
Qed.

(** C7.  Where the transport works at the feature's address and the bit
    number is below 8, each of the attributes webcam, webcam_block,
    cooler_boost, fn_key and win_key shows the value that has just been
    stored through it, whatever [invert] is; after a store through fn_key
    or win_key the other attribute shows the opposite side; and whenever
    the bit can be read the two key attributes show opposite sides. *)
Theorem bit_feature_roundtrip (c : msi_ec_conf) (st : ec) :
  (transport_ok st (webcam_address (webcam c)) ->
   u8 (webcam_bit (webcam c)) < 8 ->
   store_then_show (webcam_store c) (webcam_show c) st "on" "on"
   /\ store_then_show (webcam_store c) (webcam_show c) st "off" "off")
  /\ (transport_ok st (block_address (webcam c)) ->
      u8 (webcam_bit (webcam c)) < 8 ->
      store_then_show (webcam_block_store c) (webcam_block_show c) st
        "on" "on"
      /\ store_then_show (webcam_block_store c) (webcam_block_show c) st
           "off" "off")
  /\ (transport_ok st (cooler_boost_address (cooler_boost c)) ->
      u8 (cooler_boost_bit (cooler_boost c)) < 8 ->
      forall u,
        store_then_show (cooler_boost_store c) (cooler_boost_show u c) st
          "on" "on"
        /\ store_then_show (cooler_boost_store c) (cooler_boost_show u c) st
             "off" "off")
  /\ (transport_ok st (fn_win_swap_address (fn_win_swap c)) ->
      u8 (fn_win_swap_bit (fn_win_swap c)) < 8 ->
      forall r u,
        store_then_show (fn_key_store r c) (fn_key_show u c) st
          "right" "right"
        /\ store_then_show (fn_key_store r c) (fn_key_show u c) st
             "left" "left"
        /\ store_then_show (fn_key_store r c) (win_key_show u c) st
             "right" "left"
        /\ store_then_show (fn_key_store r c) (win_key_show u c) st
             "left" "right"
        /\ store_then_show (win_key_store r c) (win_key_show u c) st
             "right" "right"
        /\ store_then_show (win_key_store r c) (win_key_show u c) st
             "left" "left"
        /\ store_then_show (win_key_store r c) (fn_key_show u c) st
             "right" "left"
        /\ store_then_show (win_key_store r c) (fn_key_show u c) st
             "left" "right")
  /\ (read_fault st (u8 (fn_win_swap_address (fn_win_swap c))) = None ->
      forall u u',
        (fn_key_show u c st = Ok (emit_s "right")
         <-> win_key_show u' c st = Ok (emit_s "left"))
        /\ (fn_key_show u c st = Ok (emit_s "left")
            <-> win_key_show u' c st = Ok (emit_s "right"))).
Proof.
  split; [|split; [|split; [|split]]].
  - intros Hok Hbit. unfold webcam_store, webcam_show.
    apply (webcam_common_reads_back (webcam_address (webcam c)) c st
             "off" "on" Hok Hbit); reflexivity.
  - intros Hok Hbit. unfold webcam_block_store, webcam_block_show.
    destruct (webcam_common_reads_back (block_address (webcam c)) c st
                "on" "off" Hok Hbit) as [Hoff Hon]; try reflexivity.
    split; assumption.
  - intros Hok Hbit u. apply cooler_boost_reads_back; assumption.
  - intros Hok Hbit r u.
    pose proof (fun fn count => key_store_views c st fn u u count Hok Hbit)
      as Hviews. cbv zeta in Hviews.
    repeat split;
      unfold fn_key_store, win_key_store;
      try change (streq "right" "right") with true;
      try change (streq "left" "right") with false;
      try change (streq "left" "left") with true; cbv iota;
      try (destruct (Hviews true count) as (H1 & H2 & H3);
           destruct (ec_set_bit (fn_win_swap_address (fn_win_swap c))
                       (fn_win_swap_bit (fn_win_swap c))
                       (xorb true (invert (fn_win_swap c))) st);
           cbn [fst snd] in *; assumption);
      try (destruct (Hviews false count) as (H1 & H2 & H3);
           destruct (ec_set_bit (fn_win_swap_address (fn_win_swap c))
                       (fn_win_swap_bit (fn_win_swap c))
                       (xorb false (invert (fn_win_swap c))) st);
           cbn [fst snd] in *; assumption).
  - intros Hr u u'. unfold fn_key_show, win_key_show, ec_check_bit.
    rewrite (ec_read_ok _ st Hr). cbn [output_or].
    destruct (xorb _ _); split; split; intros H;
      first [reflexivity | discriminate H].
Qed.

(** [CONF5] inverts the swap bit: storing "right" through fn_key is shown
    as "left" by win_key. *)
Lemma bit_feature_roundtrip_witness :
  store_then_show
    (fn_key_store Oops (CONF5 (hdr := sample_header)))
    (win_key_show false (CONF5 (hdr := sample_header)))
    (ec_image []) "right" "left".
Proof.
  apply (proj1 (proj2 (proj2 (proj2
           (bit_feature_roundtrip (CONF5 (hdr := sample_header))
              (ec_image []))))) ltac:(split; reflexivity)
           ltac:(reflexivity) Oops false).
Defined.

(** ** Shows that do not test the result of the read *)

Lemma ec_check_bit_error (addr bit : Z) (st : ec) (e : positive) :
  read_fault st (u8 addr) = Some e ->
  ec_check_bit addr bit st = Error (Z.pos e).
Proof.
  intros H. unfold ec_check_bit, ec_read. rewrite H. reflexivity.
Qed.

Lemma ec_check_by_mask_error (addr mask : Z) (st : ec) (e : positive) :
  read_fault st (u8 addr) = Some e ->
  ec_check_by_mask addr mask st = Error (Z.pos e).
Proof.
  intros H. unfold ec_check_by_mask, ec_read. rewrite H. reflexivity.
Qed.

(** When the read fails, [cooler_boost_show], [fn_key_show],
    [win_key_show] and [super_battery_show] still return text, chosen by
    what their local variable happened to hold. *)
Lemma unchecked_shows_emit_on_error (c : msi_ec_conf) (st : ec)
    (uninit : bool) (e : positive) :
  (read_fault st (u8 (cooler_boost_address (cooler_boost c))) = Some e ->
   cooler_boost_show uninit c st
   = Ok (emit_s (if uninit then "on" else "off")))
  /\ (read_fault st (u8 (fn_win_swap_address (fn_win_swap c))) = Some e ->
      fn_key_show uninit c st
      = Ok (emit_s (if xorb uninit (invert (fn_win_swap c))
                    then "right" else "left"))
      /\ win_key_show uninit c st
         = Ok (emit_s (if xorb uninit (invert (fn_win_swap c))
                       then "left" else "right")))
  /\ (read_fault st (u8 (super_battery_address (super_battery c))) = Some e ->
      super_battery_show uninit c st
      = Ok (emit_s (if uninit then "on" else "off"))).
Proof.
  split; [|split].
  - intros H. unfold cooler_boost_show.
    rewrite (ec_check_bit_error _ _ st e H). cbn [output_or].
    destruct uninit; reflexivity.
  - intros H. unfold fn_key_show, win_key_show.
    rewrite (ec_check_bit_error _ _ st e H). cbn [output_or].
    destruct (xorb uninit (invert (fn_win_swap c))); split; reflexivity.
  - intros H. unfold super_battery_show.
    rewrite (ec_check_by_mask_error _ _ st e H). cbn [output_or].
    destruct uninit; reflexivity.
Qed.

(** The shows that test the result hand the error on. *)
Lemma checked_shows_propagate (c : msi_ec_conf) (st : ec) (e : positive) :
  (read_fault st (u8 (webcam_address (webcam c))) = Some e ->
   webcam_show c st = Error (Z.pos e))
  /\ (read_fault st (u8 (block_address (webcam c))) = Some e ->
      webcam_block_show c st = Error (Z.pos e))
  /\ (read_fault st (u8 (charge_control_address (charge_control c))) = Some e
      -> battery_mode_show c st = Error (Z.pos e)
         /\ charge_control_start_threshold_show c st = Error (Z.pos e)
         /\ charge_control_end_threshold_show c st = Error (Z.pos e))
  /\ (read_fault st (u8 (shift_mode_address (shift_mode c))) = Some e ->
      shift_mode_show c st = Error (Z.pos e))
  /\ (read_fault st (u8 (fan_mode_address (fan_mode c))) = Some e ->
      fan_mode_show c st = Error (Z.pos e))
  /\ (read_fault st (u8 (cpu_rt_temp_address (cpu c))) = Some e ->
      cpu_realtime_temperature_show c st = Error (Z.pos e))
  /\ (read_fault st (u8 (cpu_rt_fan_speed_address (cpu c))) = Some e ->
      cpu_realtime_fan_speed_show c st = Error (Z.pos e))
  /\ (read_fault st (u8 (bs_fan_speed_address (cpu c))) = Some e ->
      cpu_basic_fan_speed_show c st = Error (Z.pos e))
  /\ (read_fault st (u8 (gpu_rt_temp_address (gpu c))) = Some e ->
      gpu_realtime_temperature_show c st = Error (Z.pos e))
  /\ (read_fault st (u8 (gpu_rt_fan_speed_address (gpu c))) = Some e ->
      gpu_realtime_fan_speed_show c st = Error (Z.pos e)).
Proof.
  repeat split; intros;
    unfold webcam_show, webcam_block_show, webcam_common_show, ec_check_bit,
      battery_mode_show, charge_control_start_threshold_show,
      charge_control_end_threshold_show, charge_control_threshold_show,
      shift_mode_show, fan_mode_show, cpu_realtime_temperature_show,
      cpu_realtime_fan_speed_show, cpu_basic_fan_speed_show,
      gpu_realtime_temperature_show, gpu_realtime_fan_speed_show, ec_read;
    match goal with
    | H : read_fault _ _ = Some _ |- _ => rewrite H
    end; reflexivity.
Qed.

(** C8 on [CONF2], with reads of the cooler-boost register 0x98, of the
    key-swap register 0xe8 or of the super-battery register 0xeb failing
    with [-EIO]: the four shows return text instead of the error. *)
Theorem unchecked_shows_ignore_read_error :
  let c := CONF2 in
  (ec_read (cooler_boost_address (cooler_boost c))
     (ec_read_failing 0x98 []) = Error EIO
   /\ cooler_boost_show true c (ec_read_failing 0x98 []) = Ok (emit_s "on")
   /\ cooler_boost_show false c (ec_read_failing 0x98 [])
      = Ok (emit_s "off"))
  /\ (ec_read (fn_win_swap_address (fn_win_swap c))
        (ec_read_failing 0xe8 []) = Error EIO
      /\ fn_key_show true c (ec_read_failing 0xe8 []) = Ok (emit_s "right")
      /\ win_key_show true c (ec_read_failing 0xe8 []) = Ok (emit_s "left"))
  /\ (ec_read (super_battery_address (super_battery c))
        (ec_read_failing 0xeb []) = Error EIO
      /\ super_battery_show true c (ec_read_failing 0xeb [])
         = Ok (emit_s "on")).
Proof.
  vm_compute. repeat split.
Qed.

(** ** Concurrent [ec_set_bit] *)

Lemma testbit_u8 (z k : Z) :
  0 <= k < 8 -> Z.testbit (u8 z) k = Z.testbit z k.
Proof.
  intros Hk. unfold u8. change 256 with (2 ^ 8).
  apply Z.mod_pow2_bits_low. lia.
Qed.

(** The two modifications touch the bit they name and no other. *)
Lemma testbit_modified (v b k : Z) (value : bool) :
  0 <= v < 256 -> 0 <= b < 8 -> 0 <= k < 8 ->
  Z.testbit (u8 (if value then set_bit v b else unset_bit v b)) k
  = if k =? b then value else Z.testbit v k.
Proof.
  intros Hv Hb Hk.
  assert (H : forallb (fun v =>
                forallb (fun b =>
                  forallb (fun k =>
                    Bool.eqb (Z.testbit (u8 (set_bit v b)) k)
                      (if k =? b then true else Z.testbit v k)
                    && Bool.eqb (Z.testbit (u8 (unset_bit v b)) k)
                         (if k =? b then false else Z.testbit v k))
                    (below 8)) (below 8)) (below 256) = true)
    by (vm_compute; reflexivity).
  pose proof (forallb_below _ _
                (forallb_below _ _ (forallb_below _ _ H v ltac:(lia)) b
                   ltac:(lia)) k ltac:(lia)) as Hvbk.
  cbv beta in Hvbk. apply andb_true_iff in Hvbk. destruct Hvbk as [Hs Hu].
  apply Bool.eqb_prop in Hs, Hu. destruct value; assumption.
Qed.

Lemma update_nth_middle {A : Type} (pre post : list A) (x y : A) :
  update_nth (List.length pre) y (pre ++ x :: post) = (pre ++ y :: post)%list.
Proof.
  induction pre as [|z pre IH]; cbn [List.length app update_nth].
  - reflexivity.
  - rewrite IH. reflexivity.
Qed.

(** A step rewrites one caller in place. *)
Lemma step_inversion (i : nat) (w w' : world) :
  step i w = Some w' ->
  exists pre c pc post pc' locked' st',
    threads w = (pre ++ (c, pc) :: post)%list
    /\ List.length pre = i
    /\ step_call c pc (ec_set_bit_mutex w) (hw w) = Some (pc', locked', st')
    /\ w' = {| ec_set_bit_mutex := locked';
               hw := st';
               threads := (pre ++ (c, pc') :: post)%list |}.
Proof.
  unfold step. destruct (nth_error (threads w) i) as [[c pc]|] eqn:Hnth;
    [|discriminate].
  destruct (step_call c pc (ec_set_bit_mutex w) (hw w))
    as [[[pc' locked'] st']|] eqn:Hcall; [|discriminate].
  intros [= <-].
  destruct (nth_error_split _ _ Hnth) as (pre & post & Hsplit & Hlen).
  exists pre, c, pc, post, pc', locked', st'.
  repeat split; try assumption.
  rewrite Hsplit, <- Hlen. rewrite update_nth_middle. reflexivity.
Qed.

Lemma step_middle (pre post : list (set_bit_call * set_bit_pc))
    (c : set_bit_call) (pc pc' : set_bit_pc) (locked locked' : bool)
    (st st' : ec) :
  step_call c pc locked st = Some (pc', locked', st') ->
  step (List.length pre)
    {| ec_set_bit_mutex := locked; hw := st;
       threads := (pre ++ (c, pc) :: post)%list |}
  = Some {| ec_set_bit_mutex := locked'; hw := st';
            threads := (pre ++ (c, pc') :: post)%list |}.
Proof.
  intros Hcall. unfold step. cbn [threads ec_set_bit_mutex hw].
  rewrite nth_error_app2 by lia. rewrite Nat.sub_diag. cbn [nth_error].
  rewrite Hcall. rewrite update_nth_middle. reflexivity.
Qed.

Lemma cs_count_middle (pre post : list (set_bit_call * set_bit_pc))
    (c : set_bit_call) (pc : set_bit_pc) :
  cs_count (pre ++ (c, pc) :: post)
  = (cs_count (pre ++ post) + if in_cs pc then 1 else 0)%nat.
Proof.
  unfold cs_count. rewrite !filter_app. cbn [filter snd].
  rewrite !length_app. destruct (in_cs pc); cbn [List.length]; lia.
Qed.

Lemma cs_count_zero (l : list (set_bit_call * set_bit_pc))
    (c : set_bit_call) (pc : set_bit_pc) :
  cs_count l = 0%nat -> In (c, pc) l -> in_cs pc = false.
Proof.
  unfold cs_count. intros Hzero Hin.
  destruct (in_cs pc) eqn:Hcs; [|reflexivity].
  assert (Hf : In (c, pc) (filter (fun t => in_cs (snd t)) l))
    by (apply filter_In; split; assumption).
  destruct (filter (fun t => in_cs (snd t)) l); [destruct Hf | discriminate].
Qed.

Lemma In_middle {A : Type} (pre post : list A) (x y z : A) :
  In z (pre ++ y :: post) -> z = y \/ In z (pre ++ x :: post).
Proof.
  intros Hin. apply in_app_or in Hin. destruct Hin as [Hin|[Hin|Hin]].
  - right. apply in_or_app. left. exact Hin.
  - left. symmetry. exact Hin.
  - right. apply in_or_app. right. right. exact Hin.
Qed.

Lemma In_others {A : Type} (pre post : list A) (x z : A) :
  In z (pre ++ x :: post) -> z = x \/ In z (pre ++ post).
Proof.
  intros Hin. apply in_app_or in Hin. destruct Hin as [Hin|[Hin|Hin]].
  - right. apply in_or_app. left. exact Hin.
  - left. symmetry. exact Hin.
  - right. apply in_or_app. right. exact Hin.
Qed.

Lemma others_In {A : Type} (pre post : list A) (x z : A) :
  In z (pre ++ post) -> In z (pre ++ x :: post).
Proof.
  intros Hin. apply in_app_or in Hin. apply in_or_app.
  destruct Hin; [left | right; right]; assumption.
Qed.

Section NoLostUpdate.

Variable st : ec.
Variable calls : list set_bit_call.
Variable addr : Z.

Hypothesis same_address :
  forall c, In c calls -> u8 (call_addr c) = u8 addr.
Hypothesis bits_in_byte : forall c, In c calls -> u8 (call_bit c) < 8.
Hypothesis distinct_bits : NoDup (map (fun c => u8 (call_bit c)) calls).
Hypothesis transport : transport_ok st addr.

Lemma inv_spawn : set_bit_inv st calls addr (spawn st calls).
Proof.
  assert (Hpc : forall c pc,
             In (c, pc) (map (fun c => (c, at_lock)) calls) -> pc = at_lock).
  { intros c pc Hin. apply in_map_iff in Hin.
    destruct Hin as (c' & [= _ <-] & _). reflexivity. }
  constructor; cbn [spawn threads hw ec_set_bit_mutex].
  - rewrite map_map. cbn [fst]. apply map_id.
  - reflexivity.
  - reflexivity.
  - unfold cs_count. clear Hpc.
    induction calls as [|c rest IH]; [reflexivity|].
    cbn [map filter snd in_cs]. apply IH.
    + intros c' Hc'. apply same_address. right. exact Hc'.
    + intros c' Hc'. apply bits_in_byte. right. exact Hc'.
    + cbn [map] in distinct_bits. inversion distinct_bits. assumption.
  - intros c stored Hin. apply Hpc in Hin. discriminate Hin.
  - intros c pc Hin Hwrote. apply Hpc in Hin. subst pc. discriminate Hwrote.
  - intros k Hk _. reflexivity.
Qed.

Lemma member_call (pre post : list (set_bit_call * set_bit_pc))
    (c : set_bit_call) (pc : set_bit_pc) :
  map fst (pre ++ (c, pc) :: post) = calls -> In c calls.
Proof.
  intros <-. rewrite map_app. apply in_or_app. right. left. reflexivity.
Qed.

Lemma other_bits (pre post : list (set_bit_call * set_bit_pc))
    (c c' : set_bit_call) (pc pc' : set_bit_pc) :
  map fst (pre ++ (c, pc) :: post) = calls ->
  In (c', pc') (pre ++ post) ->
  u8 (call_bit c') <> u8 (call_bit c).
Proof.
  intros Hcalls Hin Heq. pose proof distinct_bits as Hnodup.
  rewrite <- Hcalls in Hnodup. rewrite !map_app in Hnodup.
  cbn [map fst] in Hnodup. apply NoDup_remove_2 in Hnodup. apply Hnodup.
  rewrite <- Heq. rewrite <- !map_app.
  apply (in_map (fun c => u8 (call_bit c))).
  apply (in_map fst) in Hin. exact Hin.
Qed.

(** A step that leaves the register file alone and does not take the
    caller across its write keeps the invariant. *)
Lemma inv_quiet_step (pre post : list (set_bit_call * set_bit_pc))
    (c : set_bit_call) (pc pc' : set_bit_pc) (locked locked' : bool)
    (h : ec) :
  set_bit_inv st calls addr
    {| ec_set_bit_mutex := locked; hw := h;
       threads := (pre ++ (c, pc) :: post)%list |} ->
  wrote pc' = wrote pc ->
  ((if in_cs pc' then 1 else 0) + (if locked then 1 else 0)
   = (if in_cs pc then 1 else 0) + (if locked' then 1 else 0))%nat ->
  (forall stored, pc' = at_write stored -> stored = byte_at h addr) ->
  (forall r, pc' = returned r -> pc = at_unlock r) ->
  (forall r, pc' = at_unlock r -> pc = at_unlock r) ->
  set_bit_inv st calls addr
    {| ec_set_bit_mutex := locked'; hw := h;
       threads := (pre ++ (c, pc') :: post)%list |}.
Proof.
  intros [Hcalls Hrf Hwf Hmutex Hstored Hwrote Hother] Hw Hcount Hs Hr Hu.
  cbn [threads hw ec_set_bit_mutex] in *.
  constructor; cbn [threads hw ec_set_bit_mutex].
  - rewrite <- Hcalls. rewrite !map_app. reflexivity.
  - exact Hrf.
  - exact Hwf.
  - rewrite cs_count_middle in *. lia.
  - intros c0 stored Hin.
    destruct (In_middle pre post (c, pc) _ _ Hin) as [[= -> Hpc]|Hold].
    + apply Hs. symmetry. exact Hpc.
    + apply (Hstored c0). exact Hold.
  - intros c0 pc0 Hin Hwr.
    destruct (In_middle pre post (c, pc) _ _ Hin) as [[= -> ->]|Hold].
    + assert (Hin' : In (c, pc) (pre ++ (c, pc) :: post))
        by (apply in_or_app; right; left; reflexivity).
      rewrite Hw in Hwr. specialize (Hwrote c pc Hin' Hwr).
      destruct Hwrote as [Hres Hbit]. split; [|exact Hbit].
      destruct pc'; try discriminate Hw;
        try (rewrite <- Hw in Hwr; discriminate Hwr).
      * rewrite (Hu r eq_refl) in Hres. left.
        destruct Hres as [Hres|Hres]; [exact Hres | discriminate Hres].
      * rewrite (Hr r eq_refl) in Hres. right.
        destruct Hres as [[= ->]|Hres]; [reflexivity | discriminate Hres].
    + apply (Hwrote c0 pc0 Hold Hwr).
  - intros k Hk Hcond. apply (Hother k Hk). intros c0 pc0 Hin Hbit.
    destruct (In_middle pre post (c, pc') _ _ Hin) as [[= -> ->]|Hnew].
    + rewrite <- Hw. apply (Hcond c pc'); [|exact Hbit].
      apply in_or_app. right. left. reflexivity.
    + apply (Hcond c0 pc0 Hnew Hbit).
Qed.

(** The write of the caller that holds the mutex keeps the invariant. *)
Lemma inv_write_step (pre post : list (set_bit_call * set_bit_pc))
    (c : set_bit_call) (stored : Z) (locked : bool) (h : ec) :
  set_bit_inv st calls addr
    {| ec_set_bit_mutex := locked; hw := h;
       threads := (pre ++ (c, at_write stored) :: post)%list |} ->
  let wdata := if call_value c then set_bit stored (u8 (call_bit c))
               else unset_bit stored (u8 (call_bit c)) in
  fst (ec_write (call_addr c) wdata h) = Ok tt
  /\ set_bit_inv st calls addr
       {| ec_set_bit_mutex := locked;
          hw := snd (ec_write (call_addr c) wdata h);
          threads := (pre ++ (c, at_unlock (Ok tt)) :: post)%list |}.
Proof.
  intros [Hcalls Hrf Hwf Hmutex Hstored Hwrote Hother] wdata.
  cbn [threads hw ec_set_bit_mutex] in *.
  pose proof (member_call _ _ _ _ Hcalls) as Hc.
  pose proof (same_address c Hc) as Haddr.
  pose proof (bits_in_byte c Hc) as Hbit.
  pose proof (u8_range (call_bit c)) as Hbit0.
  destruct transport as [Htr Htw].
  assert (Hwfc : write_fault h (u8 (call_addr c)) = None)
    by (rewrite Hwf, Haddr; exact Htw).
  destruct (ec_write_ok (call_addr c) wdata h Hwfc)
    as (Hfst & Hregs & Hrf' & Hwf' & _).
  split; [exact Hfst|].
  assert (Hcur : stored = byte_at h addr).
  { apply (Hstored c). apply in_or_app. right. left. reflexivity. }
  assert (Hnew : byte_at (snd (ec_write (call_addr c) wdata h)) addr
                 = u8 wdata).
  { unfold byte_at. rewrite <- Haddr, Hregs. apply u8_idem. }
  assert (Hbits : forall k, 0 <= k < 8 ->
             Z.testbit (u8 wdata) k
             = if k =? u8 (call_bit c) then call_value c
               else Z.testbit (byte_at h addr) k).
  { intros k Hk. subst wdata. rewrite <- Hcur.
    apply testbit_modified; [|lia|exact Hk].
    rewrite Hcur. apply u8_range. }
  assert (Halone : forall c0 pc0, In (c0, pc0) (pre ++ post) ->
             in_cs pc0 = false).
  { intros c0 pc0 Hin. apply (cs_count_zero (pre ++ post) c0 pc0);
      [|exact Hin].
    rewrite cs_count_middle in Hmutex. cbn [in_cs] in Hmutex.
    destruct locked; lia. }
  constructor; cbn [threads hw ec_set_bit_mutex].
  - rewrite <- Hcalls. rewrite !map_app. reflexivity.
  - rewrite Hrf'. exact Hrf.
  - rewrite Hwf'. exact Hwf.
  - rewrite cs_count_middle in *. exact Hmutex.
  - intros c0 s0 Hin.
    destruct (In_others _ _ _ _ Hin) as [Heq|Hin'].
    + discriminate Heq.
    + apply Halone in Hin'. discriminate Hin'.
  - intros c0 pc0 Hin Hwr. rewrite Hnew.
    destruct (In_others _ _ _ _ Hin) as [[= -> ->]|Hin'].
    + split; [left; reflexivity|].
      rewrite Hbits by lia. rewrite Z.eqb_refl. reflexivity.
    + destruct (Hwrote c0 pc0 (others_In _ _ _ _ Hin') Hwr) as [Hres Hb].
      split; [exact Hres|].
      pose proof (other_bits _ _ _ _ _ _ Hcalls Hin') as Hne.
      assert (Hc0 : In c0 calls).
      { rewrite <- Hcalls. apply (in_map fst) in Hin'.
        rewrite map_app in *. apply in_app_or in Hin'. apply in_or_app.
        destruct Hin'; [left | right; right]; assumption. }
      pose proof (bits_in_byte c0 Hc0) as Hlt.
      pose proof (u8_range (call_bit c0)) as Hge.
      rewrite Hbits by lia.
      replace (u8 (call_bit c0) =? u8 (call_bit c)) with false
        by (symmetry; apply Z.eqb_neq; exact Hne).
      exact Hb.
  - intros k Hk Hcond. rewrite Hnew.
    assert (Hk' : u8 (call_bit c) <> k).
    { intros Heq.
      assert (Hf : wrote (at_unlock (Ok tt)) = false).
      { apply (Hcond c); [|exact Heq].
        apply in_or_app. right. left. reflexivity. }
      discriminate Hf. }
    rewrite Hbits by exact Hk.
    replace (k =? u8 (call_bit c)) with false
      by (symmetry; apply Z.eqb_neq; congruence).
    apply (Hother k Hk). intros c0 pc0 Hin Hb.
    destruct (In_others _ _ _ _ Hin) as [[= -> ->]|Hin'].
    + reflexivity.
    + apply (Hcond c0 pc0); [|exact Hb]. apply others_In. exact Hin'.
Qed.

Lemma inv_step (i : nat) (w w' : world) :
  set_bit_inv st calls addr w -> step i w = Some w' ->
  set_bit_inv st calls addr w'.
Proof.
  intros Hinv Hstep.
  destruct (step_inversion i w w' Hstep)
    as (pre & c & pc & post & pc' & locked' & st' & Hth & _ & Hcall & ->).
  destruct w as [locked h ths]. cbn [threads hw ec_set_bit_mutex] in *.
  subst ths.
  pose proof (member_call _ _ _ _ (inv_calls _ _ _ _ Hinv)) as Hc.
  pose proof (same_address c Hc) as Haddr.
  destruct transport as [Htr Htw].
  assert (Hread : ec_read (call_addr c) h = Ok (byte_at h addr)).
  { pose proof (inv_read_fault _ _ _ _ Hinv) as Hrf. cbn [hw] in Hrf.
    rewrite ec_read_ok.
    - unfold byte_at. rewrite Haddr. reflexivity.
    - rewrite Hrf, Haddr. exact Htr. }
  pose proof (inv_mutex _ _ _ _ Hinv) as Hmutex.
  cbn [threads ec_set_bit_mutex] in Hmutex.
  rewrite cs_count_middle in Hmutex.
  destruct pc as [| |stored|r|r]; cbn [step_call] in Hcall.
  - destruct locked; injection Hcall as <- <- <-; [exact Hinv|].
    apply (inv_quiet_step pre post c at_lock at_read false true h Hinv);
      try reflexivity; intros; discriminate.
  - rewrite Hread in Hcall. injection Hcall as <- <- <-.
    apply (inv_quiet_step pre post c at_read _ locked locked h Hinv);
      try reflexivity; try (intros; discriminate).
    intros stored [= <-]. reflexivity.
  - destruct (inv_write_step pre post c stored locked h Hinv) as [Hfst Hnew].
    cbv zeta in Hfst, Hnew.
    destruct (ec_write (call_addr c)
                (if call_value c then set_bit stored (u8 (call_bit c))
                 else unset_bit stored (u8 (call_bit c))) h) as [r h'].
    cbn [fst snd] in *. injection Hcall as <- <- <-. subst r. exact Hnew.
  - injection Hcall as <- <- <-. cbn [in_cs] in Hmutex.
    apply (inv_quiet_step pre post c (at_unlock r) (returned r) locked false
             h Hinv); try reflexivity; try (intros; discriminate).
    + cbn [in_cs]. destruct locked; lia.
    + intros r' [= <-]. reflexivity.
  - discriminate.
Qed.

Lemma inv_run (schedule : list nat) :
  forall w w',
    set_bit_inv st calls addr w -> run schedule w = Some w' ->
    set_bit_inv st calls addr w'.
Proof.
  induction schedule as [|i rest IH]; intros w w' Hinv Hrun;
    cbn [run] in Hrun.
  - injection Hrun as <-. exact Hinv.
  - destruct (step i w) as [w1|] eqn:Hstep; [|discriminate].
    apply (IH w1 w' (inv_step i w w1 Hinv Hstep) Hrun).
Qed.

Lemma all_returned_pc (w : world) (c : set_bit_call) (pc : set_bit_pc) :
  all_returned w = true -> In (c, pc) (threads w) -> exists r, pc = returned r.
Proof.
  unfold all_returned. rewrite forallb_forall. intros Hall Hin.
  specialize (Hall (c, pc) Hin). unfold has_returned in Hall. cbn [snd] in Hall.
  destruct pc; try discriminate Hall. eexists. reflexivity.
Qed.

(** C9.  Callers of [ec_set_bit] on one address, each with a bit of its
    own, the transport working: whatever the order in which they take
    their steps, once all have returned each has returned 0 and the
    register holds, bit by bit, the value given by the caller of that bit,
    and its initial value where no caller names the bit. *)
Theorem ec_set_bit_no_lost_update (schedule : list nat) (w : world) :
  run schedule (spawn st calls) = Some w ->
  all_returned w = true ->
  (forall c pc, In (c, pc) (threads w) -> pc = returned (Ok tt))
  /\ exists v,
       ec_read addr (hw w) = Ok v
       /\ forall k, 0 <= k < 8 ->
            Z.testbit v k
            = match intended calls k with
              | Some value => value
              | None => Z.testbit (byte_at st addr) k
              end.
Proof.
  intros Hrun Hall.
  pose proof (inv_run schedule _ _ inv_spawn Hrun) as Hinv.
  destruct Hinv as [Hcalls Hrf Hwf _ _ Hwrote Hother].
  assert (Hdone : forall c pc, In (c, pc) (threads w) ->
             pc = returned (Ok tt)
             /\ Z.testbit (byte_at (hw w) addr) (u8 (call_bit c))
                = call_value c).
  { intros c pc Hin. destruct (all_returned_pc w c pc Hall Hin) as [r ->].
    destruct (Hwrote c (returned r) Hin eq_refl) as [[Hres|Hres] Hbit];
      [discriminate Hres|]. split; assumption. }
  split; [intros c pc Hin; apply (Hdone c pc Hin)|].
  exists (byte_at (hw w) addr). split.
  - destruct transport as [Htr _]. rewrite ec_read_ok; [reflexivity|].
    rewrite Hrf. exact Htr.
  - intros k Hk. unfold intended.
    destruct (find (fun c => u8 (call_bit c) =? k) calls) as [c|] eqn:Hfind;
      cbn [option_map].
    + apply find_some in Hfind. destruct Hfind as [Hc Hbit].
      apply Z.eqb_eq in Hbit. rewrite <- Hcalls in Hc.
      apply in_map_iff in Hc. destruct Hc as ([c' pc] & Hfst & Hin).
      cbn [fst] in Hfst. subst c'. rewrite <- Hbit.
      apply (Hdone c pc Hin).
    + apply (Hother k Hk). intros c pc Hin Hbit. exfalso.
      assert (Hc : In c calls).
      { rewrite <- Hcalls. apply (in_map fst) in Hin. exact Hin. }
      pose proof (find_none _ _ Hfind c Hc) as Hne. cbv beta in Hne.
      apply Z.eqb_neq in Hne. contradiction.
Qed.

Lemma cs_count_positive (l : list (set_bit_call * set_bit_pc)) :
  cs_count l <> 0%nat ->
  exists pre c pc post,
    l = (pre ++ (c, pc) :: post)%list /\ in_cs pc = true.
Proof.
  unfold cs_count. intros Hpos.
  destruct (filter (fun t => in_cs (snd t)) l) as [|[c pc] rest] eqn:Hf;
    [contradiction|].
  assert (Hin : In (c, pc) (filter (fun t => in_cs (snd t)) l))
    by (rewrite Hf; left; reflexivity).
  apply filter_In in Hin. destruct Hin as [Hin Hcs].
  destruct (in_split _ _ Hin) as (pre & post & ->).
  exists pre, c, pc, post. split; [reflexivity | exact Hcs].
Qed.

Lemma not_all_returned (l : list (set_bit_call * set_bit_pc)) :
  forallb has_returned l = false ->
  exists pre c pc post,
    l = (pre ++ (c, pc) :: post)%list /\ has_returned (c, pc) = false.
Proof.
  induction l as [|[c pc] rest IH]; cbn [forallb]; intros H;
    [discriminate|].
  destruct (has_returned (c, pc)) eqn:Hret.
  - destruct (IH H) as (pre & c' & pc' & post & -> & Hret').
    exists ((c, pc) :: pre), c', pc', post. split; [reflexivity | exact Hret'].
  - exists [], c, pc, rest. split; [reflexivity | exact Hret].
Qed.

Lemma step_call_work (c : set_bit_call) (pc pc' : set_bit_pc)
    (locked locked' : bool) (h h' : ec) :
  step_call c pc locked h = Some (pc', locked', h') ->
  (pc = at_lock -> locked = false) ->
  (steps_left pc' < steps_left pc)%nat.
Proof.
  destruct pc; cbn [step_call]; intros H Hfree.
  - rewrite (Hfree eq_refl) in H. injection H as <- _ _. cbn. lia.
  - destruct (ec_read (call_addr c) h); injection H as <- _ _; cbn; lia.
  - destruct (ec_write _ _ h). injection H as <- _ _. cbn. lia.
  - injection H as <- _ _. cbn. lia.
  - discriminate.
Qed.

Lemma work_left_middle (pre post : list (set_bit_call * set_bit_pc))
    (c : set_bit_call) (pc : set_bit_pc) :
  work_left (pre ++ (c, pc) :: post)
  = (work_left (pre ++ post) + steps_left pc)%nat.
Proof.
  unfold work_left. rewrite !map_app, !list_sum_app. simpl. lia.
Qed.

(** No deadlock: while a caller has not returned, some caller can move,
    and every move uses up work. *)
Lemma set_bit_progress (w : world) :
  set_bit_inv st calls addr w -> all_returned w = false ->
  exists i w',
    step i w = Some w'
    /\ (work_left (threads w') < work_left (threads w))%nat.
Proof.
  intros Hinv Hnot. destruct w as [locked h ths].
  pose proof (inv_mutex _ _ _ _ Hinv) as Hmutex.
  unfold all_returned in Hnot. cbn [threads ec_set_bit_mutex] in *.
  assert (Hmove : exists pre c pc post pc' locked' h',
             ths = (pre ++ (c, pc) :: post)%list
             /\ step_call c pc locked h = Some (pc', locked', h')
             /\ (pc = at_lock -> locked = false)).
  { destruct locked.
    - destruct (cs_count_positive ths ltac:(lia))
        as (pre & c & pc & post & -> & Hcs).
      exists pre, c, pc, post.
      destruct pc; try discriminate Hcs; cbn [step_call].
      + destruct (ec_read (call_addr c) h); eexists _, _, _;
          (repeat split; intros Habs; discriminate Habs).
      + destruct (ec_write (call_addr c) _ h). eexists _, _, _.
        repeat split. intros Habs. discriminate Habs.
      + eexists _, _, _. repeat split. intros Habs. discriminate Habs.
    - destruct (not_all_returned ths Hnot)
        as (pre & c & pc & post & -> & Hret).
      exists pre, c, pc, post.
      assert (Hcs : in_cs pc = false).
      { apply (cs_count_zero _ c pc Hmutex).
        apply in_or_app. right. left. reflexivity. }
      destruct pc; try discriminate Hcs; try discriminate Hret.
      cbn [step_call]. eexists _, _, _. repeat split. }
  destruct Hmove
    as (pre & c & pc & post & pc' & locked' & h' & -> & Hcall & Hfree).
  exists (List.length pre). eexists. split.
  - apply step_middle. exact Hcall.
  - cbn [threads]. rewrite !work_left_middle.
    pose proof (step_call_work _ _ _ _ _ _ _ Hcall Hfree). lia.
Qed.

(** The callers can always be run to the end. *)
Lemma set_bit_completion (w : world) :
  set_bit_inv st calls addr w ->
  exists schedule w', run schedule w = Some w' /\ all_returned w' = true.
Proof.
  remember (work_left (threads w)) as n eqn:Hn. revert w Hn.
  induction n as [n IH] using lt_wf_ind. intros w Hn Hinv.
  destruct (all_returned w) eqn:Hall.
  - exists [], w. split; [reflexivity | exact Hall].
  - destruct (set_bit_progress w Hinv Hall) as (i & w1 & Hstep & Hless).
    destruct (IH (work_left (threads w1)) ltac:(lia) w1 eq_refl
                (inv_step i w w1 Hinv Hstep))
      as (schedule & w' & Hrun & Hall').
    exists (i :: schedule), w'. split; [|exact Hall'].
    cbn [run]. rewrite Hstep. exact Hrun.
Qed.

End NoLostUpdate.

(** Two callers on register 0x2c, which holds 0x04: one sets bit 1, the
    other clears bit 2.  The second is scheduled three times while the
    first holds the mutex. *)
Lemma ec_set_bit_no_lost_update_witness :
  let st := ec_image [(0x2c, 0x04)] in
  let calls := [{| call_addr := 0x2c; call_bit := 1; call_value := true |};
                {| call_addr := 0x2c; call_bit := 2; call_value := false |}] in
  exists w,
    run [0; 1; 0; 1; 0; 1; 0; 1; 1; 1; 1]%nat (spawn st calls) = Some w
    /\ all_returned w = true
    /\ (forall c pc, In (c, pc) (threads w) -> pc = returned (Ok tt))
    /\ exists v,
         ec_read 0x2c (hw w) = Ok v
         /\ forall k, 0 <= k < 8 ->
              Z.testbit v k
              = match intended calls k with
                | Some value => value
                | None => Z.testbit (byte_at st 0x2c) k
                end.
Proof.
  intros st calls. eexists. split; [vm_compute; reflexivity|].
  split; [reflexivity|].
  apply (ec_set_bit_no_lost_update st calls 0x2c
           ltac:(intros c [<-|[<-|[]]]; reflexivity)
           ltac:(intros c [<-|[<-|[]]]; reflexivity)
           ltac:(apply distinctb_NoDup; reflexivity)
           ltac:(split; reflexivity)
           [0; 1; 0; 1; 0; 1; 0; 1; 1; 1; 1]%nat).
  - vm_compute. reflexivity.
  - reflexivity.
Defined.

(** A caller that runs alone does what [ec_set_bit] does, in four steps,
    or in three when the read fails. *)
Lemma run_alone (c : set_bit_call) (st : ec) :
  run (if is_ok (ec_read (call_addr c) st) then [0; 0; 0; 0]
       else [0; 0; 0])%nat (spawn st [c])
  = Some {| ec_set_bit_mutex := false;
            hw := snd (ec_set_bit (call_addr c) (call_bit c) (call_value c)
                         st);
            threads :=
              [(c, returned (fst (ec_set_bit (call_addr c) (call_bit c)
                                    (call_value c) st)))] |}.
Proof.
  unfold ec_set_bit, spawn.
  destruct (ec_read (call_addr c) st) as [stored|e|] eqn:Hread;
    cbn -[ec_read ec_write set_bit unset_bit u8]; rewrite Hread;
    cbn -[ec_read ec_write set_bit unset_bit u8]; try reflexivity.
  destruct (ec_write (call_addr c)
              (if call_value c then set_bit stored (u8 (call_bit c))
               else unset_bit stored (u8 (call_bit c))) st) as [r st'].
  reflexivity.
Qed.

(** [CONF0], start threshold: 200 + 0x8a wraps to 82, below 0x8a, and the
    store is refused. *)
Lemma charge_control_threshold_store_wraps_witness :
  (200 + 0x8a mod 256) mod 256
  < range_min (charge_control (CONF0 (hdr := sample_header)))
  /\ charge_control_threshold_store 0x8a (CONF0 (hdr := sample_header))
       "200" 4 (ec_image [])
     = (Error EINVAL, ec_image []).
Proof.
  apply (proj1 (proj2 (proj2 (proj2
           (charge_control_threshold_store_wraps (hdr := sample_header)
              (CONF0 (hdr := sample_header)) 0x8a "200" 4 (ec_image []))
           200 eq_refl)))
           eq_refl (or_introl eq_refl) eq_refl).
Defined.

(** * Further properties *)

(** ** Sequential reads *)

Lemma ec_read_seq_ok (st : ec) (len : nat) :
  forall addr,
    (forall i, 0 <= i < Z.of_nat len ->
               read_fault st (u8 (addr + i)) = None) ->
    ec_read_seq addr len st = Ok (bytes_from st addr len).
Proof.
  induction len as [|n IH]; intros addr Hok; cbn [ec_read_seq bytes_from].
  - reflexivity.
  - rewrite ec_read_ok.
    + rewrite IH; [reflexivity|].
      intros i Hi. replace (addr + 1 + i) with (addr + (i + 1)) by lia.
      apply Hok. lia.
    + replace addr with (addr + 0) at 1 by lia. apply Hok. lia.
Qed.

Lemma ec_read_seq_first_fault (st : ec) (len : nat) :
  forall addr i e,
    0 <= i < Z.of_nat len ->
    (forall j, 0 <= j < i -> read_fault st (u8 (addr + j)) = None) ->
    read_fault st (u8 (addr + i)) = Some e ->
    ec_read_seq addr len st = Error (Z.pos e).
Proof.
  induction len as [|n IH]; intros addr i e Hi Hbefore Hfault;
    cbn [ec_read_seq].
  - lia.
  - destruct (Z.eq_dec i 0) as [->|Hne].
    + unfold ec_read. rewrite Z.add_0_r in Hfault. rewrite Hfault.
      reflexivity.
    + rewrite ec_read_ok.
      * rewrite (IH (addr + 1) (i - 1) e); [reflexivity|lia| |].
        -- intros j Hj. replace (addr + 1 + j) with (addr + (j + 1)) by lia.
           apply Hbefore. lia.
        -- replace (addr + 1 + (i - 1)) with (addr + i) by lia. exact Hfault.
      * replace addr with (addr + 0) at 1 by lia. apply Hbefore. lia.
Qed.

Lemma bytes_from_length (st : ec) (len : nat) :
  forall addr, List.length (bytes_from st addr len) = len.
Proof.
  induction len as [|n IH]; intros addr; cbn [bytes_from List.length].
  - reflexivity.
  - rewrite IH. reflexivity.
Qed.

Lemma bytes_from_nth (st : ec) (len : nat) :
  forall addr i,
    (i < len)%nat ->
    nth i (bytes_from st addr len) 0 = byte_at st (addr + Z.of_nat i).
Proof.
  induction len as [|n IH]; intros addr i Hi; [lia|].
  cbn [bytes_from]. destruct i as [|i]; cbn [nth].
  - rewrite Z.add_0_r. reflexivity.
  - rewrite IH by lia. f_equal. lia.
Qed.

(** X1.  [ec_read_seq] reads [len] consecutive addresses, wrapping at 256,
    in increasing order.  Where none of them faults it returns [len]
    bytes, the i-th being the register [addr + i]; otherwise it returns the
    error of the first address that faults. *)
Theorem ec_read_seq_result (addr : Z) (len : nat) (st : ec) :
  ((forall i, 0 <= i < Z.of_nat len ->
              read_fault st (u8 (addr + i)) = None) ->
   exists bytes,
     ec_read_seq addr len st = Ok bytes
     /\ List.length bytes = len
     /\ forall i, (i < len)%nat ->
          nth i bytes 0 = u8 (regs st (u8 (addr + Z.of_nat i))))
  /\ (forall i e,
      0 <= i < Z.of_nat len ->
      (forall j, 0 <= j < i -> read_fault st (u8 (addr + j)) = None) ->
      read_fault st (u8 (addr + i)) = Some e ->
      ec_read_seq addr len st = Error (Z.pos e)).
Proof.
  split.
  - intros Hok. exists (bytes_from st addr len).
    split; [apply ec_read_seq_ok; exact Hok|].
    split; [apply bytes_from_length|].
    intros i Hi. rewrite bytes_from_nth by exact Hi. reflexivity.
  - intros i e. apply ec_read_seq_first_fault.
Qed.

(** Three registers from 0xfe on: the third is register 0x00; with reads
    of 0xff failing the call returns [-EIO]. *)
Lemma ec_read_seq_result_witness :
  ec_read_seq 0xfe 3 (ec_read_failing 0xff [(0xfe, 1); (0x00, 3)])
  = Error EIO.
Proof.
  apply (proj2 (ec_read_seq_result 0xfe 3
                  (ec_read_failing 0xff [(0xfe, 1); (0x00, 3)]))
           1 5%positive ltac:(lia)).
  - intros j Hj. assert (j = 0) as -> by lia. reflexivity.
  - reflexivity.
Defined.

(** ** Resolution by firmware name *)

Lemma allow_lists_disjointb_later (l : list msi_ec_conf) :
  allow_lists_disjointb l = true ->
  forall l1 p l2 ver q,
    l = (l1 ++ p :: l2)%list ->
    In ver (allowed_fw p) -> In q l2 -> ~ In ver (allowed_fw q).
Proof.
  induction l as [|p0 rest IH]; intros Hdis l1 p l2 ver q Hsplit Hp Hq Hin.
  - destruct l1; discriminate Hsplit.
  - cbn [allow_lists_disjointb] in Hdis. apply andb_true_iff in Hdis.
    destruct Hdis as [Hhead Hrest].
    destruct l1 as [|p1 l1]; cbn [app] in Hsplit;
      injection Hsplit as -> ->.
    + rewrite forallb_forall in Hhead. specialize (Hhead ver Hp).
      rewrite forallb_forall in Hhead. specialize (Hhead q Hq).
      apply negb_true_iff in Hhead.
      assert (Hex : existsb (String.eqb ver) (allowed_fw q) = true).
      { apply existsb_exists. exists ver. split; [exact Hin|].
        apply String.eqb_refl. }
      congruence.
    + apply (IH Hrest l1 p l2 ver q eq_refl Hp Hq Hin).
Qed.

Section ResolverMore.

Context {hdr : ec_memory_configuration}.

Lemma catalog_allow_lists_disjoint :
  allow_lists_disjointb CONFIGURATIONS = true.
Proof. vm_compute. reflexivity. Qed.

(** The profiles declared before one that allows [ver] do not allow it. *)
Lemma catalog_earlier_do_not_allow (pre post : list msi_ec_conf)
    (p q : msi_ec_conf) (ver : string) :
  CONFIGURATIONS = (pre ++ p :: post)%list ->
  In ver (allowed_fw p) -> In q pre -> ~ In ver (allowed_fw q).
Proof.
  intros Hcat Hp Hq Hin.
  destruct (in_split _ _ Hq) as (a & b & ->).
  apply (allow_lists_disjointb_later _ catalog_allow_lists_disjoint
           a q (b ++ p :: post)%list ver p).
  - rewrite Hcat. rewrite <- app_assoc. reflexivity.
  - exact Hin.
  - apply in_or_app. right. left. reflexivity.
  - exact Hp.
Qed.

Lemma load_configuration_allowed (firmware : option string) (debug : bool)
    (st : ec) (drv : driver) (ver : string) (p : msi_ec_conf) :
  firmware_version firmware st = Ok ver ->
  In p CONFIGURATIONS ->
  In ver (allowed_fw p) ->
  load_configuration firmware debug st drv
  = (Ok tt, {| conf := copy_conf p; conf_loaded := true |}).
Proof.
  intros Hver Hp Hin.
  destruct (in_split _ _ Hp) as (pre & post & Hcat).
  unfold load_configuration. rewrite Hver, Hcat.
  apply load_configuration_from_first; [|exact Hin].
  intros q Hq.
  apply (catalog_earlier_do_not_allow pre post p q ver Hcat Hin Hq).
Qed.

(** X2.  A firmware name is in the allow-list of at most one profile of
    the catalog, and that profile is the one [load_configuration] loads,
    wherever it is declared: [conf_loaded] is set and every member of the
    active configuration is that of the profile, the allow-list apart,
    which is cleared.  The result does not depend on the order of
    [CONFIGURATIONS]. *)
Theorem load_configuration_by_name (firmware : option string) (debug : bool)
    (st : ec) (drv : driver) (ver : string) (p : msi_ec_conf) :
  firmware_version firmware st = Ok ver ->
  In p CONFIGURATIONS ->
  In ver (allowed_fw p) ->
  (let loaded := snd (load_configuration firmware debug st drv) in
   fst (load_configuration firmware debug st drv) = Ok tt
   /\ conf_loaded loaded = true
   /\ allowed_fw (conf loaded) = []
   /\ charge_control (conf loaded) = charge_control p
   /\ webcam (conf loaded) = webcam p
   /\ fn_win_swap (conf loaded) = fn_win_swap p
   /\ cooler_boost (conf loaded) = cooler_boost p
   /\ shift_mode (conf loaded) = shift_mode p
   /\ super_battery (conf loaded) = super_battery p
   /\ fan_mode (conf loaded) = fan_mode p
   /\ cpu (conf loaded) = cpu p
   /\ gpu (conf loaded) = gpu p
   /\ leds (conf loaded) = leds p
   /\ kbd_bl (conf loaded) = kbd_bl p)
  /\ forall q, In q CONFIGURATIONS -> In ver (allowed_fw q) -> q = p.
Proof.
  intros Hver Hp Hin.
  split;
    [cbv zeta; apply loaded_copy;
     apply (load_configuration_allowed _ _ _ _ ver p Hver Hp Hin)|].
  destruct (in_split _ _ Hp) as (pre & post & Hcat).
  intros q Hq Hqin. rewrite Hcat in Hq.
  apply in_app_or in Hq. destruct Hq as [Hq|[Hq|Hq]].
  - exfalso.
    apply (catalog_earlier_do_not_allow pre post p q ver Hcat Hin Hq Hqin).
  - symmetry. exact Hq.
  - exfalso.
    apply (allow_lists_disjointb_later _ catalog_allow_lists_disjoint
             pre p post ver q Hcat Hin Hq Hqin).
Qed.

(** X3.  With the [firmware] parameter set the EC is not read.  Without
    it, a failing read of one of the version registers makes
    [load_configuration] return that error and leave the driver as it was,
    with or without [debug]. *)
Theorem load_configuration_read_error (debug : bool) (st : ec)
    (drv : driver) :
  (forall ver st', load_configuration (Some ver) debug st drv
                   = load_configuration (Some ver) debug st' drv)
  /\ (forall i e,
      0 <= i < u8 MSI_EC_FW_VERSION_LENGTH ->
      (forall j, 0 <= j < i ->
                 read_fault st (u8 (MSI_EC_FW_VERSION_ADDRESS + j)) = None) ->
      read_fault st (u8 (MSI_EC_FW_VERSION_ADDRESS + i)) = Some e ->
      load_configuration None debug st drv = (Error (Z.pos e), drv)
      /\ fw_version_show st = Error (Z.pos e)).
Proof.
  split; [reflexivity|].
  intros i e Hi Hbefore Hfault.
  assert (Hseq : ec_get_firmware_version st = Error (Z.pos e)).
  { unfold ec_get_firmware_version.
    apply (ec_read_seq_first_fault st _ _ i e); [|exact Hbefore|exact Hfault].
    pose proof (u8_range MSI_EC_FW_VERSION_LENGTH). lia. }
  unfold load_configuration, fw_version_show, firmware_version.
  rewrite Hseq. split; reflexivity.
Qed.

End ResolverMore.

Lemma cstring_string_bytes (s : string) (k : nat) :
  forallb (fun b => negb (b =? 0)) (string_bytes s) = true ->
  cstring (string_bytes s ++ repeat 0 k) = s.
Proof.
  induction s as [|ch rest IH]; cbn [string_bytes app cstring forallb].
  - intros _. destruct k; reflexivity.
  - intros H. apply andb_true_iff in H. destruct H as [Hch Hrest].
    apply negb_true_iff in Hch. rewrite Hch.
    rewrite N2Z.id, ascii_N_embedding. rewrite (IH Hrest). reflexivity.
Qed.

Section ResolverFromEC.

Context {hdr : ec_memory_configuration}.

Lemma catalog_names_have_no_nul (p : msi_ec_conf) (ver : string) :
  In p CONFIGURATIONS -> In ver (allowed_fw p) ->
  forallb (fun b => negb (b =? 0)) (string_bytes ver) = true.
Proof.
  assert (H : forallb
                (fun p => forallb
                   (fun ver => forallb (fun b => negb (b =? 0))
                                 (string_bytes ver))
                   (allowed_fw p)) CONFIGURATIONS = true)
    by (vm_compute; reflexivity).
  intros Hp Hver. rewrite forallb_forall in H. specialize (H p Hp).
  rewrite forallb_forall in H. exact (H ver Hver).
Qed.

(** X4.  When the version registers can be read and hold a name of the
    allow-list of a catalog profile, padded with zero bytes, the
    [fw_version] attribute prints that name and [load_configuration]
    without the [firmware] parameter loads that profile: [conf_loaded] is
    set and every member of the active configuration is that of the
    profile, the allow-list apart, which is cleared. *)
Theorem load_configuration_from_registers (debug : bool) (st : ec)
    (drv : driver) (p : msi_ec_conf) (ver : string) (padding : nat) :
  In p CONFIGURATIONS ->
  In ver (allowed_fw p) ->
  (forall i, 0 <= i < u8 MSI_EC_FW_VERSION_LENGTH ->
             read_fault st (u8 (MSI_EC_FW_VERSION_ADDRESS + i)) = None) ->
  bytes_from st MSI_EC_FW_VERSION_ADDRESS
    (Z.to_nat (u8 MSI_EC_FW_VERSION_LENGTH))
  = (string_bytes ver ++ repeat 0 padding)%list ->
  fw_version_show st = Ok (emit_s ver)
  /\ (let loaded := snd (load_configuration None debug st drv) in
      fst (load_configuration None debug st drv) = Ok tt
      /\ conf_loaded loaded = true
      /\ allowed_fw (conf loaded) = []
      /\ charge_control (conf loaded) = charge_control p
      /\ webcam (conf loaded) = webcam p
      /\ fn_win_swap (conf loaded) = fn_win_swap p
      /\ cooler_boost (conf loaded) = cooler_boost p
      /\ shift_mode (conf loaded) = shift_mode p
      /\ super_battery (conf loaded) = super_battery p
      /\ fan_mode (conf loaded) = fan_mode p
      /\ cpu (conf loaded) = cpu p
      /\ gpu (conf loaded) = gpu p
      /\ leds (conf loaded) = leds p
      /\ kbd_bl (conf loaded) = kbd_bl p).
Proof.
  intros Hp Hver Hok Hbytes.
  assert (Hseq : ec_get_firmware_version st
                 = Ok (string_bytes ver ++ repeat 0 padding)%list).
  { unfold ec_get_firmware_version. rewrite ec_read_seq_ok.
    - rewrite Hbytes. reflexivity.
    - intros i Hi. apply Hok.
      pose proof (u8_range MSI_EC_FW_VERSION_LENGTH). lia. }
  assert (Hname : firmware_version None st = Ok ver).
  { unfold firmware_version. rewrite Hseq.
    rewrite (cstring_string_bytes ver padding
               (catalog_names_have_no_nul p ver Hp Hver)).
    reflexivity. }
  split.
  - unfold fw_version_show. rewrite Hseq.
    rewrite (cstring_string_bytes ver padding
               (catalog_names_have_no_nul p ver Hp Hver)).
    reflexivity.
  - cbv zeta. apply loaded_copy.
    apply (load_configuration_allowed None debug st drv ver p Hname Hp Hver).
Qed.

End ResolverFromEC.

(** The name 17F2EMS1.106 given as [firmware] parameter: the profile that
    lists it is loaded, whatever the EC holds. *)
Lemma load_configuration_by_name_witness :
  let loaded := snd (load_configuration (hdr := sample_header)
               (Some "17F2EMS1.106") false (ec_image []) driver_unloaded) in
  fst (load_configuration (hdr := sample_header)
               (Some "17F2EMS1.106") false (ec_image []) driver_unloaded) = Ok tt
  /\ conf_loaded loaded = true
  /\ allowed_fw (conf loaded) = []
  /\ charge_control (conf loaded) = charge_control (CONF1 (hdr := sample_header))
  /\ webcam (conf loaded) = webcam (CONF1 (hdr := sample_header))
  /\ fn_win_swap (conf loaded) = fn_win_swap (CONF1 (hdr := sample_header))
  /\ cooler_boost (conf loaded) = cooler_boost (CONF1 (hdr := sample_header))
  /\ shift_mode (conf loaded) = shift_mode (CONF1 (hdr := sample_header))
  /\ super_battery (conf loaded) = super_battery (CONF1 (hdr := sample_header))
  /\ fan_mode (conf loaded) = fan_mode (CONF1 (hdr := sample_header))
  /\ cpu (conf loaded) = cpu (CONF1 (hdr := sample_header))
  /\ gpu (conf loaded) = gpu (CONF1 (hdr := sample_header))
  /\ leds (conf loaded) = leds (CONF1 (hdr := sample_header))
  /\ kbd_bl (conf loaded) = kbd_bl (CONF1 (hdr := sample_header)).
Proof.
  apply (proj1 (load_configuration_by_name (hdr := sample_header)
                  (Some "17F2EMS1.106") false (ec_image []) driver_unloaded
                  "17F2EMS1.106" (CONF1 (hdr := sample_header)) eq_refl
                  ltac:(right; left; reflexivity)
                  ltac:(vm_compute; tauto))).
Defined.

(** Reads of the sixth version register 0xa5 fail: loading fails with
    [-EIO] even under [debug]. *)
Lemma load_configuration_read_error_witness :
  load_configuration (hdr := sample_header) None true
    (ec_read_failing 0xa5 (fw_image 0xa0 "17F2EMS1.106")) driver_unloaded
  = (Error EIO, driver_unloaded).
Proof.
  apply (proj2 (load_configuration_read_error (hdr := sample_header) true
                  (ec_read_failing 0xa5 (fw_image 0xa0 "17F2EMS1.106"))
                  driver_unloaded) 5 5%positive).
  - vm_compute. split; [discriminate | reflexivity].
  - intros j Hj.
    assert (Hcases : j = 0 \/ j = 1 \/ j = 2 \/ j = 3 \/ j = 4) by lia.
    destruct Hcases as [->|[->|[->|[->| ->]]]]; reflexivity.
  - reflexivity.
Defined.

(** The twelve registers from 0xa0 hold 17F2EMS1.106. *)
Lemma load_configuration_from_registers_witness :
  fw_version_show (hdr := sample_header)
    (ec_image (fw_image 0xa0 "17F2EMS1.106"))
  = Ok (emit_s "17F2EMS1.106")
  /\ (let loaded := snd (load_configuration (hdr := sample_header) None false
                    (ec_image (fw_image 0xa0 "17F2EMS1.106"))
                    driver_unloaded) in
      fst (load_configuration (hdr := sample_header) None false
                    (ec_image (fw_image 0xa0 "17F2EMS1.106"))
                    driver_unloaded) = Ok tt
      /\ conf_loaded loaded = true
      /\ allowed_fw (conf loaded) = []
      /\ charge_control (conf loaded) = charge_control (CONF1 (hdr := sample_header))
      /\ webcam (conf loaded) = webcam (CONF1 (hdr := sample_header))
      /\ fn_win_swap (conf loaded) = fn_win_swap (CONF1 (hdr := sample_header))
      /\ cooler_boost (conf loaded) = cooler_boost (CONF1 (hdr := sample_header))
      /\ shift_mode (conf loaded) = shift_mode (CONF1 (hdr := sample_header))
      /\ super_battery (conf loaded) = super_battery (CONF1 (hdr := sample_header))
      /\ fan_mode (conf loaded) = fan_mode (CONF1 (hdr := sample_header))
      /\ cpu (conf loaded) = cpu (CONF1 (hdr := sample_header))
      /\ gpu (conf loaded) = gpu (CONF1 (hdr := sample_header))
      /\ leds (conf loaded) = leds (CONF1 (hdr := sample_header))
      /\ kbd_bl (conf loaded) = kbd_bl (CONF1 (hdr := sample_header))).
Proof.
  apply (load_configuration_from_registers (hdr := sample_header) false
           (ec_image (fw_image 0xa0 "17F2EMS1.106")) driver_unloaded
           (CONF1 (hdr := sample_header)) "17F2EMS1.106" 0).
  - right. left. reflexivity.
  - vm_compute. tauto.
  - intros i Hi. reflexivity.
  - vm_compute. reflexivity.
Defined.

(** ** Mode tables: store, then show *)

Lemma sysfs_streq_refl (s : string) : sysfs_streq s s = true.
Proof.
  induction s as [|ch rest IH]; cbn [sysfs_streq]; [reflexivity|].
  rewrite Ascii.eqb_refl. exact IH.
Qed.

Lemma sysfs_streq_newline (s : string) : sysfs_streq s (s ++ newline) = true.
Proof.
  induction s as [|ch rest IH]; cbn [sysfs_streq append]; [reflexivity|].
  rewrite Ascii.eqb_refl. exact IH.
Qed.

(** The store writes the byte of the first row whose name matches. *)
Lemma mode_store_loop_first (address : Z) (modes : list msi_ec_mode)
    (pre post : list (string * Z)) (n : string) (v : Z) (buf : string)
    (count : Z) (st : ec) :
  table_rows modes = (pre ++ (n, v) :: post)%list ->
  (forall row, In row pre -> sysfs_streq (fst row) buf = false) ->
  sysfs_streq n buf = true ->
  mode_store_loop address modes buf count st
  = (return_count (fst (ec_write address v st)) count,
     snd (ec_write address v st)).
Proof.
  revert pre. induction modes as [|m rest IH];
    cbn [mode_store_loop table_rows]; intros pre Hrows Hpre Hn.
  - destruct pre; discriminate Hrows.
  - destruct (name m) as [n0|]; [|destruct pre; discriminate Hrows].
    destruct pre as [|row pre']; cbn [app] in Hrows.
    + injection Hrows as Hn0 Hv _. subst n0. rewrite Hn, Hv.
      destruct (ec_write address v st). reflexivity.
    + injection Hrows as Hrow Hrest.
      assert (Hne : sysfs_streq (fst row) buf = false)
        by (apply Hpre; left; reflexivity).
      subst row. cbn [fst] in Hne. rewrite Hne.
      apply (IH pre' Hrest); [|exact Hn].
      intros row Hin. apply Hpre. right. exact Hin.
Qed.

Lemma names_distinctb_earlier (rows : list (string * Z)) :
  names_distinctb rows = true ->
  forall pre n v post row,
    rows = (pre ++ (n, v) :: post)%list -> In row pre ->
    sysfs_streq (fst row) n = false
    /\ sysfs_streq (fst row) (n ++ newline) = false.
Proof.
  induction rows as [|[n0 v0] rest IH]; intros Hd pre n v post row Hsplit Hin.
  - destruct pre; discriminate Hsplit.
  - cbn [names_distinctb] in Hd. apply andb_true_iff in Hd.
    destruct Hd as [Hhead Hrest].
    destruct pre as [|row0 pre']; [destruct Hin|].
    cbn [app] in Hsplit. injection Hsplit as Hrow0 Hrest'.
    subst row0 rest.
    destruct Hin as [<-|Hin].
    + rewrite forallb_forall in Hhead.
      specialize (Hhead (n, v) ltac:(apply in_or_app; right; left;
                                      reflexivity)).
      cbn [fst] in *. apply andb_true_iff in Hhead.
      destruct Hhead as [H1 H2]. apply negb_true_iff in H1, H2.
      split; assumption.
    + apply (IH Hrest pre' n v post row eq_refl Hin).
Qed.

Lemma append_empty_r (s : string) : s ++ "" = s.
Proof.
  induction s as [|ch rest IH]; cbn [append]; [reflexivity|].
  rewrite IH. reflexivity.
Qed.

Lemma concat_cons (x : string) (l : list string) :
  String.concat "" (x :: l) = x ++ String.concat "" l.
Proof.
  destruct l as [|y l]; cbn [String.concat append].
  - symmetry. apply append_empty_r.
  - reflexivity.
Qed.

Lemma available_modes_loop_rows (modes : list msi_ec_mode) :
  available_modes_loop modes
  = String.concat "" (map (fun row => emit_s (fst row)) (table_rows modes)).
Proof.
  induction modes as [|m rest IH]; cbn [available_modes_loop table_rows].
  - reflexivity.
  - destruct (name m) as [n|]; [|reflexivity].
    cbn [map fst]. rewrite concat_cons, IH. reflexivity.
Qed.

(** A table that passes [mode_table_okb] and has distinct bytes: storing a
    declared name, with or without a final newline, writes its byte, and
    the scan of the show finds the name again. *)
Lemma mode_roundtrip (address : Z) (modes : list msi_ec_mode) (n : string)
    (v : Z) (buf : string) (count : Z) (st : ec) :
  mode_table_okb modes = true ->
  NoDup (map snd (table_rows modes)) ->
  In (n, v) (table_rows modes) ->
  buf = n \/ buf = n ++ newline ->
  transport_ok st address ->
  fst (mode_store_loop address modes buf count st) = Ok count
  /\ written (snd (mode_store_loop address modes buf count st))
     = (u8 address, v) :: written st
  /\ ec_read address (snd (mode_store_loop address modes buf count st)) = Ok v
  /\ mode_show_loop modes v = emit_s n.
Proof.
  intros Hok Hnodup Hin Hbuf [Hr Hw].
  unfold mode_table_okb in Hok. apply andb_true_iff in Hok.
  destruct Hok as [Hnames Hbytes].
  assert (Hv : u8 v = v).
  { rewrite forallb_forall in Hbytes. specialize (Hbytes (n, v) Hin).
    cbn [snd] in Hbytes. apply u8_small. lia. }
  destruct (in_split _ _ Hin) as (pre & post & Hsplit).
  rewrite (mode_store_loop_first address modes pre post n v buf count st
             Hsplit).
  - destruct (ec_write_ok address v st Hw) as (Hfst & _ & _ & _ & Hlog).
    cbn [fst snd]. rewrite Hfst, Hlog, Hv.
    rewrite (ec_read_after_write address v st Hw Hr), Hv.
    repeat split. apply (mode_show_loop_declared modes n v Hnodup Hin).
  - intros row Hrow.
    destruct (names_distinctb_earlier _ Hnames pre n v post row Hsplit Hrow)
      as [H1 H2].
    destruct Hbuf as [->| ->]; assumption.
  - destruct Hbuf as [->| ->];
      [apply sysfs_streq_refl | apply sysfs_streq_newline].
Qed.

Section ModeRoundTrip.

Context {hdr : ec_memory_configuration}.

Lemma catalog_mode_tables_ok (c : msi_ec_conf) :
  In c CONFIGURATIONS ->
  mode_table_okb (shift_mode_modes (shift_mode c)) = true
  /\ mode_table_okb (fan_mode_modes (fan_mode c)) = true.
Proof.
  assert (H : forallb
                (fun c => mode_table_okb (shift_mode_modes (shift_mode c))
                          && mode_table_okb (fan_mode_modes (fan_mode c)))
                CONFIGURATIONS = true)
    by (vm_compute; reflexivity).
  intros Hc. rewrite forallb_forall in H. specialize (H c Hc).
  apply andb_true_iff in H. exact H.
Qed.

(** X5.  In every profile of the catalog, where the mode register can be
    read and written: storing a name of the fan table, with or without a
    final newline, writes the byte registered for it and [fan_mode_show]
    then prints that name.  The same holds for the shift table when its
    bytes are distinct.  The names that [available_fan_modes] and
    [available_shift_modes] print, one per line, are the names of those
    rows. *)
Theorem mode_store_then_show (c : msi_ec_conf) :
  In c CONFIGURATIONS ->
  let shift_rows := table_rows (shift_mode_modes (shift_mode c)) in
  let fan_rows := table_rows (fan_mode_modes (fan_mode c)) in
  (forall n v buf count st,
      In (n, v) fan_rows -> buf = n \/ buf = n ++ newline ->
      transport_ok st (fan_mode_address (fan_mode c)) ->
      fst (fan_mode_store c buf count st) = Ok count
      /\ written (snd (fan_mode_store c buf count st))
         = (u8 (fan_mode_address (fan_mode c)), v) :: written st
      /\ fan_mode_show c (snd (fan_mode_store c buf count st))
         = Ok (emit_s n))
  /\ (NoDup (map snd shift_rows) ->
      forall n v buf count st,
        In (n, v) shift_rows -> buf = n \/ buf = n ++ newline ->
        transport_ok st (shift_mode_address (shift_mode c)) ->
        fst (shift_mode_store c buf count st) = Ok count
        /\ written (snd (shift_mode_store c buf count st))
           = (u8 (shift_mode_address (shift_mode c)), v) :: written st
        /\ shift_mode_show c (snd (shift_mode_store c buf count st))
           = Ok (emit_s n))
  /\ available_fan_modes_show c
     = Ok (String.concat "" (map (fun row => emit_s (fst row)) fan_rows))
  /\ available_shift_modes_show c
     = Ok (String.concat "" (map (fun row => emit_s (fst row)) shift_rows)).
Proof.
  intros Hc shift_rows fan_rows. subst shift_rows fan_rows.
  destruct (catalog_mode_tables_ok c Hc) as [Hshift Hfan].
  destruct (catalog_mode_tables c Hc) as (Hfnodup & _ & H80 & _).
  split; [|split; [|split]].
  - intros n v buf count st Hin Hbuf Hok.
    destruct (mode_roundtrip _ _ n v buf count st Hfan Hfnodup Hin Hbuf Hok)
      as (Hfst & Hlog & Hread & Hshow).
    unfold fan_mode_store. split; [exact Hfst|]. split; [exact Hlog|].
    rewrite (fan_mode_show_scan c _ v Hread), Hshow. reflexivity.
  - intros Hsnodup n v buf count st Hin Hbuf Hok.
    destruct (mode_roundtrip _ _ n v buf count st Hshift Hsnodup Hin Hbuf Hok)
      as (Hfst & Hlog & Hread & Hshow).
    unfold shift_mode_store. split; [exact Hfst|]. split; [exact Hlog|].
    assert (Hne : v <> 0x80).
    { intros ->. apply H80. apply (in_map snd) in Hin. exact Hin. }
    rewrite (shift_mode_show_scan c _ v Hread Hne), Hshow. reflexivity.
  - unfold available_fan_modes_show. rewrite available_modes_loop_rows.
    reflexivity.
  - unfold available_shift_modes_show. rewrite available_modes_loop_rows.
    reflexivity.
Qed.

End ModeRoundTrip.

(** The profile of firmware 16S6EMS1.111: storing sport writes 0xc0 to the
    shift register 0xd2 and is shown as sport. *)
Lemma mode_store_then_show_witness :
  let c := CONF11 (hdr := sample_header) in
  fst (shift_mode_store c "sport" 6 (ec_image [])) = Ok 6
  /\ written (snd (shift_mode_store c "sport" 6 (ec_image [])))
     = [(0xd2, 0xc0)]
  /\ shift_mode_show c (snd (shift_mode_store c "sport" 6 (ec_image [])))
     = Ok (emit_s "sport").
Proof.
  apply (proj1 (proj2 (mode_store_then_show (hdr := sample_header)
                         (CONF11 (hdr := sample_header))
                         ltac:(do 11 right; left; reflexivity)))
           ltac:(apply distinctb_NoDup; vm_compute; reflexivity)
           "sport" 0xc0 "sport" 6 (ec_image [])).
  - cbn. tauto.
  - left. reflexivity.
  - split; reflexivity.
Defined.

(** ** Battery mode and the two thresholds *)

Lemma streq_exact (y : string) : streq y y = true.
Proof. unfold streq, strcmp_eq. rewrite String.eqb_refl. reflexivity. Qed.

Lemma streq_newline (y : string) : streq (y ++ newline) y = true.
Proof.
  unfold streq, strcmp_eq. rewrite String.eqb_refl. apply orb_true_r.
Qed.

(** What the shows print of a raw byte above 0x80. *)
Lemma charge_control_shows_of_raw (c : msi_ec_conf) (st : ec) (raw : Z) :
  ec_read (charge_control_address (charge_control c)) st = Ok raw ->
  0x80 < raw ->
  0 <= offset_start (charge_control c) < 256 ->
  0 <= offset_end (charge_control c) < 256 ->
  charge_control_start_threshold_show c st
  = Ok (emit_i (raw - offset_start (charge_control c)))
  /\ charge_control_end_threshold_show c st
     = Ok (emit_i (raw - offset_end (charge_control c)))
  /\ battery_mode_show c st
     = Ok (if raw =? range_max (charge_control c) then emit_s "max"
           else if raw =? offset_end (charge_control c) + 80
                then emit_s "medium"
                else if raw =? offset_end (charge_control c) + 60
                     then emit_s "min"
                     else emit_unknown raw).
Proof.
  intros Hread Hraw Hs He.
  unfold charge_control_start_threshold_show,
    charge_control_end_threshold_show.
  rewrite !(charge_control_threshold_show_ok _ c st raw Hread).
  replace (raw =? 0x80) with false by (symmetry; apply Z.eqb_neq; lia).
  rewrite !u8_small by assumption.
  split; [reflexivity|]. split; [reflexivity|].
  unfold battery_mode_show. rewrite Hread.
  destruct (raw =? range_max (charge_control c)); [reflexivity|].
  destruct (raw =? offset_end (charge_control c) + 80); [reflexivity|].
  destruct (raw =? offset_end (charge_control c) + 60); reflexivity.
Qed.

Section BatteryMode.

Context {hdr : ec_memory_configuration}.

Lemma catalog_battery_presets (c : msi_ec_conf) :
  In c CONFIGURATIONS ->
  let cc := charge_control c in
  offset_start cc = offset_end cc + 10
  /\ range_max cc = offset_end cc + 100
  /\ 0x80 < offset_end cc + 60
  /\ range_max cc < 256
  /\ 0 <= offset_end cc
  /\ 0x80 < range_min cc.
Proof.
  assert (H : forallb battery_presets_okb CONFIGURATIONS = true)
    by (vm_compute; reflexivity).
  intros Hc cc. rewrite forallb_forall in H. specialize (H c Hc).
  unfold battery_presets_okb in H. fold cc in H.
  pose proof (threshold_wfb_spec c (catalog_threshold_wf c Hc)) as Hwf.
  cbv zeta in Hwf. fold cc in Hwf.
  repeat (apply andb_true_iff in H; destruct H as [H ?]). lia.
Qed.

(** A threshold store that passes the range check leaves the sum in the
    register. *)
Lemma threshold_store_then_read (c : msi_ec_conf) (offset : Z)
    (buf : string) (p count : Z) (st : ec) :
  In c CONFIGURATIONS ->
  offset = offset_start (charge_control c)
  \/ offset = offset_end (charge_control c) ->
  kstrtou8 buf = Ok p ->
  range_min (charge_control c) <= p + offset
                               <= range_max (charge_control c) ->
  transport_ok st (charge_control_address (charge_control c)) ->
  fst (charge_control_threshold_store offset c buf count st) = Ok count
  /\ ec_read (charge_control_address (charge_control c))
       (snd (charge_control_threshold_store offset c buf count st))
     = Ok (p + offset).
Proof.
  intros Hc Hoff Hp Hin [Hr Hw].
  destruct (catalog_threshold_offset c offset Hc Hoff) as (Ho & Hrange & Hmax).
  assert (Hu : u8 (p + u8 offset) = p + offset).
  { rewrite (u8_small offset) by lia. apply u8_small. lia. }
  rewrite (charge_control_threshold_store_writes offset c buf p count st Hp)
    by (rewrite Hu; exact Hin).
  rewrite Hu. cbn [fst snd].
  destruct (ec_write_ok (charge_control_address (charge_control c))
              (p + offset) st Hw) as (-> & _).
  split; [reflexivity|].
  rewrite (ec_read_after_write _ _ _ Hw Hr). rewrite u8_small by lia.
  reflexivity.
Qed.

(** X6.  The two threshold attributes are views of one register that
    differ by ten: in every profile of the catalog, after an accepted store
    of [p] through the start threshold the start threshold shows [p] and
    the end threshold [p + 10]; after an accepted store of [p] through the
    end threshold the end threshold shows [p] and the start threshold
    [p - 10]. *)
Theorem charge_control_thresholds_share (c : msi_ec_conf) (buf : string)
    (p count : Z) (st : ec) :
  In c CONFIGURATIONS ->
  kstrtou8 buf = Ok p ->
  transport_ok st (charge_control_address (charge_control c)) ->
  let cc := charge_control c in
  (range_min cc <= p + offset_start cc <= range_max cc ->
   let st' := snd (charge_control_start_threshold_store c buf count st) in
   fst (charge_control_start_threshold_store c buf count st) = Ok count
   /\ charge_control_start_threshold_show c st' = Ok (emit_i p)
   /\ charge_control_end_threshold_show c st' = Ok (emit_i (p + 10)))
  /\ (range_min cc <= p + offset_end cc <= range_max cc ->
      let st' := snd (charge_control_end_threshold_store c buf count st) in
      fst (charge_control_end_threshold_store c buf count st) = Ok count
      /\ charge_control_end_threshold_show c st' = Ok (emit_i p)
      /\ charge_control_start_threshold_show c st' = Ok (emit_i (p - 10))).
Proof.
  intros Hc Hp Hok cc.
  destruct (catalog_battery_presets c Hc) as (Hten & Hmax & _ & H256 & He & Hmin).
  fold cc in Hten, Hmax, H256, He, Hmin.
  split; intros Hin st';
    [destruct (threshold_store_then_read c (offset_start cc) buf p count st
                 Hc (or_introl eq_refl) Hp Hin Hok) as [Hfst Hread]
    |destruct (threshold_store_then_read c (offset_end cc) buf p count st
                 Hc (or_intror eq_refl) Hp Hin Hok) as [Hfst Hread]];
    (split; [exact Hfst|]);
    destruct (charge_control_shows_of_raw c _ _ Hread) as (Hs & Hend & _);
    try (fold cc; lia);
    subst st';
    unfold charge_control_start_threshold_store,
      charge_control_end_threshold_store; fold cc;
    rewrite Hs, Hend; fold cc; split; do 2 f_equal; lia.
Qed.

(** X7.  In every profile of the catalog, storing max, medium or min
    through battery_mode is shown back by battery_mode and puts the end
    threshold at 100, 80 or 60 and the start threshold ten below.  After
    an accepted store of [p] through the end threshold, battery_mode shows
    max, medium or min for 100, 80 and 60 and "unknown" with the raw byte
    for any other [p]. *)
Theorem battery_mode_presets (c : msi_ec_conf) (count : Z) (st : ec) :
  In c CONFIGURATIONS ->
  transport_ok st (charge_control_address (charge_control c)) ->
  (forall preset pct buf,
      In (preset, pct) [("max", 100); ("medium", 80); ("min", 60)] ->
      buf = preset \/ buf = preset ++ newline ->
      let st' := snd (battery_mode_store c buf count st) in
      fst (battery_mode_store c buf count st) = Ok count
      /\ battery_mode_show c st' = Ok (emit_s preset)
      /\ charge_control_end_threshold_show c st' = Ok (emit_i pct)
      /\ charge_control_start_threshold_show c st' = Ok (emit_i (pct - 10)))
  /\ (forall buf p,
      kstrtou8 buf = Ok p ->
      range_min (charge_control c) <= p + offset_end (charge_control c)
                                   <= range_max (charge_control c) ->
      battery_mode_show c
        (snd (charge_control_end_threshold_store c buf count st))
      = Ok (if p =? 100 then emit_s "max"
            else if p =? 80 then emit_s "medium"
                 else if p =? 60 then emit_s "min"
                      else emit_unknown
                             (p + offset_end (charge_control c)))).
Proof.
  intros Hc Hok.
  destruct (catalog_battery_presets c Hc) as (Hten & Hmax & H60 & H256 & He & Hmin).
  cbv zeta in *. destruct Hok as [Hr Hw].
  assert (Hwritten : forall raw,
             0x80 < raw < 256 ->
             fst (ec_write (charge_control_address (charge_control c)) raw st)
             = Ok tt
             /\ ec_read (charge_control_address (charge_control c))
                  (snd (ec_write (charge_control_address (charge_control c))
                          raw st)) = Ok raw).
  { intros raw Hraw.
    destruct (ec_write_ok (charge_control_address (charge_control c)) raw st
                Hw) as (Hfst & _).
    split; [exact Hfst|].
    rewrite (ec_read_after_write _ _ _ Hw Hr). rewrite u8_small by lia.
    reflexivity. }
  split.
  - intros preset pct buf Hpreset Hbuf.
    assert (Hstore :
              battery_mode_store c buf count st
              = (return_count
                   (fst (ec_write (charge_control_address (charge_control c))
                           (offset_end (charge_control c) + pct) st)) count,
                 snd (ec_write (charge_control_address (charge_control c))
                        (offset_end (charge_control c) + pct) st))).
    { unfold battery_mode_store.
      destruct Hpreset as [[= <- <-]|[[= <- <-]|[[= <- <-]|[]]]];
        destruct Hbuf as [->| ->]; cbn [streq strcmp_eq String.eqb
          Ascii.eqb Bool.eqb append newline orb]; rewrite ?Hmax;
        match goal with
        | |- context [ec_write ?a ?v st] =>
            destruct (ec_write a v st); reflexivity
        end. }
    assert (Hraw : 0x80 < offset_end (charge_control c) + pct < 256).
    { destruct Hpreset as [[= <- <-]|[[= <- <-]|[[= <- <-]|[]]]]; lia. }
    destruct (Hwritten _ Hraw) as [Hfst Hread].
    rewrite Hstore. cbn [fst snd]. rewrite Hfst.
    destruct (charge_control_shows_of_raw c _ _ Hread) as (Hs & Hend & Hmode);
      try lia.
    rewrite Hs, Hend, Hmode.
    split; [reflexivity|]. split; [|split; do 2 f_equal; lia].
    rewrite Hmax.
    destruct Hpreset as [[= <- <-]|[[= <- <-]|[[= <- <-]|[]]]].
    + rewrite Z.eqb_refl. reflexivity.
    + replace (offset_end (charge_control c) + 80
               =? offset_end (charge_control c) + 100) with false
        by (symmetry; apply Z.eqb_neq; lia).
      rewrite Z.eqb_refl. reflexivity.
    + replace (offset_end (charge_control c) + 60
               =? offset_end (charge_control c) + 100) with false
        by (symmetry; apply Z.eqb_neq; lia).
      replace (offset_end (charge_control c) + 60
               =? offset_end (charge_control c) + 80) with false
        by (symmetry; apply Z.eqb_neq; lia).
      rewrite Z.eqb_refl. reflexivity.
  - intros buf p Hp Hin.
    destruct (threshold_store_then_read c (offset_end (charge_control c)) buf
                p count st Hc (or_intror eq_refl) Hp Hin (conj Hr Hw))
      as [_ Hread].
    unfold charge_control_end_threshold_store.
    destruct (charge_control_shows_of_raw c _ _ Hread) as (_ & _ & Hmode);
      try lia.
    rewrite Hmode, Hmax.
    replace (p + offset_end (charge_control c)
             =? offset_end (charge_control c) + 100) with (p =? 100)
      by (destruct (Z.eqb_spec p 100); symmetry;
          [apply Z.eqb_eq | apply Z.eqb_neq]; lia).
    replace (p + offset_end (charge_control c)
             =? offset_end (charge_control c) + 80) with (p =? 80)
      by (destruct (Z.eqb_spec p 80); symmetry;
          [apply Z.eqb_eq | apply Z.eqb_neq]; lia).
    replace (p + offset_end (charge_control c)
             =? offset_end (charge_control c) + 60) with (p =? 60)
      by (destruct (Z.eqb_spec p 60); symmetry;
          [apply Z.eqb_eq | apply Z.eqb_neq]; lia).
    reflexivity.
Qed.

End BatteryMode.

(** Two accepted stores in [CONF0]: 80 through the end threshold is shown
    as 70 by the start threshold. *)
Lemma charge_control_thresholds_share_witness :
  let c := CONF0 (hdr := sample_header) in
  let st' := snd (charge_control_end_threshold_store c "80" 3 (ec_image [])) in
  fst (charge_control_end_threshold_store c "80" 3 (ec_image [])) = Ok 3
  /\ charge_control_end_threshold_show c st' = Ok (emit_i 80)
  /\ charge_control_start_threshold_show c st' = Ok (emit_i (80 - 10)).
Proof.
  apply (proj2 (charge_control_thresholds_share (hdr := sample_header)
                  (CONF0 (hdr := sample_header)) "80" 80 3 (ec_image [])
                  ltac:(left; reflexivity) eq_refl
                  ltac:(split; reflexivity))).
  vm_compute. split; discriminate.
Defined.

(** [CONF0]: medium puts the end threshold at 80. *)
Lemma battery_mode_presets_witness :
  let c := CONF0 (hdr := sample_header) in
  let st' := snd (battery_mode_store c "medium" 7 (ec_image [])) in
  fst (battery_mode_store c "medium" 7 (ec_image [])) = Ok 7
  /\ battery_mode_show c st' = Ok (emit_s "medium")
  /\ charge_control_end_threshold_show c st' = Ok (emit_i 80)
  /\ charge_control_start_threshold_show c st' = Ok (emit_i (80 - 10)).
Proof.
  apply (proj1 (battery_mode_presets (hdr := sample_header)
                  (CONF0 (hdr := sample_header)) 7 (ec_image [])
                  ltac:(left; reflexivity) ltac:(split; reflexivity))
           "medium" 80 "medium").
  - right. left. reflexivity.
  - left. reflexivity.
Defined.

(** ** Bits and masks: what changes and what does not *)

Lemma check_bit_testbit (v b : Z) :
  0 <= v < 256 -> 0 <= b < 8 -> check_bit v b = Z.testbit v b.
Proof.
  intros Hv Hb.
  assert (H : forallb (fun v =>
                forallb (fun b => Bool.eqb (check_bit v b) (Z.testbit v b))
                  (below 8)) (below 256) = true)
    by (vm_compute; reflexivity).
  pose proof (forallb_below _ _ (forallb_below _ _ H v ltac:(lia)) b
                ltac:(lia)) as Hvb.
  cbv beta in Hvb. apply Bool.eqb_prop in Hvb. exact Hvb.
Qed.

Lemma byte_at_range (st : ec) (addr : Z) : 0 <= byte_at st addr < 256.
Proof. unfold byte_at. apply u8_range. Qed.

Lemma ec_read_byte_at (addr : Z) (st : ec) :
  read_fault st (u8 addr) = None -> ec_read addr st = Ok (byte_at st addr).
Proof. intros H. rewrite ec_read_ok by exact H. reflexivity. Qed.

(** What a write changes. *)
Lemma ec_write_effect (addr val : Z) (st : ec) :
  let st' := snd (ec_write addr val st) in
  read_fault st' = read_fault st
  /\ write_fault st' = write_fault st
  /\ (forall a, u8 a <> u8 addr -> byte_at st' a = byte_at st a)
  /\ (fst (ec_write addr val st) = Ok tt ->
      byte_at st' addr = u8 val
      /\ written st' = (u8 addr, u8 val) :: written st)
  /\ (fst (ec_write addr val st) <> Ok tt -> st' = st).
Proof.
  unfold ec_write, byte_at.
  destruct (write_fault st (u8 addr)) as [e|] eqn:Hw;
    cbn [fst snd regs read_fault write_fault written];
    (split; [reflexivity|]); (split; [reflexivity|]); split.
  - intros a Ha. reflexivity.
  - split; [intros Habs; discriminate Habs | intros _; reflexivity].
  - intros a Ha.
    replace (u8 a =? u8 addr) with false
      by (symmetry; apply Z.eqb_neq; exact Ha).
    reflexivity.
  - split.
    + intros _. rewrite Z.eqb_refl. split; [apply u8_idem | reflexivity].
    + intros Habs. contradiction Habs. reflexivity.
Qed.

(** X8.  [ec_set_bit] changes nothing but the bit it names: the other
    registers and, for bit numbers below 8, the other bits of the same
    register read as before, so [ec_check_bit] of any other address or
    other bit is unaffected, while the named bit reads as the value set.
    When the read or the write fails, the register file is left as it
    was. *)
Theorem ec_set_bit_frame (addr bit : Z) (value : bool) (st : ec) :
  let st' := snd (ec_set_bit addr bit value st) in
  (forall a, u8 a <> u8 addr -> byte_at st' a = byte_at st a)
  /\ (fst (ec_set_bit addr bit value st) <> Ok tt -> st' = st)
  /\ (u8 bit < 8 ->
      (forall k, 0 <= k < 8 -> k <> u8 bit ->
                 Z.testbit (byte_at st' addr) k
                 = Z.testbit (byte_at st addr) k)
      /\ (fst (ec_set_bit addr bit value st) = Ok tt ->
          Z.testbit (byte_at st' addr) (u8 bit) = value
          /\ ec_check_bit addr bit st' = Ok value)
      /\ (forall addr' bit',
          u8 bit' < 8 ->
          u8 addr' <> u8 addr \/ u8 bit' <> u8 bit ->
          ec_check_bit addr' bit' st' = ec_check_bit addr' bit' st)).
Proof.
  cbv zeta. unfold ec_set_bit.
  destruct (ec_read addr st) as [stored|e|] eqn:Hread; cbn [fst snd];
    try (split; [intros; reflexivity|]; split; [intros; reflexivity|];
         intros _; split; [intros; reflexivity|];
         split; [intros Habs; discriminate Habs | intros; reflexivity]).
  assert (Hrf : read_fault st (u8 addr) = None).
  { unfold ec_read in Hread. destruct (read_fault st (u8 addr));
      [discriminate Hread | reflexivity]. }
  assert (Hstored : stored = byte_at st addr).
  { rewrite (ec_read_byte_at addr st Hrf) in Hread. congruence. }
  set (wdata := if value then set_bit stored (u8 bit)
                else unset_bit stored (u8 bit)).
  destruct (ec_write_effect addr wdata st)
    as (Hrf' & Hwf' & Hother & Hdone & Hfail). cbv zeta in *.
  pose proof (u8_range bit) as Hbit0.
  assert (Hbits : u8 bit < 8 ->
            forall k, 0 <= k < 8 ->
              Z.testbit (byte_at (snd (ec_write addr wdata st)) addr) k
              = if is_ok (fst (ec_write addr wdata st))
                then (if k =? u8 bit then value
                      else Z.testbit (byte_at st addr) k)
                else Z.testbit (byte_at st addr) k).
  { intros Hbit k Hk.
    destruct (fst (ec_write addr wdata st)) as [[]| |] eqn:Hfst;
      cbn [is_ok].
    - destruct (Hdone eq_refl) as [Hbyte _]. rewrite Hbyte.
      subst wdata. rewrite <- Hstored.
      apply testbit_modified; [|lia|exact Hk].
      rewrite Hstored. apply byte_at_range.
    - rewrite Hfail by discriminate. reflexivity.
    - rewrite Hfail by discriminate. reflexivity. }
  split; [exact Hother|]. split; [exact Hfail|].
  intros Hbit. split; [|split].
  - intros k Hk Hne. rewrite (Hbits Hbit k Hk).
    destruct (fst (ec_write addr wdata st)); cbn [is_ok]; try reflexivity.
    replace (k =? u8 bit) with false by (symmetry; apply Z.eqb_neq; exact Hne).
    reflexivity.
  - intros Hok.
    assert (Hb : Z.testbit (byte_at (snd (ec_write addr wdata st)) addr)
                   (u8 bit) = value).
    { rewrite (Hbits Hbit (u8 bit) ltac:(lia)), Hok, Z.eqb_refl.
      reflexivity. }
    split; [exact Hb|].
    unfold ec_check_bit. rewrite ec_read_byte_at by (rewrite Hrf'; exact Hrf).
    rewrite check_bit_testbit by (try apply byte_at_range; lia).
    rewrite Hb. reflexivity.
  - intros addr' bit' Hbit' Hdiff.
    pose proof (u8_range bit') as Hbit0'.
    unfold ec_check_bit, ec_read. rewrite Hrf'.
    destruct (read_fault st (u8 addr')) as [e|] eqn:Hrf''; [reflexivity|].
    fold (byte_at (snd (ec_write addr wdata st)) addr').
    fold (byte_at st addr').
    destruct (Z.eq_dec (u8 addr') (u8 addr)) as [Heq|Hne].
    + destruct Hdiff as [Hdiff|Hdiff]; [contradiction|].
      rewrite !check_bit_testbit by (try apply byte_at_range; lia).
      assert (Hsame : forall s, byte_at s addr' = byte_at s addr)
        by (intros s; unfold byte_at; rewrite Heq; reflexivity).
      rewrite !Hsame. rewrite (Hbits Hbit (u8 bit') ltac:(lia)).
      destruct (fst (ec_write addr wdata st)); cbn [is_ok];
        try reflexivity.
      replace (u8 bit' =? u8 bit) with false
        by (symmetry; apply Z.eqb_neq; exact Hdiff).
      reflexivity.
    + rewrite (Hother addr' Hne). reflexivity.
Qed.

(** Register 0x2e holds 0x10: setting bit 1 leaves bit 4 as it reads. *)
Lemma ec_set_bit_frame_witness :
  ec_check_bit 0x2e 4 (snd (ec_set_bit 0x2e 1 true (ec_image [(0x2e, 0x10)])))
  = ec_check_bit 0x2e 4 (ec_image [(0x2e, 0x10)]).
Proof.
  apply (proj2 (proj2 (proj2 (proj2
           (ec_set_bit_frame 0x2e 1 true (ec_image [(0x2e, 0x10)])))
           ltac:(vm_compute; reflexivity)))).
  - vm_compute. reflexivity.
  - right. vm_compute. discriminate.
Defined.

Lemma mask_bits (v m k : Z) :
  0 <= k < 8 ->
  Z.testbit (u8 (Z.lor v (u8 m))) k = Z.testbit v k || Z.testbit (u8 m) k
  /\ Z.testbit (u8 (Z.land v (Z.lnot (u8 m)))) k
     = Z.testbit v k && negb (Z.testbit (u8 m) k).
Proof.
  intros Hk. rewrite !testbit_u8 by exact Hk.
  rewrite Z.lor_spec, Z.land_spec, Z.lnot_spec by lia.
  rewrite !testbit_u8 by exact Hk. split; reflexivity.
Qed.

Lemma mask_checks (v m : Z) :
  0 <= v < 256 -> 0 <= m < 256 ->
  (Z.land (u8 (u8 (Z.lor v m))) m =? m) = true
  /\ (Z.land (u8 (u8 (Z.land v (Z.lnot m)))) m =? m) = (m =? 0).
Proof.
  intros Hv Hm.
  assert (H : forallb (fun v =>
                forallb (fun m =>
                  (Z.land (u8 (u8 (Z.lor v m))) m =? m)
                  && Bool.eqb
                       (Z.land (u8 (u8 (Z.land v (Z.lnot m)))) m =? m)
                       (m =? 0))
                  (below 256)) (below 256) = true)
    by (vm_compute; reflexivity).
  pose proof (forallb_below _ _ (forallb_below _ _ H v ltac:(lia)) m
                ltac:(lia)) as Hvm.
  cbv beta in Hvm. apply andb_true_iff in Hvm. destruct Hvm as [H1 H2].
  apply Bool.eqb_prop in H2. split; assumption.
Qed.

(** What [ec_set_by_mask] and [ec_unset_by_mask] do where the transport
    works. *)
Lemma mask_effect (addr mask : Z) (st : ec) :
  transport_ok st addr ->
  let s1 := snd (ec_set_by_mask addr mask st) in
  let s0 := snd (ec_unset_by_mask addr mask st) in
  fst (ec_set_by_mask addr mask st) = Ok tt
  /\ fst (ec_unset_by_mask addr mask st) = Ok tt
  /\ (forall k, 0 <= k < 8 ->
        Z.testbit (byte_at s1 addr) k
        = Z.testbit (byte_at st addr) k || Z.testbit (u8 mask) k)
  /\ (forall k, 0 <= k < 8 ->
        Z.testbit (byte_at s0 addr) k
        = Z.testbit (byte_at st addr) k && negb (Z.testbit (u8 mask) k))
  /\ (forall a, u8 a <> u8 addr ->
        byte_at s1 a = byte_at st a /\ byte_at s0 a = byte_at st a)
  /\ ec_check_by_mask addr mask s1 = Ok true
  /\ ec_check_by_mask addr mask s0 = Ok (u8 mask =? 0).
Proof.
  intros [Hr Hw]. cbv zeta. unfold ec_set_by_mask, ec_unset_by_mask.
  rewrite (ec_read_byte_at addr st Hr).
  set (v := byte_at st addr).
  pose proof (byte_at_range st addr) as Hv. fold v in Hv.
  pose proof (u8_range mask) as Hm.
  destruct (ec_write_effect addr (u8 (Z.lor v (u8 mask))) st)
    as (Hrf1 & _ & Hother1 & Hdone1 & _).
  destruct (ec_write_effect addr (u8 (Z.land v (Z.lnot (u8 mask)))) st)
    as (Hrf0 & _ & Hother0 & Hdone0 & _).
  destruct (ec_write_ok addr (u8 (Z.lor v (u8 mask))) st Hw) as (Hfst1 & _).
  destruct (ec_write_ok addr (u8 (Z.land v (Z.lnot (u8 mask)))) st Hw)
    as (Hfst0 & _).
  cbv zeta in *.
  destruct (Hdone1 Hfst1) as [Hb1 _]. destruct (Hdone0 Hfst0) as [Hb0 _].
  destruct (mask_checks v (u8 mask) Hv Hm) as [Hc1 Hc0].
  split; [exact Hfst1|]. split; [exact Hfst0|].
  split; [|split; [|split; [|split]]].
  - intros k Hk. rewrite Hb1, u8_idem. apply (mask_bits v mask k Hk).
  - intros k Hk. rewrite Hb0, u8_idem. apply (mask_bits v mask k Hk).
  - intros a Ha. split; [apply Hother1 | apply Hother0]; exact Ha.
  - unfold ec_check_by_mask.
    rewrite ec_read_byte_at by (rewrite Hrf1; exact Hr).
    rewrite Hb1, Hc1. reflexivity.
  - unfold ec_check_by_mask.
    rewrite ec_read_byte_at by (rewrite Hrf0; exact Hr).
    rewrite Hb0, Hc0. reflexivity.
Qed.

(** X9.  Where the super-battery register can be read and written:
    storing on sets exactly the bits of the mask and is shown as on;
    storing off clears exactly those bits and is shown as off, unless the
    mask is 0, in which case nothing changes and the attribute always
    shows on.  No other register changes. *)
Theorem super_battery_store_effect (c : msi_ec_conf) (uninit : bool)
    (count : Z) (st : ec) :
  let addr := super_battery_address (super_battery c) in
  let m := u8 (mask (super_battery c)) in
  transport_ok st addr ->
  (forall buf, buf = "on" \/ buf = "on" ++ newline ->
     let st' := snd (super_battery_store c buf count st) in
     fst (super_battery_store c buf count st) = Ok count
     /\ (forall k, 0 <= k < 8 ->
           Z.testbit (byte_at st' addr) k
           = Z.testbit (byte_at st addr) k || Z.testbit m k)
     /\ (forall a, u8 a <> u8 addr -> byte_at st' a = byte_at st a)
     /\ super_battery_show uninit c st' = Ok (emit_s "on"))
  /\ (forall buf, buf = "off" \/ buf = "off" ++ newline ->
        let st' := snd (super_battery_store c buf count st) in
        fst (super_battery_store c buf count st) = Ok count
        /\ (forall k, 0 <= k < 8 ->
              Z.testbit (byte_at st' addr) k
              = Z.testbit (byte_at st addr) k && negb (Z.testbit m k))
        /\ (forall a, u8 a <> u8 addr -> byte_at st' a = byte_at st a)
        /\ super_battery_show uninit c st'
           = Ok (emit_s (if m =? 0 then "on" else "off"))).
Proof.
  intros addr m Hok. subst addr m.
  destruct (mask_effect _ (mask (super_battery c)) st Hok)
    as (Hfst1 & Hfst0 & Hbits1 & Hbits0 & Hother & Hchk1 & Hchk0).
  cbv zeta in *.
  split; intros buf Hbuf; cbv zeta; unfold super_battery_store.
  - replace (streq buf "on") with true
      by (destruct Hbuf as [->| ->]; reflexivity).
    destruct (ec_set_by_mask (super_battery_address (super_battery c))
                (mask (super_battery c)) st) as [r st'].
    cbn [fst snd] in *. subst r.
    split; [reflexivity|]. split; [exact Hbits1|].
    split; [intros a Ha; apply (Hother a Ha)|].
    unfold super_battery_show. rewrite Hchk1. reflexivity.
  - replace (streq buf "on") with false
      by (destruct Hbuf as [->| ->]; reflexivity).
    replace (streq buf "off") with true
      by (destruct Hbuf as [->| ->]; reflexivity).
    destruct (ec_unset_by_mask (super_battery_address (super_battery c))
                (mask (super_battery c)) st) as [r st'].
    cbn [fst snd] in *. subst r.
    split; [reflexivity|]. split; [exact Hbits0|].
    split; [intros a Ha; apply (Hother a Ha)|].
    unfold super_battery_show. rewrite Hchk0. cbn [output_or].
    destruct (u8 (mask (super_battery c)) =? 0); reflexivity.
Qed.

(** [CONF2], mask 0x0f, register 0xeb holding 0xa5: off leaves 0xa0 and is
    shown as off. *)
Lemma super_battery_store_effect_witness :
  super_battery_show false CONF2
    (snd (super_battery_store CONF2 "off" 4 (ec_image [(0xeb, 0xa5)])))
  = Ok (emit_s "off").
Proof.
  apply (proj2 (super_battery_store_effect CONF2 false 4
                  (ec_image [(0xeb, 0xa5)]) ltac:(split; reflexivity))
           "off" ltac:(left; reflexivity)).
Defined.

(** ** Input that the word stores do not recognise *)

Lemma streq_spec (buf y : string) :
  streq buf y = true <-> buf = y \/ buf = y ++ newline.
Proof.
  unfold streq, strcmp_eq. rewrite orb_true_iff, !String.eqb_eq. tauto.
Qed.

Lemma sysfs_streq_spec (s1 : string) :
  forall s2,
    sysfs_streq s1 s2 = true
    <-> s1 = s2 \/ s2 = s1 ++ newline \/ s1 = s2 ++ newline.
Proof.
  induction s1 as [|c1 r1 IH]; intros [|c2 r2]; cbn [sysfs_streq append].
  - split; [left; reflexivity | reflexivity].
  - rewrite andb_true_iff, Ascii.eqb_eq, String.eqb_eq. unfold newline.
    split.
    + intros [-> ->]. right. left. reflexivity.
    + intros [H|[H|H]]; try discriminate H.
      injection H as -> ->. split; reflexivity.
  - rewrite andb_true_iff, Ascii.eqb_eq, String.eqb_eq. unfold newline.
    split.
    + intros [-> ->]. right. right. reflexivity.
    + intros [H|[H|H]]; try discriminate H.
      injection H as -> ->. split; reflexivity.
  - destruct (Ascii.eqb c1 c2) eqn:Hc.
    + apply Ascii.eqb_eq in Hc. subst c2. rewrite IH. split.
      * intros [->|[->| ->]]; [left | right; left | right; right];
          reflexivity.
      * intros [H|[H|H]]; injection H as H;
          [left | right; left | right; right]; exact H.
    + apply Ascii.eqb_neq in Hc. split; [discriminate|].
      intros [H|[H|H]]; injection H as H _; congruence.
Qed.

Lemma streq_unrecognised (words : list string) (buf w : string) :
  ~ one_of words buf -> In w words -> streq buf w = false.
Proof.
  intros Hnot Hw. destruct (streq buf w) eqn:H; [|reflexivity].
  apply streq_spec in H. exfalso. apply Hnot. exists w. split; assumption.
Qed.

(** For a word that does not end in a newline. *)
Lemma sysfs_streq_unrecognised (words : list string) (buf w : string) :
  ~ one_of words buf -> In w words ->
  (forall s, w <> s ++ newline) ->
  sysfs_streq w buf = false.
Proof.
  intros Hnot Hw Hend. destruct (sysfs_streq w buf) eqn:H; [|reflexivity].
  apply sysfs_streq_spec in H. exfalso.
  destruct H as [H|[H|H]].
  - apply Hnot. exists w. split; [exact Hw | left; symmetry; exact H].
  - apply Hnot. exists w. split; [exact Hw | right; exact H].
  - exact (Hend buf H).
Qed.

Lemma on_has_no_newline (s : string) : "on" <> s ++ newline.
Proof.
  destruct s as [|a [|b [|c r]]]; cbn [append newline]; intros H;
    discriminate H.
Qed.

Lemma off_has_no_newline (s : string) : "off" <> s ++ newline.
Proof.
  destruct s as [|a [|b [|c [|d r]]]]; cbn [append newline]; intros H;
    discriminate H.
Qed.

(** X10.  The stores that take a word recognise it alone or followed by
    one newline.  On any other input they leave the EC untouched;
    cooler_boost, super_battery, webcam, webcam_block and battery_mode
    return [-EINVAL], while fn_key and win_key return what their
    unassigned local [result] held. *)
Theorem word_stores_reject (c : msi_ec_conf) (buf : string) (count : Z)
    (st : ec) :
  (~ one_of ["on"; "off"] buf ->
   cooler_boost_store c buf count st = (Error EINVAL, st)
   /\ super_battery_store c buf count st = (Error EINVAL, st)
   /\ webcam_store c buf count st = (Error EINVAL, st)
   /\ webcam_block_store c buf count st = (Error EINVAL, st))
  /\ (~ one_of ["max"; "medium"; "min"] buf ->
      battery_mode_store c buf count st = (Error EINVAL, st))
  /\ (~ one_of ["right"; "left"] buf ->
      forall uninit,
        fn_key_store uninit c buf count st = (return_count uninit count, st)
        /\ win_key_store uninit c buf count st
           = (return_count uninit count, st))
  /\ (forall w,
      In w ["on"; "off"] ->
      cooler_boost_store c (w ++ newline) count st
      = cooler_boost_store c w count st
      /\ super_battery_store c (w ++ newline) count st
         = super_battery_store c w count st
      /\ webcam_store c (w ++ newline) count st = webcam_store c w count st
      /\ webcam_block_store c (w ++ newline) count st
         = webcam_block_store c w count st)
  /\ (forall w uninit,
      In w ["right"; "left"] ->
      fn_key_store uninit c (w ++ newline) count st
      = fn_key_store uninit c w count st
      /\ win_key_store uninit c (w ++ newline) count st
         = win_key_store uninit c w count st)
  /\ (forall w,
      In w ["max"; "medium"; "min"] ->
      battery_mode_store c (w ++ newline) count st
      = battery_mode_store c w count st).
Proof.
  split; [|split; [|split; [|split; [|split]]]].
  - intros Hnot.
    pose proof (streq_unrecognised _ buf "on" Hnot ltac:(cbn; tauto)) as Hon.
    pose proof (streq_unrecognised _ buf "off" Hnot ltac:(cbn; tauto)) as Hoff.
    pose proof (sysfs_streq_unrecognised _ buf "on" Hnot ltac:(cbn; tauto)
                  on_has_no_newline) as Hson.
    pose proof (sysfs_streq_unrecognised _ buf "off" Hnot ltac:(cbn; tauto)
                  off_has_no_newline) as Hsoff.
    unfold cooler_boost_store, super_battery_store, webcam_store,
      webcam_block_store, webcam_common_store.
    rewrite Hon, Hoff, Hson, Hsoff. repeat split.
  - intros Hnot. unfold battery_mode_store.
    rewrite (streq_unrecognised _ buf "max" Hnot ltac:(cbn; tauto)).
    rewrite (streq_unrecognised _ buf "medium" Hnot ltac:(cbn; tauto)).
    rewrite (streq_unrecognised _ buf "min" Hnot ltac:(cbn; tauto)).
    reflexivity.
  - intros Hnot uninit. unfold fn_key_store, win_key_store.
    rewrite (streq_unrecognised _ buf "right" Hnot ltac:(cbn; tauto)).
    rewrite (streq_unrecognised _ buf "left" Hnot ltac:(cbn; tauto)).
    split; reflexivity.
  - intros w [<-|[<-|[]]]; repeat split.
  - intros w uninit [<-|[<-|[]]]; split; reflexivity.
  - intros w [<-|[<-|[<-|[]]]]; reflexivity.
Qed.

(** The word "On" is not recognised by cooler_boost. *)
Lemma word_stores_reject_witness :
  cooler_boost_store CONF2 "On" 3 (ec_image []) = (Error EINVAL, ec_image []).
Proof.
  apply (proj1 (word_stores_reject CONF2 "On" 3 (ec_image []))).
  intros (w & [<-|[<-|[]]] & [H|H]); discriminate H.
Defined.

(** ** Fan speed percentages *)

Lemma percent_scale (lo hi raw : Z) :
  lo < hi -> lo <= raw <= hi ->
  c_div (100 * (raw - lo)) (hi - lo) = Ok (100 * (raw - lo) / (hi - lo))
  /\ 0 <= 100 * (raw - lo) / (hi - lo) <= 100
  /\ (raw = lo -> 100 * (raw - lo) / (hi - lo) = 0)
  /\ (raw = hi -> 100 * (raw - lo) / (hi - lo) = 100)
  /\ (forall raw', lo <= raw' <= raw ->
        100 * (raw' - lo) / (hi - lo) <= 100 * (raw - lo) / (hi - lo)).
Proof.
  intros Hd Hraw. split; [|split; [|split; [|split]]].
  - unfold c_div.
    replace (hi - lo =? 0) with false by (symmetry; apply Z.eqb_neq; lia).
    rewrite Z.quot_div_nonneg by lia. reflexivity.
  - split.
    + apply Z.div_pos; lia.
    + apply Z.div_le_upper_bound; nia.
  - intros ->. rewrite Z.sub_diag. reflexivity.
  - intros ->. apply Z.div_mul. lia.
  - intros raw' Hraw'. apply Z.div_le_mono; lia.
Qed.

(** X11.  [cpu_realtime_fan_speed_show] and [cpu_basic_fan_speed_show]
    return [-EINVAL] for a raw byte outside [base_min, base_max].  Where
    base_min < base_max they print a percentage between 0 and 100 that is
    0 at base_min, 100 at base_max and grows with the raw byte.  Where
    base_min = base_max the one raw byte that passes the range test makes
    them divide by zero. *)
Theorem cpu_fan_speed_shows (c : msi_ec_conf) (st : ec) :
  (forall raw,
      ec_read (cpu_rt_fan_speed_address (cpu c)) st = Ok raw ->
      let lo := rt_fan_speed_base_min (cpu c) in
      let hi := rt_fan_speed_base_max (cpu c) in
      (raw < lo \/ hi < raw -> cpu_realtime_fan_speed_show c st = Error EINVAL)
      /\ (lo < hi -> lo <= raw <= hi ->
          cpu_realtime_fan_speed_show c st
          = Ok (emit_i (100 * (raw - lo) / (hi - lo)))
          /\ 0 <= 100 * (raw - lo) / (hi - lo) <= 100
          /\ (raw = lo -> 100 * (raw - lo) / (hi - lo) = 0)
          /\ (raw = hi -> 100 * (raw - lo) / (hi - lo) = 100)
          /\ (forall raw', lo <= raw' <= raw ->
                100 * (raw' - lo) / (hi - lo)
                <= 100 * (raw - lo) / (hi - lo)))
      /\ (lo = hi -> raw = lo -> cpu_realtime_fan_speed_show c st = Oops))
  /\ (forall raw,
      ec_read (bs_fan_speed_address (cpu c)) st = Ok raw ->
      let lo := bs_fan_speed_base_min (cpu c) in
      let hi := bs_fan_speed_base_max (cpu c) in
      (raw < lo \/ hi < raw -> cpu_basic_fan_speed_show c st = Error EINVAL)
      /\ (lo < hi -> lo <= raw <= hi ->
          cpu_basic_fan_speed_show c st
          = Ok (emit_i (100 * (raw - lo) / (hi - lo)))
          /\ 0 <= 100 * (raw - lo) / (hi - lo) <= 100
          /\ (raw = lo -> 100 * (raw - lo) / (hi - lo) = 0)
          /\ (raw = hi -> 100 * (raw - lo) / (hi - lo) = 100)
          /\ (forall raw', lo <= raw' <= raw ->
                100 * (raw' - lo) / (hi - lo)
                <= 100 * (raw - lo) / (hi - lo)))
      /\ (lo = hi -> raw = lo -> cpu_basic_fan_speed_show c st = Oops)).
Proof.
  split; intros raw Hread lo hi; subst lo hi;
    unfold cpu_realtime_fan_speed_show, cpu_basic_fan_speed_show;
    rewrite Hread; (split; [|split]).
  - intros Hout.
    replace ((raw <? rt_fan_speed_base_min (cpu c))
             || (raw >? rt_fan_speed_base_max (cpu c))) with true
      by (symmetry; apply orb_true_iff; destruct Hout; [left | right]; lia).
    reflexivity.
  - intros Hd Hin.
    replace ((raw <? rt_fan_speed_base_min (cpu c))
             || (raw >? rt_fan_speed_base_max (cpu c))) with false
      by (symmetry; apply orb_false_iff; split; lia).
    destruct (percent_scale _ _ raw Hd Hin) as (Hdiv & Hrest).
    rewrite Hdiv. split; [reflexivity | exact Hrest].
  - intros Heq ->.
    replace ((rt_fan_speed_base_min (cpu c)
              <? rt_fan_speed_base_min (cpu c))
             || (rt_fan_speed_base_min (cpu c)
                 >? rt_fan_speed_base_max (cpu c))) with false
      by (symmetry; apply orb_false_iff; split; lia).
    unfold c_div. rewrite <- Heq, Z.sub_diag. reflexivity.
  - intros Hout.
    replace ((raw <? bs_fan_speed_base_min (cpu c))
             || (raw >? bs_fan_speed_base_max (cpu c))) with true
      by (symmetry; apply orb_true_iff; destruct Hout; [left | right]; lia).
    reflexivity.
  - intros Hd Hin.
    replace ((raw <? bs_fan_speed_base_min (cpu c))
             || (raw >? bs_fan_speed_base_max (cpu c))) with false
      by (symmetry; apply orb_false_iff; split; lia).
    destruct (percent_scale _ _ raw Hd Hin) as (Hdiv & Hrest).
    rewrite Hdiv. split; [reflexivity | exact Hrest].
  - intros Heq ->.
    replace ((bs_fan_speed_base_min (cpu c)
              <? bs_fan_speed_base_min (cpu c))
             || (bs_fan_speed_base_min (cpu c)
                 >? bs_fan_speed_base_max (cpu c))) with false
      by (symmetry; apply orb_false_iff; split; lia).
    unfold c_div. rewrite <- Heq, Z.sub_diag. reflexivity.
Qed.

(** [CONF0] scales 0x19..0x37: the raw byte 0x28 is shown as 50. *)
Lemma cpu_fan_speed_shows_witness :
  cpu_realtime_fan_speed_show (CONF0 (hdr := sample_header))
    (ec_image [(0x71, 0x28)])
  = Ok (emit_i (100 * (0x28 - 0x19) / (0x37 - 0x19))).
Proof.
  apply (proj1 (proj2 (proj1 (cpu_fan_speed_shows
                         (CONF0 (hdr := sample_header))
                         (ec_image [(0x71, 0x28)])) 0x28 eq_refl))).
  - reflexivity.
  - vm_compute. split; discriminate.
Defined.

(** ** LED class devices *)

Lemma lor_state_byte (base b : Z) :
  0 <= base < 256 -> 0 <= b <= 3 -> u8 (Z.lor base b) = Z.lor base b.
Proof.
  intros Hbase Hb.
  assert (H : forallb (fun base =>
                forallb (fun b => Z.lor base b <? 256) (below 4))
                (below 256) = true)
    by (vm_compute; reflexivity).
  pose proof (forallb_below _ _ (forallb_below _ _ H base ltac:(lia)) b
                ltac:(lia)) as Hlt.
  cbv beta in Hlt. apply Z.ltb_lt in Hlt.
  apply u8_small. split; [apply Z.lor_nonneg; lia | exact Hlt].
Qed.

Section Backlight.

Context {hdr : ec_memory_configuration}.

Lemma catalog_backlight_states (c : msi_ec_conf) :
  In c CONFIGURATIONS ->
  max_state (kbd_bl c) = 3
  /\ (state_base_value (kbd_bl c) = 0x80
      \/ state_base_value (kbd_bl c) = 0x81).
Proof.
  intros Hc.
  assert (H : forallb (fun c => (max_state (kbd_bl c) =? 3)
                                && ((state_base_value (kbd_bl c) =? 0x80)
                                    || (state_base_value (kbd_bl c) =? 0x81)))
                CONFIGURATIONS = true)
    by (vm_compute; reflexivity).
  rewrite forallb_forall in H. specialize (H c Hc).
  apply andb_true_iff in H. destruct H as [H1 H2].
  apply orb_true_iff in H2.
  split; [apply Z.eqb_eq; exact H1|].
  destruct H2 as [H2|H2]; [left | right]; apply Z.eqb_eq; exact H2.
Qed.

(** X12.  [kbd_bl_sysfs_set] writes nothing and returns 0 while the LED is
    being unregistered, and otherwise refuses a brightness outside 0..3
    with -1 and no write.  The bound 3 is written into the function, and
    is the [max_state] of every profile of the catalog.  A brightness that
    was written is what [kbd_bl_sysfs_get] returns afterwards, provided
    the state mask keeps the brightness bits and clears the bits of
    [state_base_value]; a failed read is reported as brightness 0.  Where
    [state_base_value] is 0x81, as in two profiles, brightness 0 is
    written as the byte of brightness 1 and brightness 2 as that of 3. *)
Theorem kbd_bl_sysfs_set_get (mask : Z) (unregistering : bool)
    (c : msi_ec_conf) (brightness : Z) (st : ec) :
  let r := kbd_bl_sysfs_set unregistering c brightness st in
  (unregistering = true -> r = (Ok tt, st))
  /\ (unregistering = false -> brightness < 0 \/ 3 < brightness ->
      r = (Error 1, st))
  /\ (unregistering = false -> 0 <= brightness <= 3 ->
      fst r = Ok tt ->
      read_fault st (u8 (bl_state_address (kbd_bl c))) = None ->
      0 <= state_base_value (kbd_bl c) < 256 ->
      Z.land (state_base_value (kbd_bl c)) mask = 0 ->
      Z.land brightness mask = brightness ->
      written (snd r)
      = (u8 (bl_state_address (kbd_bl c)),
         Z.lor (state_base_value (kbd_bl c)) brightness) :: written st
      /\ kbd_bl_sysfs_get mask c (snd r) = brightness)
  /\ (read_fault st (u8 (bl_state_address (kbd_bl c))) <> None ->
      kbd_bl_sysfs_get mask c st = 0)
  /\ (In c CONFIGURATIONS ->
      max_state (kbd_bl c) = 3
      /\ (state_base_value (kbd_bl c) = 0x80
          \/ state_base_value (kbd_bl c) = 0x81))
  /\ (state_base_value (kbd_bl c) = 0x81 ->
      kbd_bl_sysfs_set unregistering c 0 st
      = kbd_bl_sysfs_set unregistering c 1 st
      /\ kbd_bl_sysfs_set unregistering c 2 st
         = kbd_bl_sysfs_set unregistering c 3 st).
Proof.
  cbv zeta. split; [|split; [|split; [|split; [|split]]]].
  - intros ->. reflexivity.
  - intros -> Hout. unfold kbd_bl_sysfs_set.
    replace ((brightness <? 0) || (brightness >? 3)) with true
      by (symmetry; apply orb_true_iff; destruct Hout; [left | right]; lia).
    reflexivity.
  - intros -> Hin. unfold kbd_bl_sysfs_set.
    replace ((brightness <? 0) || (brightness >? 3)) with false
      by (symmetry; apply orb_false_iff; split; lia).
    intros Hok Hrf Hbase Hclear Hkeep.
    destruct (ec_write_effect (bl_state_address (kbd_bl c))
                (Z.lor (state_base_value (kbd_bl c)) brightness) st)
      as (Hrf' & _ & _ & Hdone & _). cbv zeta in *.
    destruct (Hdone Hok) as [Hbyte Hlog].
    rewrite (lor_state_byte _ _ Hbase Hin) in Hbyte, Hlog.
    split; [exact Hlog|].
    unfold kbd_bl_sysfs_get. rewrite ec_read_byte_at
      by (rewrite Hrf'; exact Hrf).
    rewrite Hbyte, Z.land_lor_distr_l, Hclear, Hkeep. reflexivity.
  - intros Hfault. unfold kbd_bl_sysfs_get, ec_read.
    destruct (read_fault st (u8 (bl_state_address (kbd_bl c))));
      [reflexivity | contradiction Hfault; reflexivity].
  - apply catalog_backlight_states.
  - intros Hbase. unfold kbd_bl_sysfs_set. rewrite Hbase.
    split; reflexivity.
Qed.

End Backlight.

(** In [CONF0] the state register is 0xf3 and the base value 0x80: with
    the mask 0x3, brightness 2 is written as 0x82 and read back as 2.
    [CONF28] has the state register 0xd3 and the base value 0x81:
    switching the backlight off writes 0x81, the byte of brightness 1. *)
Lemma kbd_bl_sysfs_set_get_witness :
  kbd_bl_sysfs_get 0x3 (CONF0 (hdr := sample_header))
    (snd (kbd_bl_sysfs_set false (CONF0 (hdr := sample_header)) 2
            (ec_image [(0xf3, 0x81)])))
  = 2
  /\ kbd_bl_sysfs_set false (CONF28 (hdr := sample_header)) 0
       (ec_image [(0xd3, 0x83)])
     = kbd_bl_sysfs_set false (CONF28 (hdr := sample_header)) 1
         (ec_image [(0xd3, 0x83)]).
Proof.
  split.
  - apply (proj2 (proj1 (proj2 (proj2
             (kbd_bl_sysfs_set_get (hdr := sample_header) 0x3 false
                (CONF0 (hdr := sample_header)) 2 (ec_image [(0xf3, 0x81)]))))
             eq_refl ltac:(lia) eq_refl eq_refl
             ltac:(vm_compute; split; [discriminate | reflexivity])
             eq_refl eq_refl)).
  - apply (proj1 (proj2 (proj2 (proj2 (proj2 (proj2
             (kbd_bl_sysfs_set_get (hdr := sample_header) 0x3 false
                (CONF28 (hdr := sample_header)) 0
                (ec_image [(0xd3, 0x83)]))))))
             eq_refl)).
Defined.

Lemma ec_set_bit_elsewhere (addr bit : Z) (value : bool) (st : ec) (a : Z) :
  u8 a <> u8 addr ->
  byte_at (snd (ec_set_bit addr bit value st)) a = byte_at st a.
Proof.
  intros Ha. unfold ec_set_bit.
  destruct (ec_read addr st) as [stored|e|]; cbn [snd]; try reflexivity.
  destruct (ec_write_effect addr
              (if value then set_bit stored (u8 bit)
               else unset_bit stored (u8 bit)) st)
    as (_ & _ & Hother & _). cbv zeta in Hother. apply Hother. exact Ha.
Qed.

(** X13.  [micmute_led_sysfs_set] and [mute_led_sysfs_set] treat every
    brightness other than 0 alike.  Where the LED register can be read and
    written and the LED bit is below 8, the call returns 0 and the bit then
    reads as "brightness is not 0".  The two LEDs use one bit number at two
    addresses: where the addresses differ, setting one LED leaves the byte
    of the other as it was. *)
Theorem led_sysfs_set_effect (c : msi_ec_conf) (brightness : Z) (st : ec) :
  let mic := micmute_led_address (leds c) in
  let mute := mute_led_address (leds c) in
  let bit := leds_bit (leds c) in
  let lit := negb (brightness =? 0) in
  (brightness <> 0 ->
   micmute_led_sysfs_set c brightness st = micmute_led_sysfs_set c 1 st
   /\ mute_led_sysfs_set c brightness st = mute_led_sysfs_set c 1 st)
  /\ (u8 bit < 8 ->
      (transport_ok st mic ->
       fst (micmute_led_sysfs_set c brightness st) = Ok tt
       /\ ec_check_bit mic bit (snd (micmute_led_sysfs_set c brightness st))
          = Ok lit)
      /\ (transport_ok st mute ->
          fst (mute_led_sysfs_set c brightness st) = Ok tt
          /\ ec_check_bit mute bit (snd (mute_led_sysfs_set c brightness st))
             = Ok lit))
  /\ (u8 mic <> u8 mute ->
      byte_at (snd (micmute_led_sysfs_set c brightness st)) mute
      = byte_at st mute
      /\ byte_at (snd (mute_led_sysfs_set c brightness st)) mic
         = byte_at st mic).
Proof.
  cbv zeta. unfold micmute_led_sysfs_set, mute_led_sysfs_set.
  split; [|split].
  - intros Hb.
    replace (brightness =? 0) with false
      by (symmetry; apply Z.eqb_neq; exact Hb).
    split; reflexivity.
  - intros Hbit. split; intros Hok; apply ec_check_bit_after_set; assumption.
  - intros Hdiff. split; apply ec_set_bit_elsewhere; congruence.
Qed.

(** In [CONF0] the LEDs are bit 2 of 0x2b and of 0x2c: brightness 255 on
    the micmute LED sets bit 2 of 0x2b. *)
Lemma led_sysfs_set_effect_witness :
  ec_check_bit 0x2b 2
    (snd (micmute_led_sysfs_set (CONF0 (hdr := sample_header)) 255
            (ec_image [(0x2b, 0x80); (0x2c, 0x02)])))
  = Ok true.
Proof.
  apply (proj2 (proj1 (proj1 (proj2
           (led_sysfs_set_effect (CONF0 (hdr := sample_header)) 255
              (ec_image [(0x2b, 0x80); (0x2c, 0x02)])))
           ltac:(vm_compute; reflexivity))
           ltac:(split; reflexivity))).
Defined.

(** ** Probe and removal *)

Section ProbeRemove.

Context {hdr : ec_memory_configuration}.

(** X14.  Every group that [msi_platform_probe] has created, whether it
    returned 0 or an error, is among those [msi_platform_remove] removes,
    and after a probe that returned 0 the two lists are the same.  A probe
    that fails leaves created only the debug group, and only under
    [debug]. *)
Theorem msi_platform_probe_remove
    (sysfs_create : list attribute_group -> result unit)
    (debug : bool) (drv : driver) :
  let r := msi_platform_probe sysfs_create debug drv in
  (forall g, In g (snd r) -> In g (msi_platform_remove debug drv))
  /\ (fst r = Ok tt -> snd r = msi_platform_remove debug drv)
  /\ (fst r <> Ok tt ->
      snd r = []
      \/ (debug = true /\ conf_loaded drv = true
          /\ snd r = [msi_debug_group])).
Proof.
  cbv zeta. unfold msi_platform_probe, msi_platform_remove.
  destruct debug, (conf_loaded drv); cbn [negb app];
    try destruct (sysfs_create [msi_debug_group]) as [[]|e|];
    try destruct (sysfs_create msi_platform_groups) as [[]|e'|];
    cbn [fst snd app];
    (split; [intros g Hg; cbn in Hg |- *; tauto|]);
    (split; [intros Hr; try reflexivity; discriminate Hr|]);
    intros Hr; try (contradiction Hr; reflexivity);
    try (left; reflexivity);
    right; repeat split; reflexivity.
Qed.

End ProbeRemove.

(** With [debug] set and a matching profile loaded, a probe whose second
    sysfs call fails returns the error and leaves the debug group. *)
Lemma msi_platform_probe_remove_witness :
  let r := msi_platform_probe (hdr := sample_header)
             (fun gs => match gs with [_] => Ok tt | _ => Error 12 end)
             true
             {| conf := CONF0 (hdr := sample_header); conf_loaded := true |} in
  snd r = []
  \/ (true = true /\ true = true /\ snd r = [msi_debug_group]).
Proof.
  apply (proj2 (proj2 (msi_platform_probe_remove (hdr := sample_header)
                         (fun gs => match gs with
                                    | [_] => Ok tt
                                    | _ => Error 12
                                    end)
                         true
                         {| conf := CONF0 (hdr := sample_header);
                            conf_loaded := true |}))).
  vm_compute. discriminate.
Defined.

(** ** The three mutexes *)

Lemma rmw_mutex_eqb_eq (a b : rmw_mutex) :
  rmw_mutex_eqb a b = true <-> a = b.
Proof. destruct a, b; cbn; split; intros H; congruence. Qed.

(** A caller alone in the model does what the helper does. *)
Lemma rmw_run_alone (c : rmw_call) (st : ec) :
  exists h,
    rmw_run (if is_ok (ec_read (addr_of c) st) then [0; 0; 0; 0]
             else [0; 0; 0])%nat (rmw_spawn st [c])
    = Some {| held := h;
              rmw_hw := snd (rmw_alone c st);
              rmw_threads := [(c, returned (fst (rmw_alone c st)))] |}.
Proof.
  assert (Halone : rmw_alone c st
                   = match ec_read (addr_of c) st with
                     | Ok stored => ec_write (addr_of c) (wdata_of c stored) st
                     | Error e => (Error e, st)
                     | Oops => (Oops, st)
                     end) by (destruct c; reflexivity).
  rewrite Halone. unfold rmw_spawn.
  destruct (ec_read (addr_of c) st) as [stored|e|] eqn:Hread;
    cbn -[ec_read ec_write wdata_of mutex_of addr_of]; rewrite Hread;
    cbn -[ec_read ec_write wdata_of mutex_of addr_of].
  - destruct (ec_write (addr_of c) (wdata_of c stored) st) as [r st'].
    cbn. eexists. reflexivity.
  - eexists. reflexivity.
  - eexists. reflexivity.
Qed.

Lemma rmw_alone_ok (c : rmw_call) (st : ec) :
  read_fault st (u8 (addr_of c)) = None ->
  rmw_alone c st
  = ec_write (addr_of c) (wdata_of c (byte_at st (addr_of c))) st.
Proof.
  intros Hr.
  destruct c; cbn [rmw_alone addr_of wdata_of] in *;
    unfold ec_set_bit, ec_set_by_mask, ec_unset_by_mask;
    rewrite (ec_read_byte_at _ st Hr); reflexivity.
Qed.

Lemma byte_after_write (addr val : Z) (st : ec) :
  write_fault st (u8 addr) = None ->
  byte_at (snd (ec_write addr val st)) addr = u8 val.
Proof.
  intros Hw. destruct (ec_write_ok addr val st Hw) as (_ & Hregs & _).
  unfold byte_at. rewrite Hregs. apply u8_idem.
Qed.

Lemma faults_after_write (addr val : Z) (st : ec) :
  read_fault (snd (ec_write addr val st)) = read_fault st
  /\ write_fault (snd (ec_write addr val st)) = write_fault st.
Proof.
  destruct (ec_write_effect addr val st) as (Hrf & Hwf & _).
  split; assumption.
Qed.

(** Two callers that lock different mutexes: the second runs from lock to
    unlock between the read and the write of the first. *)
Lemma rmw_interleaved (c1 c2 : rmw_call) (st : ec) :
  mutex_of c1 <> mutex_of c2 ->
  transport_ok st (addr_of c1) -> transport_ok st (addr_of c2) ->
  exists h,
    rmw_run [0; 0; 1; 1; 1; 1; 0; 0]%nat (rmw_spawn st [c1; c2])
    = Some {| held := h;
              rmw_hw :=
                snd (ec_write (addr_of c1)
                       (wdata_of c1 (byte_at st (addr_of c1)))
                       (snd (ec_write (addr_of c2)
                               (wdata_of c2 (byte_at st (addr_of c2))) st)));
              rmw_threads :=
                [(c1, returned (Ok tt)); (c2, returned (Ok tt))] |}.
Proof.
  intros Hneq [Hr1 Hw1] [Hr2 Hw2].
  assert (Hm : rmw_mutex_eqb (mutex_of c2) (mutex_of c1) = false).
  { destruct (rmw_mutex_eqb (mutex_of c2) (mutex_of c1)) eqn:E;
      [|reflexivity].
    apply rmw_mutex_eqb_eq in E. congruence. }
  unfold rmw_spawn.
  cbn -[ec_read ec_write wdata_of mutex_of addr_of rmw_mutex_eqb].
  rewrite (ec_read_byte_at _ st Hr1).
  cbn -[ec_read ec_write wdata_of mutex_of addr_of rmw_mutex_eqb].
  unfold set_held at 1. rewrite Hm.
  cbn -[ec_read ec_write wdata_of mutex_of addr_of rmw_mutex_eqb].
  rewrite (ec_read_byte_at _ st Hr2).
  cbn -[ec_read ec_write wdata_of mutex_of addr_of rmw_mutex_eqb].
  destruct (ec_write_ok (addr_of c2) (wdata_of c2 (byte_at st (addr_of c2)))
              st Hw2) as (Hfst2 & _ & _ & Hwf2 & _).
  destruct (ec_write (addr_of c2) (wdata_of c2 (byte_at st (addr_of c2))) st)
    as [r2 st2]. cbn [fst snd] in Hfst2, Hwf2 |- *. subst r2.
  cbn -[ec_read ec_write wdata_of mutex_of addr_of rmw_mutex_eqb].
  destruct (ec_write_ok (addr_of c1) (wdata_of c1 (byte_at st (addr_of c1)))
              st2 ltac:(rewrite Hwf2; exact Hw1)) as (Hfst1 & _).
  destruct (ec_write (addr_of c1) (wdata_of c1 (byte_at st (addr_of c1)))
              st2) as [r1 st1]. cbn [fst snd] in Hfst1 |- *. subst r1.
  cbn -[ec_read ec_write wdata_of mutex_of addr_of rmw_mutex_eqb].
  eexists. reflexivity.
Qed.

(** Two callers that lock the same mutex: under the same schedule the
    second is still waiting at [mutex_lock] when the first has returned. *)
Lemma rmw_excluded (c1 c2 : rmw_call) (st : ec) :
  mutex_of c1 = mutex_of c2 ->
  transport_ok st (addr_of c1) ->
  exists h,
    rmw_run [0; 0; 1; 1; 1; 1; 0; 0]%nat (rmw_spawn st [c1; c2])
    = Some {| held := h;
              rmw_hw := snd (rmw_alone c1 st);
              rmw_threads := [(c1, returned (Ok tt)); (c2, at_lock)] |}.
Proof.
  intros Heq [Hr1 Hw1].
  assert (Hm : rmw_mutex_eqb (mutex_of c2) (mutex_of c1) = true)
    by (apply rmw_mutex_eqb_eq; congruence).
  rewrite (rmw_alone_ok c1 st Hr1). unfold rmw_spawn.
  cbn -[ec_read ec_write wdata_of mutex_of addr_of rmw_mutex_eqb].
  rewrite (ec_read_byte_at _ st Hr1).
  cbn -[ec_read ec_write wdata_of mutex_of addr_of rmw_mutex_eqb].
  unfold set_held at 1. rewrite Hm.
  cbn -[ec_read ec_write wdata_of mutex_of addr_of rmw_mutex_eqb].
  unfold set_held at 1. rewrite Hm.
  cbn -[ec_read ec_write wdata_of mutex_of addr_of rmw_mutex_eqb].
  unfold set_held at 1. rewrite Hm.
  cbn -[ec_read ec_write wdata_of mutex_of addr_of rmw_mutex_eqb].
  unfold set_held at 1. rewrite Hm.
  cbn -[ec_read ec_write wdata_of mutex_of addr_of rmw_mutex_eqb].
  destruct (ec_write_ok (addr_of c1) (wdata_of c1 (byte_at st (addr_of c1)))
              st Hw1) as (Hfst1 & _).
  destruct (ec_write (addr_of c1) (wdata_of c1 (byte_at st (addr_of c1))) st)
    as [r1 st1]. cbn [fst snd] in Hfst1 |- *. subst r1.
  cbn -[ec_read ec_write wdata_of mutex_of addr_of rmw_mutex_eqb].
  eexists. reflexivity.
Qed.

(** X15.  The three read-modify-write helpers exclude only callers of the
    same helper.  Let a second caller be scheduled, from [mutex_lock] to
    [mutex_unlock], between the read and the write of a first one on the
    same register.  When the two lock different mutexes, both return 0 and
    the register ends as if the second had never run: its update is
    lost.  When they lock the same mutex, the second is still waiting at
    [mutex_lock] after the first has returned. *)
Theorem rmw_helpers_exclusion (c1 c2 : rmw_call) (st : ec) :
  u8 (addr_of c1) = u8 (addr_of c2) ->
  transport_ok st (addr_of c1) ->
  (mutex_of c1 <> mutex_of c2 ->
   exists w,
     rmw_run [0; 0; 1; 1; 1; 1; 0; 0]%nat (rmw_spawn st [c1; c2]) = Some w
     /\ map snd (rmw_threads w) = [returned (Ok tt); returned (Ok tt)]
     /\ byte_at (rmw_hw w) (addr_of c1)
        = byte_at (snd (rmw_alone c1 st)) (addr_of c1))
  /\ (mutex_of c1 = mutex_of c2 ->
      exists w,
        rmw_run [0; 0; 1; 1; 1; 1; 0; 0]%nat (rmw_spawn st [c1; c2]) = Some w
        /\ map snd (rmw_threads w) = [returned (Ok tt); at_lock]
        /\ rmw_hw w = snd (rmw_alone c1 st)).
Proof.
  intros Haddr Hok. pose proof Hok as [Hr Hw].
  assert (Hok2 : transport_ok st (addr_of c2))
    by (unfold transport_ok; rewrite <- Haddr; exact Hok).
  split.
  - intros Hneq.
    destruct (rmw_interleaved c1 c2 st Hneq Hok Hok2) as [h Hrun].
    eexists. split; [exact Hrun|]. cbn [rmw_threads rmw_hw map snd].
    split; [reflexivity|].
    rewrite (rmw_alone_ok c1 st Hr).
    rewrite !byte_after_write;
      [reflexivity | exact Hw |].
    destruct (faults_after_write (addr_of c2)
                (wdata_of c2 (byte_at st (addr_of c2))) st) as [_ Hwf].
    rewrite Hwf. exact Hw.
  - intros Heq.
    destruct (rmw_excluded c1 c2 st Heq Hok) as [h Hrun].
    eexists. split; [exact Hrun|]. cbn [rmw_threads rmw_hw map snd].
    split; reflexivity.
Qed.

(** Register 0x2e holds 0x0d; [ec_set_bit] sets bit 1 while
    [ec_unset_by_mask] clears 0x0f: both return 0 and the register holds
    0x0f, where the two calls one after the other leave 0x00 or 0x02. *)
Lemma rmw_helpers_exclusion_witness :
  exists w,
    rmw_run [0; 0; 1; 1; 1; 1; 0; 0]%nat
      (rmw_spawn (ec_image [(0x2e, 0x0d)])
         [call_set_bit 0x2e 1 true; call_unset_by_mask 0x2e 0x0f])
    = Some w
    /\ map snd (rmw_threads w) = [returned (Ok tt); returned (Ok tt)]
    /\ byte_at (rmw_hw w) 0x2e
       = byte_at (snd (rmw_alone (call_set_bit 0x2e 1 true)
                         (ec_image [(0x2e, 0x0d)]))) 0x2e.
Proof.
  apply (proj1 (rmw_helpers_exclusion (call_set_bit 0x2e 1 true)
                  (call_unset_by_mask 0x2e 0x0f) (ec_image [(0x2e, 0x0d)])
                  eq_refl ltac:(split; reflexivity))).
  discriminate.
Defined.

Lemma check_mask_of_byte (addr mask : Z) (st : ec) :
  read_fault st (u8 addr) = None ->
  ec_check_by_mask addr mask st
  = Ok (Z.land (byte_at st addr) (u8 mask) =? u8 mask).
Proof.
  intros Hr. unfold ec_check_by_mask.
  rewrite (ec_read_byte_at addr st Hr). reflexivity.
Qed.

Lemma bit_outside_mask (v m b : Z) (value : bool) :
  0 <= v < 256 -> 0 <= m < 256 -> 0 <= b < 8 -> Z.testbit m b = false ->
  (Z.land (u8 (if value then set_bit v b else unset_bit v b)) m =? m)
  = (Z.land v m =? m).
Proof.
  intros Hv Hm Hb Hbit.
  assert (H : forallb (fun v =>
                forallb (fun m =>
                  forallb (fun b =>
                    Z.testbit m b
                    || (Bool.eqb (Z.land (u8 (set_bit v b)) m =? m)
                          (Z.land v m =? m)
                        && Bool.eqb (Z.land (u8 (unset_bit v b)) m =? m)
                             (Z.land v m =? m)))
                    (below 8)) (below 256)) (below 256) = true)
    by (vm_compute; reflexivity).
  pose proof (forallb_below _ _
                (forallb_below _ _ (forallb_below _ _ H v ltac:(lia)) m
                   ltac:(lia)) b ltac:(lia)) as Hvmb.
  cbv beta in Hvmb. rewrite Hbit in Hvmb. cbn [orb] in Hvmb.
  apply andb_true_iff in Hvmb. destruct Hvmb as [H1 H0].
  apply Bool.eqb_prop in H1, H0. destruct value; assumption.
Qed.

Lemma ec_set_bit_keeps_mask (addr bit mask : Z) (value : bool) (st : ec) :
  transport_ok st addr -> u8 bit < 8 ->
  Z.testbit (u8 mask) (u8 bit) = false ->
  ec_check_by_mask addr mask (snd (ec_set_bit addr bit value st))
  = ec_check_by_mask addr mask st.
Proof.
  intros [Hr Hw] Hbit Hout. unfold ec_set_bit.
  rewrite (ec_read_byte_at addr st Hr). cbn [snd].
  set (wd := if value then set_bit (byte_at st addr) (u8 bit)
             else unset_bit (byte_at st addr) (u8 bit)).
  destruct (faults_after_write addr wd st) as [Hrf _].
  rewrite !check_mask_of_byte by (rewrite ?Hrf; exact Hr).
  rewrite byte_after_write by exact Hw. subst wd.
  pose proof (u8_range bit).
  rewrite bit_outside_mask;
    [reflexivity | apply byte_at_range | apply u8_range | lia | exact Hout].
Qed.

(** X16.  [ec_set_bit] on a bit outside a mask and [ec_set_by_mask] of
    that mask on the same register: when [ec_set_by_mask] runs between the
    read and the write of [ec_set_bit], both return 0 and
    [ec_check_by_mask] answers as before the two calls, while after the
    two calls in either order without interleaving it answers that the
    mask is set. *)
Theorem set_bit_loses_set_by_mask (addr bit mask : Z) (value : bool)
    (st : ec) :
  transport_ok st addr -> u8 bit < 8 ->
  Z.testbit (u8 mask) (u8 bit) = false ->
  (exists w,
     rmw_run [0; 0; 1; 1; 1; 1; 0; 0]%nat
       (rmw_spawn st [call_set_bit addr bit value;
                      call_set_by_mask addr mask])
     = Some w
     /\ map snd (rmw_threads w) = [returned (Ok tt); returned (Ok tt)]
     /\ ec_check_by_mask addr mask (rmw_hw w)
        = ec_check_by_mask addr mask st)
  /\ ec_check_by_mask addr mask
       (snd (ec_set_bit addr bit value (snd (ec_set_by_mask addr mask st))))
     = Ok true
  /\ ec_check_by_mask addr mask
       (snd (ec_set_by_mask addr mask (snd (ec_set_bit addr bit value st))))
     = Ok true.
Proof.
  intros Hok Hbit Hout. pose proof Hok as [Hr Hw].
  split; [|split].
  - destruct (rmw_interleaved (call_set_bit addr bit value)
                (call_set_by_mask addr mask) st ltac:(discriminate) Hok Hok)
      as [h Hrun].
    eexists. split; [exact Hrun|]. cbn [rmw_threads rmw_hw map snd].
    split; [reflexivity|]. cbn [addr_of wdata_of].
    set (st2 := snd (ec_write addr
                       (u8 (Z.lor (byte_at st addr) (u8 mask))) st)).
    destruct (faults_after_write addr
                (u8 (Z.lor (byte_at st addr) (u8 mask))) st) as [Hrf2 Hwf2].
    fold st2 in Hrf2, Hwf2.
    set (wd := if value then set_bit (byte_at st addr) (u8 bit)
               else unset_bit (byte_at st addr) (u8 bit)).
    destruct (faults_after_write addr wd st2) as [Hrf1 _].
    rewrite !check_mask_of_byte by (rewrite ?Hrf1, ?Hrf2; exact Hr).
    rewrite byte_after_write by (rewrite Hwf2; exact Hw). subst wd.
    pose proof (u8_range bit).
    rewrite bit_outside_mask;
      [reflexivity | apply byte_at_range | apply u8_range | lia | exact Hout].
  - assert (Hok1 : transport_ok (snd (ec_set_by_mask addr mask st)) addr).
    { unfold ec_set_by_mask. rewrite (ec_read_byte_at addr st Hr).
      destruct (faults_after_write addr
                  (u8 (Z.lor (byte_at st addr) (u8 mask))) st) as [Hrf Hwf].
      unfold transport_ok. rewrite Hrf, Hwf. exact Hok. }
    rewrite (ec_set_bit_keeps_mask addr bit mask value _ Hok1 Hbit Hout).
    destruct (mask_effect addr mask st Hok) as (_ & _ & _ & _ & _ & Hset & _).
    exact Hset.
  - pose proof (ec_set_bit_keeps_transport addr bit value st addr Hok)
      as Hok1.
    destruct (mask_effect addr mask _ Hok1) as (_ & _ & _ & _ & _ & Hset & _).
    exact Hset.
Qed.

(** Register 0xeb holds 0x00: [ec_set_by_mask] of 0x0f returns 0 while
    [ec_set_bit] sets bit 4, and the mask then reads as not set. *)
Lemma set_bit_loses_set_by_mask_witness :
  exists w,
    rmw_run [0; 0; 1; 1; 1; 1; 0; 0]%nat
      (rmw_spawn (ec_image [(0xeb, 0x00)])
         [call_set_bit 0xeb 4 true; call_set_by_mask 0xeb 0x0f])
    = Some w
    /\ map snd (rmw_threads w) = [returned (Ok tt); returned (Ok tt)]
    /\ ec_check_by_mask 0xeb 0x0f (rmw_hw w)
       = ec_check_by_mask 0xeb 0x0f (ec_image [(0xeb, 0x00)]).
Proof.
  apply (proj1 (set_bit_loses_set_by_mask 0xeb 4 0x0f true
                  (ec_image [(0xeb, 0x00)])
                  ltac:(split; reflexivity)
                  ltac:(vm_compute; reflexivity)
                  ltac:(vm_compute; reflexivity))).
Defined.

(** ** Attributes without a gating address *)

Section DefaultVisibility.

Context {hdr : ec_memory_configuration}.

(** X17.  For an attribute that belongs to no feature address,
    [msi_ec_is_visible] takes its default branch and returns the
    attribute's mode whatever the profile, so sysfs lists the attribute in
    every group that holds it.  In the platform groups these attributes are
    [fw_version] and [fw_release_date], both in the root group: the cpu and
    gpu groups hold gated attributes only. *)
Theorem msi_ec_is_visible_default (conf : msi_ec_conf) (attr : attribute) :
  gating_address conf attr = None ->
  msi_ec_is_visible conf attr = mode attr
  /\ (forall g,
      In g (msi_debug_group :: msi_platform_groups) -> In attr (attrs g) ->
      In attr (sysfs_listed conf g))
  /\ (forall g,
      In g msi_platform_groups -> In attr (attrs g) ->
      g = msi_root_group
      /\ (attr = dev_attr_fw_version \/ attr = dev_attr_fw_release_date)).
Proof.
  intros Hgate.
  assert (Hvis : msi_ec_is_visible conf attr = mode attr)
    by (destruct attr; cbn [gating_address] in Hgate;
        try discriminate Hgate; reflexivity).
  split; [exact Hvis|]. split.
  - intros g Hg Hattr. unfold sysfs_listed.
    destruct (is_visible g) as [visible|] eqn:Hcb; [|exact Hattr].
    apply filter_In. split; [exact Hattr|].
    assert (Hv : visible = msi_ec_is_visible).
    { destruct Hg as [<-|[<-|[<-|[<-|[]]]]];
        cbv [is_visible msi_debug_group msi_root_group msi_cpu_group
             msi_gpu_group] in Hcb; congruence. }
    rewrite Hv, Hvis. apply negb_true_iff, Z.eqb_neq, mode_nonzero.
  - intros g Hg Hattr.
    destruct Hg as [<-|[<-|[<-|[]]]]; cbn [attrs] in Hattr;
      destruct attr; cbn [gating_address] in Hgate; try discriminate Hgate;
      cbn in Hattr;
      repeat (destruct Hattr as [Hattr|Hattr]; try discriminate Hattr);
      try contradiction;
      (split; [reflexivity | (left; reflexivity) || (right; reflexivity)]).
Qed.

End DefaultVisibility.

(** [fw_version] is listed in the root group of [CONF0]. *)
Lemma msi_ec_is_visible_default_witness :
  In dev_attr_fw_version
    (sysfs_listed (CONF0 (hdr := sample_header))
       (msi_root_group (hdr := sample_header))).
Proof.
  apply (proj1 (proj2 (msi_ec_is_visible_default (hdr := sample_header)
                         (CONF0 (hdr := sample_header)) dev_attr_fw_version
                         eq_refl))).
  - right. left. reflexivity.
  - cbn. tauto.
Defined.

(** ** Raw sensor attributes *)

(** X18.  [cpu_realtime_temperature_show], [gpu_realtime_temperature_show]
    and [gpu_realtime_fan_speed_show] print the register byte as it is, the
    GPU fan speed too, which is not scaled to a percentage: where the
    register can be read the call succeeds whatever the byte, and
    [kstrtou8] reads the byte back from the text. *)
Theorem raw_sensor_shows (c : msi_ec_conf) (st : ec) :
  (read_fault st (u8 (cpu_rt_temp_address (cpu c))) = None ->
   exists text,
     cpu_realtime_temperature_show c st = Ok text
     /\ kstrtou8 text = Ok (byte_at st (cpu_rt_temp_address (cpu c))))
  /\ (read_fault st (u8 (gpu_rt_temp_address (gpu c))) = None ->
      exists text,
        gpu_realtime_temperature_show c st = Ok text
        /\ kstrtou8 text = Ok (byte_at st (gpu_rt_temp_address (gpu c))))
  /\ (read_fault st (u8 (gpu_rt_fan_speed_address (gpu c))) = None ->
      exists text,
        gpu_realtime_fan_speed_show c st = Ok text
        /\ kstrtou8 text = Ok (byte_at st (gpu_rt_fan_speed_address (gpu c)))).
Proof.
  unfold cpu_realtime_temperature_show, gpu_realtime_temperature_show,
    gpu_realtime_fan_speed_show.
  split; [|split]; intros Hr; rewrite (ec_read_byte_at _ st Hr);
    eexists; (split; [reflexivity|]);
    apply kstrtou8_emit_i, byte_at_range.
Qed.

(** The GPU fan register 0x89 of [CONF0] holds 0x37 and is shown as 55. *)
Lemma raw_sensor_shows_witness :
  exists text,
    gpu_realtime_fan_speed_show (CONF0 (hdr := sample_header))
      (ec_image [(0x89, 0x37)]) = Ok text
    /\ kstrtou8 text
       = Ok (byte_at (ec_image [(0x89, 0x37)])
               (gpu_rt_fan_speed_address (gpu (CONF0 (hdr := sample_header))))).
Proof.
  apply (proj2 (proj2 (raw_sensor_shows (CONF0 (hdr := sample_header))
                         (ec_image [(0x89, 0x37)])))).
  reflexivity.
Defined.
